(** * obit_scraper: the fetch, extract and rewrite pipeline of [obit_scraper.py]

    A shallow embedding of [fetch_obit_content] and [scrape_rss_feed].
    Python [str] values are Rocq strings whose characters are ASCII code
    points.  The collaborators of the script (the [requests] call, the
    file system, the XML reader) are parameters of the run; the parts of
    [bs4] and [xml.etree.ElementTree] that the script calls are modelled
    on explicit trees.  Effects ([print], the HTTP request, the call of the
    HTML parser, [time.sleep], [tree.write]) are recorded in a log, and an
    uncaught Python exception is a [Raise] result. *)

From Stdlib Require Import String Ascii List Bool Arith ZArith Lia.
Import ListNotations.
Local Open Scope string_scope.
Local Open Scope list_scope.
Set Warnings "-register-all".

(** The line feed. *)
Definition nl : string := String "010" EmptyString.

(** The double quote. *)
Definition dq : string := String "034" EmptyString.

(** ** Python [str] operations used by the script *)

Module Py.

(** [str.lower] on one character. *)
Definition lower_char (c : ascii) : ascii :=
  let n := nat_of_ascii c in
  if ((65 <=? n) && (n <=? 90))%nat then ascii_of_nat (n + 32) else c.

(** [s.lower()] *)
Fixpoint lower (s : string) : string :=
  match s with
  | EmptyString => EmptyString
  | String c t => String (lower_char c) (lower t)
  end.

(** [s[:n]] *)
Fixpoint slice_to (n : nat) (s : string) : string :=
  match n, s with
  | S k, String c t => String c (slice_to k t)
  | _, _ => EmptyString
  end.

(** [s.startswith(p)] *)
Fixpoint startswith (p s : string) : bool :=
  match p, s with
  | EmptyString, _ => true
  | String a p', String b s' => Ascii.eqb a b && startswith p' s'
  | String _ _, EmptyString => false
  end.

(** [needle in hay] *)
Fixpoint contains (needle hay : string) : bool :=
  startswith needle hay ||
  match hay with
  | EmptyString => false
  | String _ t => contains needle t
  end.

(** [c.isspace()] for an ASCII character: tab, line feed, vertical tab, form
    feed, carriage return, the four separators 28..31 and the space. *)
Definition isspace (c : ascii) : bool :=
  let n := nat_of_ascii c in
  (((9 <=? n) && (n <=? 13)) || ((28 <=? n) && (n <=? 32)))%nat.

Fixpoint lstrip (s : string) : string :=
  match s with
  | String c t => if isspace c then lstrip t else s
  | EmptyString => EmptyString
  end.

Fixpoint rstrip (s : string) : string :=
  match s with
  | EmptyString => EmptyString
  | String c t =>
      match rstrip t with
      | EmptyString => if isspace c then EmptyString else String c EmptyString
      | t' => String c t'
      end
  end.

(** [s.strip()] *)
Definition strip (s : string) : string := rstrip (lstrip s).

(** [sep.join(parts)] *)
Definition join (sep : string) (parts : list string) : string :=
  String.concat sep parts.

(** [s.replace(old, new)] for a one-character [old]. *)
Fixpoint replace_char (old : ascii) (new : string) (s : string) : string :=
  match s with
  | EmptyString => EmptyString
  | String c t =>
      if Ascii.eqb c old then (new ++ replace_char old new t)%string
      else String c (replace_char old new t)
  end.

(** Truth value of a string: the empty string is false. *)
Definition truthy (s : string) : bool :=
  match s with EmptyString => false | _ => true end.

End Py.

(** Lookup in a Python [dict] with string keys, kept as an association list
    in insertion order. *)
Fixpoint dict_get {A : Type} (k : string) (d : list (string * A)) : option A :=
  match d with
  | [] => None
  | (k', v) :: rest => if String.eqb k k' then Some v else dict_get k rest
  end.

(** ** The part of [bs4] that the script calls

    A parsed page is the list of top-level nodes of the [BeautifulSoup]
    object.  An attribute dictionary keeps the order of the markup and
    holds each value as its text; [str(tag)] writes the attributes sorted
    by name, and a value that [bs4] holds as a list of words with the words
    joined by single spaces. *)

Module Bs4.

Inductive node : Type :=
| Tag (name : string) (attrs : list (string * string)) (contents : list node)
| NavigableString (s : string)
| Comment (s : string).

Definition soup : Type := list node.

(** A node followed by everything below it, in document order. *)
Fixpoint subtree (n : node) : list node :=
  n :: match n with
       | Tag _ _ contents => flat_map subtree contents
       | _ => []
       end.

(** [tag.descendants] *)
Definition descendants (contents : list node) : list node :=
  flat_map subtree contents.

Definition contents_of (n : node) : list node :=
  match n with Tag _ _ contents => contents | _ => [] end.

(** [tag.get(key)] *)
Definition get (n : node) (key : string) : option string :=
  match n with Tag _ attrs _ => dict_get key attrs | _ => None end.

(** [tag.get(key, default)] *)
Definition get_default (n : node) (key default : string) : string :=
  match get n key with Some v => v | None => default end.

Definition is_tag_named (name : string) (n : node) : bool :=
  match n with Tag name' _ _ => String.eqb name' name | _ => false end.

(** The two attribute filters of the script: [{key: True}] accepts any
    value, [{key: value}] accepts exactly [value]. *)
Inductive attr_filter : Type :=
| AnyValue (key : string)
| HasValue (key value : string).

Definition attr_matches (f : attr_filter) (n : node) : bool :=
  match f with
  | AnyValue key => match get n key with Some _ => true | None => false end
  | HasValue key value =>
      match get n key with Some v => String.eqb v value | None => false end
  end.

(** [find_all(name, attrs=...)] below a list of nodes. *)
Definition find_all (contents : list node) (name : string)
    (filters : list attr_filter) : list node :=
  filter (fun n => is_tag_named name n && forallb (fun f => attr_matches f n) filters)
         (descendants contents).

(** [tag.find(name, attrs=...)]: the first match below the tag, or [None]. *)
Definition find (n : node) (name : string) (filters : list attr_filter)
    : option node :=
  hd_error (find_all (contents_of n) name filters).

Definition string_of (n : node) : list string :=
  match n with NavigableString s => [s] | _ => [] end.

(** [tag.get_text(strip=True)]: the text nodes below the tag, each stripped,
    the empty ones dropped, joined without a separator. *)
Definition get_text_strip (n : node) : string :=
  Py.join "" (filter Py.truthy
               (map Py.strip (flat_map string_of (descendants (contents_of n))))).

(** Output formatting of [str(tag)] with the default "minimal" formatter. *)
Definition substitute_xml (s : string) : string :=
  Py.replace_char ">" "&gt;" (Py.replace_char "<" "&lt;" (Py.replace_char "&" "&amp;" s)).

Definition quoted_attribute_value (v : string) : string :=
  if Py.contains dq v then
    if Py.contains "'" v
    then (dq ++ Py.replace_char "034" "&quot;" v ++ dq)%string
    else ("'" ++ v ++ "'")%string
  else (dq ++ v ++ dq)%string.

Definition void_elements : list string :=
  ["area"; "base"; "br"; "col"; "embed"; "hr"; "img"; "input"; "keygen";
   "link"; "menuitem"; "meta"; "param"; "source"; "track"; "wbr";
   "basefont"; "bgsound"; "command"; "frame"; "image"; "isindex"; "nextid";
   "spacer"].

Definition can_be_empty_element (name : string) : bool :=
  existsb (String.eqb name) void_elements.

(** The attributes whose value is a list of words: for every tag, and for
    particular tags. *)
Definition cdata_list_attribute (name key : string) : bool :=
  existsb (String.eqb key) ["class"; "accesskey"; "dropzone"] ||
  existsb (fun entry => String.eqb name (fst entry) && String.eqb key (snd entry))
    [("a", "rel"); ("a", "rev"); ("link", "rel"); ("link", "rev");
     ("td", "headers"); ("th", "headers"); ("form", "accept-charset");
     ("object", "archive"); ("area", "rel"); ("icon", "sizes");
     ("iframe", "sandbox"); ("output", "for")].

(** The words of a string, in the way of [s.split()]. *)
Fixpoint words_from (word : string) (s : string) : list string :=
  match s with
  | EmptyString => if Py.truthy word then [word] else []
  | String c t =>
      if Py.isspace c
      then (if Py.truthy word then [word] else []) ++ words_from EmptyString t
      else words_from (word ++ String c EmptyString) t
  end.

(** The value of an attribute as it is written: a list of words is joined
    by single spaces. *)
Definition attribute_value (name key value : string) : string :=
  if cdata_list_attribute name key
  then String.concat " " (words_from EmptyString value)
  else value.

(** [sorted(attrs.items())]: the attributes by name. *)
Fixpoint insert_attr (kv : string * string) (sorted : list (string * string))
    : list (string * string) :=
  match sorted with
  | [] => [kv]
  | kv' :: rest =>
      if String.leb (fst kv) (fst kv') then kv :: sorted
      else kv' :: insert_attr kv rest
  end.

Definition sort_attrs (attrs : list (string * string)) : list (string * string) :=
  fold_right insert_attr [] attrs.

Definition decode_attrs (name : string) (attrs : list (string * string)) : string :=
  String.concat ""
    (map (fun kv => (" " ++ fst kv ++ "=" ++
                     quoted_attribute_value
                       (substitute_xml (attribute_value name (fst kv) (snd kv))))%string)
         (sort_attrs attrs)).

(** [str(node)] *)
Fixpoint decode (n : node) : string :=
  match n with
  | NavigableString s => substitute_xml s
  | Comment s => ("<!--" ++ s ++ "-->")%string
  | Tag name attrs contents =>
      match contents with
      | [] =>
          if can_be_empty_element name
          then ("<" ++ name ++ decode_attrs name attrs ++ "/>")%string
          else ("<" ++ name ++ decode_attrs name attrs ++ "></" ++ name ++ ">")%string
      | _ =>
          ("<" ++ name ++ decode_attrs name attrs ++ ">" ++
           String.concat "" (map decode contents) ++ "</" ++ name ++ ">")%string
      end
  end.

End Bs4.

(** ** The part of [xml.etree.ElementTree] that the script calls

    Tags and attribute names carry no namespace. *)

Module ET.

Inductive Element : Type :=
  mkElement (tag : string) (attrib : list (string * string))
            (text tail : option string) (children : list Element).

Definition tag (e : Element) : string :=
  match e with mkElement t _ _ _ _ => t end.
Definition attrib (e : Element) : list (string * string) :=
  match e with mkElement _ a _ _ _ => a end.
Definition text (e : Element) : option string :=
  match e with mkElement _ _ x _ _ => x end.
Definition tail (e : Element) : option string :=
  match e with mkElement _ _ _ x _ => x end.
Definition children (e : Element) : list Element :=
  match e with mkElement _ _ _ _ c => c end.

Definition has_tag (name : string) (e : Element) : bool :=
  String.eqb (tag e) name.

(** [elem.find(name)]: the first child with that tag. *)
Definition find (e : Element) (name : string) : option Element :=
  List.find (has_tag name) (children e).

(** [elem.findall(name)]: the children with that tag, in document order. *)
Definition findall (e : Element) (name : string) : list Element :=
  filter (has_tag name) (children e).

(** The element after [elem.text = value]. *)
Definition set_text (e : Element) (value : string) : Element :=
  mkElement (tag e) (attrib e) (Some value) (tail e) (children e).

Definition set_children (e : Element) (cs : list Element) : Element :=
  mkElement (tag e) (attrib e) (text e) (tail e) cs.

(** The element after [ET.SubElement(elem, name)]: a new empty child is
    appended. *)
Definition SubElement (e : Element) (name : string) : Element :=
  set_children e (children e ++ [mkElement name [] None None []]).

(** The children after a mutation [f] of the first child with tag [name]
    (the object that [find] returned). *)
Fixpoint update_first (name : string) (f : Element -> Element)
    (cs : list Element) : list Element :=
  match cs with
  | [] => []
  | c :: rest =>
      if has_tag name c then f c :: rest
      else c :: update_first name f rest
  end.

(** The children after the objects that [findall] returned have reached the
    states [news], in order. *)
Fixpoint put_back (name : string) (cs news : list Element) : list Element :=
  match cs with
  | [] => []
  | c :: rest =>
      if has_tag name c then
        match news with
        | n :: news' => n :: put_back name rest news'
        | [] => c :: put_back name rest []
        end
      else c :: put_back name rest news
  end.

(** Serialisation, as [ElementTree.write] does it. *)
Definition escape_cdata (s : string) : string :=
  Py.replace_char ">" "&gt;" (Py.replace_char "<" "&lt;" (Py.replace_char "&" "&amp;" s)).

Definition escape_attrib (s : string) : string :=
  Py.replace_char "009" "&#09;"
   (Py.replace_char "010" "&#10;"
    (Py.replace_char "013" "&#13;"
     (Py.replace_char "034" "&quot;" (escape_cdata s)))).

Definition serialize_attrib (a : list (string * string)) : string :=
  String.concat ""
    (map (fun kv => (" " ++ fst kv ++ "=" ++ dq ++ escape_attrib (snd kv) ++ dq)%string) a).

Definition opt_text (o : option string) : string :=
  match o with Some s => s | None => "" end.

Fixpoint serialize_xml (e : Element) : string :=
  match e with
  | mkElement t a x tl cs =>
      (("<" ++ t ++ serialize_attrib a ++
        (if Py.truthy (opt_text x) || negb (Nat.eqb (List.length cs) 0)
         then ">" ++ escape_cdata (opt_text x) ++
              String.concat "" (map serialize_xml cs) ++ "</" ++ t ++ ">"
         else " />")) ++ escape_cdata (opt_text tl))%string
  end.

(** The text that [tree.write(path, encoding='utf-8', xml_declaration=True)]
    puts in the file. *)
Definition write (root : Element) : string :=
  ("<?xml version='1.0' encoding='utf-8'?>" ++ String "010" (serialize_xml root))%string.

End ET.

(** ** The tree that [BeautifulSoup(markup, 'html.parser')] builds

    A model for markup made of start tags with attributes (double-quoted,
    single-quoted, unquoted or without value), end tags, comments and text,
    with the one case in which [html.parser] of Python 3.11 gives up: a
    marked section with an unknown keyword, on which the constructor
    raises.  Character references, [script] and [style] bodies, doctype
    declarations, marked sections with a known keyword or cut short by the
    end of the markup, processing instructions and the white space of [pre]
    are outside the model: such markup is kept as text. *)

Module HtmlParser.

Inductive token : Type :=
| StartTag (name : string) (attrs : list (string * string)) (self_closing : bool)
| EndTag (name : string)
| Data (s : string)
| CommentTok (s : string)
| Rejected.

(** The longest prefix whose characters satisfy [p], and the rest. *)
Fixpoint span (p : ascii -> bool) (s : string) : string * string :=
  match s with
  | String c t =>
      if p c then let (a, b) := span p t in (String c a, b) else (EmptyString, s)
  | EmptyString => (EmptyString, EmptyString)
  end.

Definition is_letter (c : ascii) : bool :=
  let n := nat_of_ascii (Py.lower_char c) in ((97 <=? n) && (n <=? 122))%nat.

(** The white space of HTML: space, tab, line feed, form feed, carriage
    return. *)
Definition html_space (c : ascii) : bool :=
  let n := nat_of_ascii c in
  ((n =? 32) || (n =? 9) || (n =? 10) || (n =? 12) || (n =? 13))%nat.

Definition one_of (cs : string) (c : ascii) : bool :=
  existsb (Ascii.eqb c) (list_ascii_of_string cs).

Definition skip_spaces (s : string) : string := snd (span html_space s).

(** Assignment to a key of a [dict]: a known key keeps its place. *)
Fixpoint dict_set (k v : string) (d : list (string * string))
    : list (string * string) :=
  match d with
  | [] => [(k, v)]
  | (k', v') :: rest =>
      if String.eqb k k' then (k, v) :: rest else (k', v') :: dict_set k v rest
  end.

Fixpoint drop (n : nat) (s : string) : string :=
  match n, s with
  | S k, String _ t => drop k t
  | _, _ => s
  end.

(** The text up to the first occurrence of [stop], and the text after it. *)
Fixpoint split_at (stop : string) (s : string) : option (string * string) :=
  if Py.startswith stop s then Some (EmptyString, drop (String.length stop) s)
  else match s with
       | EmptyString => None
       | String c t =>
           match split_at stop t with
           | Some (a, b) => Some (String c a, b)
           | None => None
           end
       end.

(** The attributes of a start tag up to its closing bracket: the attributes,
    whether the tag ends in a slash, and the markup after the tag. *)
Fixpoint parse_attrs (fuel : nat) (acc : list (string * string)) (s : string)
    : option (list (string * string) * bool * string) :=
  match fuel with
  | O => None
  | S fuel' =>
      match skip_spaces s with
      | EmptyString => None
      | String ">" r => Some (acc, false, r)
      | String "/" (String ">" r) => Some (acc, true, r)
      | String "/" r => parse_attrs fuel' acc r
      | String c r =>
          let (name_tail, r1) := span (fun x => negb (html_space x || one_of "/=>" x)) r in
          let name := Py.lower (String c name_tail) in
          match skip_spaces r1 with
          | String "=" r2 =>
              match skip_spaces (snd (span (Ascii.eqb "=") r2)) with
              | String "034" r3 =>
                  match span (fun x => negb (Ascii.eqb x "034")) r3 with
                  | (v, String _ r4) => parse_attrs fuel' (dict_set name v acc) r4
                  | (_, EmptyString) => None
                  end
              | String "'" r3 =>
                  match span (fun x => negb (Ascii.eqb x "'")) r3 with
                  | (v, String _ r4) => parse_attrs fuel' (dict_set name v acc) r4
                  | (_, EmptyString) => None
                  end
              | r3 =>
                  let (v, r4) := span (fun x => negb (html_space x || Ascii.eqb x ">")) r3 in
                  parse_attrs fuel' (dict_set name v acc) r4
              end
          | _ => parse_attrs fuel' (dict_set name EmptyString acc) r1
          end
      end
  end.

(** The construct that starts after an opening bracket, if there is one. *)
Definition lex_markup (after_lt : string) : option (token * string) :=
  match after_lt with
  | String "!" (String "-" (String "-" r)) =>
      match split_at "-->" r with
      | Some (body, rest) => Some (CommentTok body, rest)
      | None => None
      end
  | String "/" (String c r) =>
      if is_letter c then
        let (name_tail, r1) := span (fun x => negb (html_space x || Ascii.eqb x ">")) r in
        match skip_spaces r1 with
        | String ">" rest => Some (EndTag (Py.lower (String c name_tail)), rest)
        | _ => None
        end
      else None
  | String c r =>
      if is_letter c then
        let (name_tail, r1) := span (fun x => negb (html_space x || one_of "/>" x)) r in
        match parse_attrs (S (String.length r1)) [] r1 with
        | Some (attrs, self_closing, rest) =>
            Some (StartTag (Py.lower (String c name_tail)) attrs self_closing, rest)
        | None => None
        end
      else None
  | EmptyString => None
  end.

Definition not_lt (c : ascii) : bool := negb (Ascii.eqb c "<").

Definition is_name_char (c : ascii) : bool :=
  let n := nat_of_ascii c in
  is_letter c || ((48 <=? n) && (n <=? 57))%nat || one_of "-_." c.

(** Whether the parser gives up at a marked section, whose opening bracket
    and exclamation mark are followed by a square bracket: it does when no
    name follows, or a name other than the keywords that it knows.  A
    section that the end of the markup cuts short is not an error. *)
Definition rejects_marked_section (after_lt : string) : bool :=
  match after_lt with
  | String "!" (String "[" r) =>
      match r with
      | EmptyString => false
      | String c _ =>
          if is_letter c then
            let (name, r1) := span is_name_char r in
            match snd (span Py.isspace r1) with
            | EmptyString => false
            | _ =>
                negb (existsb (String.eqb (Py.lower name))
                        ["temp"; "cdata"; "ignore"; "include"; "rcdata";
                         "if"; "else"; "endif"])
            end
          else true
      end
  | _ => false
  end.

Fixpoint lex (fuel : nat) (s : string) : list token :=
  match fuel with
  | O => []
  | S fuel' =>
      match s with
      | EmptyString => []
      | String "<" r =>
          if rejects_marked_section r then [Rejected]
          else
            match lex_markup r with
            | Some (tok, rest) => tok :: lex fuel' rest
            | None =>
                let (d, rest) := span not_lt r in Data (String "<" d) :: lex fuel' rest
            end
      | _ => let (d, rest) := span not_lt s in Data d :: lex fuel' rest
      end
  end.

(** Text that reaches the tree in one piece: adjacent runs are one string. *)
Fixpoint merge_data (ts : list token) : list token :=
  match ts with
  | Data a :: rest =>
      match merge_data rest with
      | Data b :: rest' => Data (a ++ b)%string :: rest'
      | rest' => Data a :: rest'
      end
  | t :: rest => t :: merge_data rest
  | [] => []
  end.

Fixpoint all_chars (p : ascii -> bool) (s : string) : bool :=
  match s with
  | EmptyString => true
  | String c t => p c && all_chars p t
  end.

(** A string of white space only is kept as one line feed, or as one space
    when it holds no line feed. *)
Definition end_data (s : string) : string :=
  if all_chars html_space s then
    if Py.contains nl s then nl else " "
  else s.

(** An open tag: its name, its attributes and its children so far, the
    latest first. *)
Definition frame : Type := (string * list (string * string) * list Bs4.node)%type.

Definition add_child (n : Bs4.node) (opened : list frame) (top : list Bs4.node)
    : list frame * list Bs4.node :=
  match opened with
  | (name, attrs, kids) :: rest => ((name, attrs, n :: kids) :: rest, top)
  | [] => ([], n :: top)
  end.

Definition is_open (name : string) (opened : list frame) : bool :=
  existsb (fun f => String.eqb (fst (fst f)) name) opened.

(** The open tags are closed from the innermost up to the latest one named
    [name]; [carry] holds the tag that was just closed. *)
Fixpoint close_until (name : string) (carry : list Bs4.node)
    (opened : list frame) (top : list Bs4.node) : list frame * list Bs4.node :=
  match opened with
  | [] => ([], carry ++ top)
  | (nm, attrs, kids) :: rest =>
      let n := Bs4.Tag nm attrs (rev (carry ++ kids)) in
      if String.eqb nm name then add_child n rest top
      else close_until name [n] rest top
  end.

(** At the end of the markup every open tag is closed. *)
Fixpoint close_all (carry : list Bs4.node) (opened : list frame)
    (top : list Bs4.node) : list Bs4.node :=
  match opened with
  | [] => rev (carry ++ top)
  | (nm, attrs, kids) :: rest =>
      close_all [Bs4.Tag nm attrs (rev (carry ++ kids))] rest top
  end.

Fixpoint build (ts : list token) (opened : list frame) (top : list Bs4.node)
    : Bs4.soup :=
  match ts with
  | [] => close_all [] opened top
  | StartTag name attrs self_closing :: rest =>
      if self_closing || Bs4.can_be_empty_element name then
        let (opened', top') := add_child (Bs4.Tag name attrs []) opened top in
        build rest opened' top'
      else build rest ((name, attrs, []) :: opened) top
  | EndTag name :: rest =>
      if is_open name opened then
        let (opened', top') := close_until name [] opened top in
        build rest opened' top'
      else build rest opened top
  | Data s :: rest =>
      let (opened', top') := add_child (Bs4.NavigableString (end_data s)) opened top in
      build rest opened' top'
  | CommentTok s :: rest =>
      let (opened', top') := add_child (Bs4.Comment s) opened top in
      build rest opened' top'
  | Rejected :: _ => close_all [] opened top
  end.

Definition is_rejected (t : token) : bool :=
  match t with Rejected => true | _ => false end.

(** [BeautifulSoup(markup, 'html.parser')]: [None] when the parser gives up
    and the call raises. *)
Definition BeautifulSoup (markup : string) : option Bs4.soup :=
  let tokens := lex (S (String.length markup)) markup in
  if existsb is_rejected tokens then None
  else Some (build (merge_data tokens) [] []).

End HtmlParser.

(** ** Effects and exceptions *)

(** The uncaught exceptions that the script can end with. *)
Inductive exn : Type :=
| AttributeError
| KeyError
| OSError
| ParserRejectedMarkup.

Inductive result (A : Type) : Type :=
| Ok (a : A)
| Raise (e : exn).
Arguments Ok {A} a.
Arguments Raise {A} e.

(** How the existence check and the opening of the input path turn out. *)
Inductive path_state : Type :=
| Missing
| Unreadable
| Readable (content : string).

(** ** Sample pages, feeds and files *)

Module Sample.

Definition jane_markup : string :=
  ("<div data-blog-component=" ++ dq ++ "subtitle" ++ dq ++ "><h3>Jane Doe</h3></div>" ++
   "<div data-blog-component=" ++ dq ++ "image" ++ dq ++ ">" ++
   "<img src=" ++ dq ++ "http://x/a.jpg" ++ dq ++ "></div>")%string.

Definition challenge_markup : string :=
  ("<html><body><h1>Are You Human?</h1><div data-blog-component=" ++ dq ++ "subtitle" ++ dq ++
   "><h3>Jane Doe</h3></div></body></html>")%string.

Definition bare_challenge_markup : string := "are you human".

Definition plain_markup : string :=
  ("<html><body><div data-blog-component=" ++ dq ++ "video" ++ dq ++
   "><h3>Clip</h3></div><p>Nothing here</p></body></html>")%string.

(** A page with a marked section that is none of those of the parser. *)
Definition rejected_markup : string := "<p>In memory</p><![foo]]>".

(** The web during the sample runs. *)
Definition web (url user_agent : string) : option (nat * string) :=
  if String.eqb url "http://x/jane" then Some (200, jane_markup)
  else if String.eqb url "http://x/blocked" then Some (200, challenge_markup)
  else if String.eqb url "http://x/bare" then Some (200, bare_challenge_markup)
  else if String.eqb url "http://x/plain" then Some (200, plain_markup)
  else if String.eqb url "http://x/gone" then Some (404, "Not Found")
  else if String.eqb url "http://x/rejected" then Some (200, rejected_markup)
  else None.

Definition leaf (tag text : string) : ET.Element :=
  ET.mkElement tag [] (Some text) None [].

Definition item (fields : list ET.Element) : ET.Element :=
  ET.mkElement "item" [] None None fields.

Definition channel (items : list ET.Element) : ET.Element :=
  ET.mkElement "channel" [] None None (leaf "title" "Obituaries" :: items).

Definition rss (items : list ET.Element) : ET.Element :=
  ET.mkElement "rss" [("version", "2.0")] None None [channel items].

Definition jane_item : ET.Element :=
  item [leaf "title" "Jane Doe"; leaf "link" " http://x/jane "].

Definition linkless_item : ET.Element :=
  item [leaf "title" "No page"; leaf "description" "kept"].

Definition blocked_item : ET.Element :=
  item [leaf "title" "Blocked"; leaf "link" "http://x/blocked"; leaf "description" "old"].

Definition gone_item : ET.Element :=
  item [leaf "link" "http://x/gone"; leaf "description" "old"].

Definition empty_link_item : ET.Element :=
  item [leaf "title" "Empty"; ET.mkElement "link" [] None None []].

Definition one_feed : ET.Element := rss [jane_item].
Definition blocked_feed : ET.Element :=
  rss [linkless_item; jane_item; blocked_item; jane_item].
Definition gone_feed : ET.Element := rss [gone_item; jane_item].
Definition empty_link_feed : ET.Element := rss [jane_item; empty_link_item; jane_item].

(** The files of the sample runs, each named after what it holds. *)
Definition fs (path : string) : path_state :=
  if String.eqb path "one.xml" then Readable "one"
  else if String.eqb path "blocked.xml" then Readable "blocked"
  else if String.eqb path "gone.xml" then Readable "gone"
  else if String.eqb path "empty_link.xml" then Readable "empty_link"
  else if String.eqb path "broken.xml" then Readable "<rss><channel>"
  else if String.eqb path "no_channel.xml" then Readable "<rss version='2.0' />"
  else if String.eqb path "a_directory" then Unreadable
  else Missing.

Definition reader (content : string) : option ET.Element :=
  if String.eqb content "one" then Some one_feed
  else if String.eqb content "blocked" then Some blocked_feed
  else if String.eqb content "gone" then Some gone_feed
  else if String.eqb content "empty_link" then Some empty_link_feed
  else if String.eqb content "<rss version='2.0' />"
  then Some (ET.mkElement "rss" [("version", "2.0")] None None [])
  else None.

End Sample.

(** ** More sample feeds, and the sample fields of the form *)

Module More.

Definition empty_title_item : ET.Element :=
  Sample.item [ET.mkElement "title" [] None None []; Sample.leaf "link" "http://x/jane"].

Definition empty_title_feed : ET.Element :=
  Sample.rss [Sample.jane_item; empty_title_item; Sample.jane_item].

Definition linkless_feed : ET.Element :=
  Sample.rss [Sample.linkless_item; Sample.item []].

Definition first_blocked_feed : ET.Element :=
  Sample.rss [Sample.linkless_item; Sample.blocked_item; Sample.jane_item].

Definition rejected_item : ET.Element :=
  Sample.item [Sample.leaf "title" "Rejected"; Sample.leaf "link" "http://x/rejected"].

Definition rejected_feed : ET.Element :=
  Sample.rss [Sample.jane_item; rejected_item; Sample.jane_item].

(** A page with a text block whose attributes are not in the order of
    their names and whose class holds two words two spaces apart. *)
Definition text_markup : string :=
  ("<div data-blog-component=" ++ dq ++ "text" ++ dq ++ ">" ++
   "<div id=" ++ dq ++ "x" ++ dq ++ " data-blog-inner=" ++ dq ++ "text" ++ dq ++
   " class=" ++ dq ++ "b  a" ++ dq ++ "><p>Hi</p></div></div>")%string.

Definition fs (path : string) : path_state :=
  if String.eqb path "empty_title.xml" then Readable "empty_title"
  else if String.eqb path "rejected.xml" then Readable "rejected"
  else if String.eqb path "linkless.xml" then Readable "linkless"
  else if String.eqb path "first_blocked.xml" then Readable "first_blocked"
  else Sample.fs path.

Definition reader (content : string) : option ET.Element :=
  if String.eqb content "empty_title" then Some empty_title_feed
  else if String.eqb content "rejected" then Some rejected_feed
  else if String.eqb content "linkless" then Some linkless_feed
  else if String.eqb content "first_blocked" then Some first_blocked_feed
  else Sample.reader content.

(** The delay fields that the samples use, read as whole seconds. *)
Definition float (text : string) : option Z :=
  if String.eqb text "3" then Some 3%Z
  else if String.eqb text " 0 " then Some 0%Z
  else if String.eqb text "-1" then Some (-1)%Z
  else None.

Definition negative (delay : Z) : bool := (delay <? 0)%Z.

End More.

Section Run.

(** The delay: a non-negative Python float, which the script only prints
    and hands to [time.sleep]. *)
Context {seconds : Type}.

(** One constructor per [print] of the script, with the values it formats. *)
Inductive log_line : Type :=
| ErrorFetching (url : string)
| DebugFetched (url : string) (status_code : nat)
| DebugFirst500 (sample : string)
| ErrorCaptcha
| DebugFound (n : nat)
| DebugHandling (comp_type : string)
| InfoParsing (input_file : string)
| ErrorNoFile (input_file : string)
| ErrorParse
| ErrorNoChannel (input_file : string)
| InfoFound (n : nat) (input_file : string)
| WarnNoLink (i n : nat)
| InfoProcessing (i n : nat) (title_text url : string)
| InfoBlocked (i : nat) (title_text : string)
| InfoWaiting (delay : seconds)
| InfoDone (output_file : string).

Inductive event : Type :=
| Print (line : log_line)
| HttpGet (url user_agent : string) (timeout : nat)
| MakeSoup (markup features : string)
| Sleep (delay : seconds)
| TreeWrite (output_file : string) (root : ET.Element).

(** A computation yields the events it performed, in order, and either a
    value or the exception that ended it. *)
Definition M (A : Type) : Type := (list event * result A)%type.

Definition ret {A : Type} (a : A) : M A := ([], Ok a).

Definition bind {A B : Type} (m : M A) (f : A -> M B) : M B :=
  match snd m with
  | Ok a => (fst m ++ fst (f a), snd (f a))
  | Raise e => (fst m, Raise e)
  end.

Definition emit (e : event) : M unit := ([e], Ok tt).
Definition print (line : log_line) : M unit := emit (Print line).
Definition raise {A : Type} (e : exn) : M A := ([], Raise e).

Notation "x <- m ;; k" := (bind m (fun x => k))
  (at level 61, m at next level, right associativity).
Notation "m ;; k" := (bind m (fun _ => k))
  (at level 61, right associativity).

(** ** The collaborators of a run *)

(** [requests.get(url, headers={"User-Agent": user_agent}, timeout=10)]:
    [None] when the call raises a [RequestException], otherwise the status
    code and [resp.text].  The web answers a URL in the same way throughout
    one run. *)
Variable requests_get : string -> string -> option (nat * string).

(** [BeautifulSoup(markup, 'html.parser')]: [None] when the parser gives up
    on the markup and the constructor raises [ParserRejectedMarkup]. *)
Variable BeautifulSoup : string -> option Bs4.soup.

(** The input path as [os.path.exists] and [open] find it. *)
Variable fs : string -> path_state.

(** The XML reader behind [ET.parse]: [None] when it raises [ParseError]. *)
Variable XMLParser : string -> option ET.Element.

(** [resp.raise_for_status()] raises for the status codes 400..599. *)
Definition raises_for_status (status_code : nat) : bool :=
  (400 <=? status_code)%nat && (status_code <? 600)%nat.

(** [tag[key]] *)
Definition getitem (n : Bs4.node) (key : string) : M string :=
  match Bs4.get n key with
  | Some v => ret v
  | None => raise KeyError
  end.

Definition truthy_opt (o : option string) : bool :=
  match o with Some s => Py.truthy s | None => false end.

(** ** [fetch_obit_content] *)

(** The body of [for div in content_divs]. *)
Definition handle_div (div : Bs4.node) (combined_html : list string)
    : M (list string) :=
  let comp_type := Bs4.get_default div "data-blog-component" "unknown" in
  print (DebugHandling comp_type) ;;
  if String.eqb comp_type "subtitle" then
    match Bs4.find div "h3" [] with
    | Some h3 =>
        ret (combined_html ++ [("<h3>" ++ Bs4.get_text_strip h3 ++ "</h3>")%string])
    | None => ret combined_html
    end
  else if String.eqb comp_type "image" then
    match Bs4.find div "img" [] with
    | Some img_tag =>
        if truthy_opt (Bs4.get img_tag "src") then
          image_src <- getitem img_tag "src" ;;
          ret (combined_html ++
               [("<img src=" ++ dq ++ image_src ++ dq ++ " alt=" ++ dq ++ "obit image" ++ dq ++ " />")%string])
        else ret combined_html
    | None => ret combined_html
    end
  else if String.eqb comp_type "text" then
    match Bs4.find div "div" [Bs4.HasValue "data-blog-inner" "text"] with
    | Some text_div => ret (combined_html ++ [Bs4.decode text_div])
    | None => ret combined_html
    end
  else ret combined_html.

Fixpoint for_divs (content_divs : list Bs4.node) (combined_html : list string)
    : M (list string) :=
  match content_divs with
  | [] => ret combined_html
  | div :: rest =>
      combined_html' <- handle_div div combined_html ;;
      for_divs rest combined_html'
  end.

(** The result is [None] for Python's [None] (the challenge page) and
    [Some html] for a string.  The parse of line 38 is outside the [try]
    of line 22: what the parser raises ends the call. *)
Definition fetch_obit_content (url user_agent : string) : M (option string) :=
  emit (HttpGet url user_agent 10) ;;
  match requests_get url user_agent with
  | None => print (ErrorFetching url) ;; ret (Some "")
  | Some (status_code, text) =>
      if raises_for_status status_code then
        print (ErrorFetching url) ;; ret (Some "")
      else
        print (DebugFetched url status_code) ;;
        let sample_html := Py.lower (Py.slice_to 500 text) in
        print (DebugFirst500 (Py.slice_to 500 text)) ;;
        if Py.contains "are you human" sample_html then
          print ErrorCaptcha ;; ret None
        else
          emit (MakeSoup text "html.parser") ;;
          match BeautifulSoup text with
          | None => raise ParserRejectedMarkup
          | Some soup =>
              let content_divs :=
                Bs4.find_all soup "div" [Bs4.AnyValue "data-blog-component"] in
              print (DebugFound (List.length content_divs)) ;;
              combined_html <- for_divs content_divs [] ;;
              ret (Some (Py.join nl combined_html))
          end
  end.

(** ** [scrape_rss_feed] *)

(** [elem.text.strip()]: the text of an element without text is [None],
    which has no [strip]. *)
Definition text_strip (elem : ET.Element) : M string :=
  match ET.text elem with
  | Some s => ret (Py.strip s)
  | None => raise AttributeError
  end.

(** Lines 116 to 120: the description child is looked up, created at the
    end of the item when there is none, and its text is assigned. *)
Definition store_description (item : ET.Element) (obit_html : string)
    : ET.Element :=
  let item1 :=
    match ET.find item "description" with
    | None => ET.SubElement item "description"
    | Some _ => item
    end in
  ET.set_children item1
    (ET.update_first "description"
       (fun desc_elem =>
          ET.set_text desc_elem ("<![CDATA[" ++ nl ++ obit_html ++ nl ++ "]]>")%string)
       (ET.children item1)).

(** How one pass through the loop body ends: the loop goes on with the item
    in its new state, or [break] leaves the loop. *)
Inductive control : Type :=
| Next (item : ET.Element)
| Break.

(** [title_elem.text.strip() if title_elem is not None else "No Title"] *)
Definition item_title (item : ET.Element) : M string :=
  match ET.find item "title" with
  | Some title_elem => text_strip title_elem
  | None => ret "No Title"
  end.

(** The body of [for i, item in enumerate(items, start=1)], where [n] is
    [len(items)]. *)
Definition loop_body (delay : seconds) (user_agent : string) (i n : nat)
    (item : ET.Element) : M control :=
  match ET.find item "link" with
  | None => print (WarnNoLink i n) ;; ret (Next item)
  | Some link_elem =>
      url <- text_strip link_elem ;;
      title_text <- item_title item ;;
      print (InfoProcessing i n title_text url) ;;
      obit_html <- fetch_obit_content url user_agent ;;
      match obit_html with
      | None => print (InfoBlocked i title_text) ;; ret Break
      | Some html =>
          let item' := store_description item html in
          print (InfoWaiting delay) ;;
          emit (Sleep delay) ;;
          ret (Next item')
      end
  end.

(** The loop from its [i]-th pass on; the result is the state of the
    remaining items when the loop is left. *)
Fixpoint for_items (delay : seconds) (user_agent : string) (i n : nat)
    (items : list ET.Element) : M (list ET.Element) :=
  match items with
  | [] => ret []
  | item :: rest =>
      c <- loop_body delay user_agent i n item ;;
      match c with
      | Break => ret (item :: rest)
      | Next item' =>
          rest' <- for_items delay user_agent (S i) n rest ;;
          ret (item' :: rest')
      end
  end.

(** The document after the loop: the items are children of the first
    [channel] child of the root and were changed in place. *)
Definition updated_tree (root : ET.Element) (items' : list ET.Element)
    : ET.Element :=
  ET.set_children root
    (ET.update_first "channel"
       (fun channel =>
          ET.set_children channel (ET.put_back "item" (ET.children channel) items'))
       (ET.children root)).

Definition scrape_rss_feed (input_file output_file : string) (delay : seconds)
    (user_agent : string) : M unit :=
  print (InfoParsing input_file) ;;
  match fs input_file with
  | Missing => print (ErrorNoFile input_file)
  | Unreadable => raise OSError
  | Readable content =>
      match XMLParser content with
      | None => print ErrorParse
      | Some root =>
          match ET.find root "channel" with
          | None => print (ErrorNoChannel input_file)
          | Some channel =>
              let items := ET.findall channel "item" in
              print (InfoFound (List.length items) input_file) ;;
              items' <- for_items delay user_agent 1 (List.length items) items ;;
              emit (TreeWrite output_file (updated_tree root items')) ;;
              print (InfoDone output_file)
          end
      end
  end.

(** ** The form around the run *)

(** The four entry fields of the window. *)
Record form : Type := mkForm {
  input_file_var : string;
  output_file_var : string;
  delay_var : string;
  user_agent_var : string
}.

(** The message boxes, each with its title and its message. *)
Inductive dialog : Type :=
| ShowError (title message : string)
| ShowWarning (title message : string)
| ShowInfo (title message : string).

(** What a click on the start button performs: message boxes, and the
    events of the run. *)
Inductive gui_event : Type :=
| Dialog (d : dialog)
| Script (e : event).

(** [float(text)]: [None] when it raises [ValueError]. *)
Variable float : string -> option seconds.

(** [delay < 0] *)
Variable negative : seconds -> bool.

(** [browse_input_file], where [filename] is what the file dialog returns:
    the empty string when the dialog is cancelled. *)
Definition browse_input_file (filename : string) (f : form) : form :=
  if Py.truthy filename
  then mkForm filename (output_file_var f) (delay_var f) (user_agent_var f)
  else f.

(** [browse_output_file], likewise. *)
Definition browse_output_file (filename : string) (f : form) : form :=
  if Py.truthy filename
  then mkForm (input_file_var f) filename (delay_var f) (user_agent_var f)
  else f.

(** [start_scraping]: the events of the click and how the call ends. *)
Definition start_scraping (f : form) : list gui_event * result unit :=
  let input_file := Py.strip (input_file_var f) in
  let output_file := Py.strip (output_file_var f) in
  let invalid :=
    ([Dialog (ShowError "Invalid Delay"
                "Please enter a valid non-negative number for delay.")],
     Ok tt) in
  match float (delay_var f) with
  | None => invalid
  | Some delay =>
      if negative delay then invalid
      else
        let user_agent := Py.strip (user_agent_var f) in
        let warning :=
          if Py.truthy user_agent then []
          else [Dialog (ShowWarning "Empty User-Agent"
                          "User-Agent is empty. You might get blocked by the website.")] in
        let run := scrape_rss_feed input_file output_file delay user_agent in
        match snd run with
        | Ok _ =>
            (warning ++ map Script (fst run) ++
             [Dialog (ShowInfo "Done"
                        ("Scraping completed. Updated feed saved to:" ++ nl ++ output_file))],
             Ok tt)
        | Raise e => (warning ++ map Script (fst run), Raise e)
        end
  end.

(** ** Notions that the properties are stated with *)

(** The challenge phrase lies within the first 500 characters, in any
    letter case. *)
Definition challenge_in_first_500 (text : string) : Prop :=
  exists before phrase after : string,
    text = (before ++ phrase ++ after)%string /\
    String.length before + String.length phrase <= 500 /\
    Py.lower phrase = "are you human".

(** The request raised, or the status code makes [raise_for_status] raise. *)
Definition fetch_fails (url user_agent : string) : Prop :=
  match requests_get url user_agent with
  | None => True
  | Some (status_code, _) => raises_for_status status_code = true
  end.

(** The page was fetched: its status code and its markup. *)
Definition fetched (url user_agent : string) (text : string) : Prop :=
  exists status_code,
    requests_get url user_agent = Some (status_code, text) /\
    raises_for_status status_code = false.

(** The marker values that [handle_div] acts on. *)
Definition recognized (comp_type : string) : bool :=
  String.eqb comp_type "subtitle" || String.eqb comp_type "image" ||
  String.eqb comp_type "text".

(** No element of the page carries a recognized marker value. *)
Definition no_recognized_marker (page : Bs4.soup) : Prop :=
  Forall (fun div => recognized (Bs4.get_default div "data-blog-component" "unknown") = false)
         (Bs4.find_all page "div" [Bs4.AnyValue "data-blog-component"]).

(** The text that line 120 assigns to the description. *)
Definition cdata (obit_html : string) : string :=
  ("<![CDATA[" ++ nl ++ obit_html ++ nl ++ "]]>")%string.

(** The three ways in which the checks before the loop fail. *)
Inductive precondition_failure : Type :=
| PathMissing
| NotWellFormed
| NoChannel.

Definition fails_with (c : precondition_failure) (input_file : string) : Prop :=
  match c with
  | PathMissing => fs input_file = Missing
  | NotWellFormed =>
      exists content, fs input_file = Readable content /\ XMLParser content = None
  | NoChannel =>
      exists content root,
        fs input_file = Readable content /\ XMLParser content = Some root /\
        ET.find root "channel" = None
  end.

Definition report (c : precondition_failure) (input_file : string) : log_line :=
  match c with
  | PathMissing => ErrorNoFile input_file
  | NotWellFormed => ErrorParse
  | NoChannel => ErrorNoChannel input_file
  end.

(** The loop goes through [items] from pass [i] on without leaving and
    without raising; [log] is what it performs and [items'] are the items
    afterwards. *)
Inductive passes (delay : seconds) (user_agent : string) (n : nat)
    : nat -> list ET.Element -> list event -> list ET.Element -> Prop :=
| passes_nil : forall i, passes delay user_agent n i [] [] []
| passes_cons : forall i item item' log rest logs rest',
    loop_body delay user_agent i n item = (log, Ok (Next item')) ->
    passes delay user_agent n (S i) rest logs rest' ->
    passes delay user_agent n i (item :: rest) (log ++ logs) (item' :: rest').

(** The description of the item holds the wrapped [obit_html]. *)
Definition description_is (item : ET.Element) (obit_html : string) : Prop :=
  exists desc_elem,
    ET.find item "description" = Some desc_elem /\
    ET.text desc_elem = Some (cdata obit_html).

(** Two elements differ in their text at most. *)
Definition same_but_text (d d' : ET.Element) : Prop :=
  ET.tag d' = ET.tag d /\ ET.attrib d' = ET.attrib d /\
  ET.tail d' = ET.tail d /\ ET.children d' = ET.children d.

(** The fields of an item before and after: every field other than a
    description is kept in place, a description changes in its text at
    most, and a description may be added at the end. *)
Inductive fields_kept : list ET.Element -> list ET.Element -> Prop :=
| fields_nil : fields_kept [] []
| fields_same : forall c cs cs',
    fields_kept cs cs' -> fields_kept (c :: cs) (c :: cs')
| fields_description : forall d d' cs cs',
    ET.has_tag "description" d = true -> same_but_text d d' ->
    fields_kept cs cs' -> fields_kept (d :: cs) (d' :: cs')
| fields_new : forall d',
    ET.tag d' = "description" -> ET.attrib d' = [] -> ET.tail d' = None ->
    ET.children d' = [] -> fields_kept [] [d'].

Definition item_kept (item item' : ET.Element) : Prop :=
  ET.tag item' = ET.tag item /\ ET.attrib item' = ET.attrib item /\
  ET.text item' = ET.text item /\ ET.tail item' = ET.tail item /\
  fields_kept (ET.children item) (ET.children item').

(** An item before and after the loop, where [requested] tells the URLs
    that a page was requested for: the item is untouched, or the page of
    its link was requested and only its description changed. *)
Definition item_after (requested : string -> Prop) (item item' : ET.Element)
    : Prop :=
  item' = item \/
  (exists link_elem raw,
      ET.find item "link" = Some link_elem /\ ET.text link_elem = Some raw /\
      requested (Py.strip raw) /\ item_kept item item').

(** A child of the channel before and after: it is untouched, or it is an
    item that the loop changed. *)
Definition channel_child_kept (requested : string -> Prop) (c c' : ET.Element)
    : Prop :=
  c' = c \/ (ET.has_tag "item" c = true /\ item_after requested c c').

Definition channel_kept (requested : string -> Prop)
    (channel channel' : ET.Element) : Prop :=
  ET.tag channel' = ET.tag channel /\ ET.attrib channel' = ET.attrib channel /\
  ET.text channel' = ET.text channel /\ ET.tail channel' = ET.tail channel /\
  Forall2 (channel_child_kept requested)
          (ET.children channel) (ET.children channel').

(** The document before and after: all is kept but the descriptions of
    items of the channel whose page was requested. *)
Definition feed_kept (requested : string -> Prop) (root root' : ET.Element)
    : Prop :=
  ET.tag root' = ET.tag root /\ ET.attrib root' = ET.attrib root /\
  ET.text root' = ET.text root /\ ET.tail root' = ET.tail root /\
  Forall2 (fun c c' => c' = c \/ channel_kept requested c c')
          (ET.children root) (ET.children root').

(** The events other than the writing of the document. *)
Definition not_a_write (e : event) : Prop :=
  match e with TreeWrite _ _ => False | _ => True end.

(** The URLs of the requests of a log, in order. *)
Fixpoint requests (log : list event) : list string :=
  match log with
  | [] => []
  | HttpGet url _ _ :: rest => url :: requests rest
  | _ :: rest => requests rest
  end.

(** The number of pauses of a log. *)
Fixpoint pauses (log : list event) : nat :=
  match log with
  | [] => 0
  | Sleep _ :: rest => S (pauses rest)
  | _ :: rest => pauses rest
  end.

(** The writes of a log: each path with the document written to it. *)
Fixpoint writes (log : list event) : list (string * ET.Element) :=
  match log with
  | [] => []
  | TreeWrite path doc :: rest => (path, doc) :: writes rest
  | _ :: rest => writes rest
  end.

(** The markups that the HTML parser was called with. *)
Fixpoint parsed (log : list event) : list string :=
  match log with
  | [] => []
  | MakeSoup markup _ :: rest => markup :: parsed rest
  | _ :: rest => parsed rest
  end.

(** A request is pending after a log when no pause followed the last
    request; [pending] is the state before the log. *)
Fixpoint pending_after (pending : bool) (log : list event) : bool :=
  match log with
  | [] => pending
  | HttpGet _ _ _ :: rest => pending_after true rest
  | Sleep _ :: rest => pending_after false rest
  | _ :: rest => pending_after pending rest
  end.

(** The requests of a log are paced when no request is performed while
    another one is pending. *)
Fixpoint paced (pending : bool) (log : list event) : bool :=
  match log with
  | [] => true
  | HttpGet _ _ _ :: rest => negb pending && paced true rest
  | Sleep _ :: rest => paced false rest
  | _ :: rest => paced pending rest
  end.

(** The events that neither request, pause nor write. *)
Definition quiet (e : event) : Prop :=
  match e with
  | Print _ | MakeSoup _ _ => True
  | _ => False
  end.

(** A request is made with [user_agent] and the timeout 10. *)
Definition sent_as (user_agent : string) (e : event) : Prop :=
  match e with
  | HttpGet _ a t => a = user_agent /\ t = 10
  | _ => True
  end.

(** The events that only print. *)
Definition is_print (e : event) : Prop :=
  match e with Print _ => True | _ => False end.

(** What a marker element yields on its own. *)
Definition blocks_of (div : Bs4.node) : list string :=
  match snd (handle_div div []) with
  | Ok blocks => blocks
  | Raise _ => []
  end.

(** The URL that the loop requests for an item, if it requests one. *)
Definition link_url (item : ET.Element) : list string :=
  match ET.find item "link" with
  | Some link_elem =>
      match ET.text link_elem with
      | Some raw => [Py.strip raw]
      | None => []
      end
  | None => []
  end.

(** What a pass that goes on to the next item leaves of its item: an item
    without a link is as it was; for an item with a link, the page of its
    own link was fetched and gave a content, and the item is as line 120
    leaves it with this content, changed in its description only. *)
Definition processed (user_agent : string) (item item' : ET.Element) : Prop :=
  (ET.find item "link" = None /\ item' = item) \/
  (exists link_elem raw html,
      ET.find item "link" = Some link_elem /\ ET.text link_elem = Some raw /\
      snd (fetch_obit_content (Py.strip raw) user_agent) = Ok (Some html) /\
      item' = store_description item html /\
      description_is item' html /\ item_kept item item').

(** The fetch for the item gives the blocked outcome. *)
Definition blocked_at (user_agent : string) (item : ET.Element) : Prop :=
  exists link_elem raw,
    ET.find item "link" = Some link_elem /\ ET.text link_elem = Some raw /\
    snd (fetch_obit_content (Py.strip raw) user_agent) = Ok None.

(** The document [doc] against the input [root], where [channel] is the
    first channel of the root and [items'] are the items of this channel in
    [doc]: root and channel keep tag, attributes, text and tail; the
    children of the root other than this channel, and the children of the
    channel other than its items, are the same at the same places; the
    items are at the places of the items. *)
Definition document_after (root channel : ET.Element) (items' : list ET.Element)
    (doc : ET.Element) : Prop :=
  ET.tag doc = ET.tag root /\ ET.attrib doc = ET.attrib root /\
  ET.text doc = ET.text root /\ ET.tail doc = ET.tail root /\
  exists before after channel',
    ET.children root = before ++ channel :: after /\
    List.find (ET.has_tag "channel") before = None /\
    ET.children doc = before ++ channel' :: after /\
    ET.tag channel' = ET.tag channel /\ ET.attrib channel' = ET.attrib channel /\
    ET.text channel' = ET.text channel /\ ET.tail channel' = ET.tail channel /\
    Forall2 (fun c c' => ET.has_tag "item" c' = ET.has_tag "item" c /\
                         (ET.has_tag "item" c = false -> c' = c))
            (ET.children channel) (ET.children channel') /\
    ET.findall channel' "item" = items'.

(** A character occurs in a string. *)
Fixpoint occurs (c : ascii) (s : string) : bool :=
  match s with
  | EmptyString => false
  | String x t => Ascii.eqb x c || occurs c t
  end.

(** ** Strings *)

Lemma append_nil_r (s : string) : (s ++ "")%string = s.
Proof. induction s as [|c s IH]; simpl; [reflexivity | now rewrite IH]. Qed.

Lemma append_assoc (a b c : string) :
  ((a ++ b) ++ c)%string = (a ++ (b ++ c))%string.
Proof. induction a as [|x a IH]; simpl; [reflexivity | now rewrite IH]. Qed.

Lemma length_append (a b : string) :
  String.length (a ++ b) = String.length a + String.length b.
Proof. induction a as [|x a IH]; simpl; [reflexivity | now rewrite IH]. Qed.

Lemma lower_append (a b : string) :
  Py.lower (a ++ b) = (Py.lower a ++ Py.lower b)%string.
Proof. induction a as [|x a IH]; simpl; [reflexivity | now rewrite IH]. Qed.

Lemma lower_length (s : string) : String.length (Py.lower s) = String.length s.
Proof. induction s as [|c s IH]; simpl; [reflexivity | now rewrite IH]. Qed.

(** A lowered string splits where its source splits. *)
Lemma lower_split (s a b : string) :
  Py.lower s = (a ++ b)%string ->
  exists a' b', s = (a' ++ b')%string /\ Py.lower a' = a /\ Py.lower b' = b.
Proof.
  revert s; induction a as [|x a IH]; intros s H.
  - exists EmptyString, s. simpl in *. auto.
  - destruct s as [|c s]; simpl in H; [discriminate|].
    injection H as Hc Hs. destruct (IH s Hs) as (a' & b' & -> & Ha & Hb).
    exists (String c a'), b'. simpl. rewrite Hc, Ha. auto.
Qed.

Lemma slice_to_append (n : nat) (a b : string) :
  String.length a <= n ->
  Py.slice_to n (a ++ b) = (a ++ Py.slice_to (n - String.length a) b)%string.
Proof.
  revert n; induction a as [|x a IH]; intros n H; simpl in *.
  - now rewrite Nat.sub_0_r.
  - destruct n as [|n]; [lia|]. simpl. rewrite IH by lia. reflexivity.
Qed.

(** A slice is a prefix, of the asked length at most. *)
Lemma slice_to_prefix (n : nat) (s : string) :
  exists rest, s = (Py.slice_to n s ++ rest)%string /\
               String.length (Py.slice_to n s) <= n.
Proof.
  revert s; induction n as [|n IH]; intros s.
  - exists s. destruct s; simpl; auto.
  - destruct s as [|c s]; simpl.
    + exists EmptyString. split; [reflexivity | lia].
    + destruct (IH s) as (rest & Hs & Hl). exists rest.
      split; [now rewrite <- Hs | lia].
Qed.

Lemma startswith_append (p s : string) : Py.startswith p (p ++ s) = true.
Proof.
  induction p as [|c p IH]; simpl; [reflexivity|].
  now rewrite Ascii.eqb_refl, IH.
Qed.

Lemma startswith_inv (p s : string) :
  Py.startswith p s = true -> exists rest, s = (p ++ rest)%string.
Proof.
  revert s; induction p as [|c p IH]; intros s H.
  - exists s. reflexivity.
  - destruct s as [|d s]; simpl in H; [discriminate|].
    apply andb_true_iff in H as [Hc Hp]. apply Ascii.eqb_eq in Hc as ->.
    destruct (IH s Hp) as (rest & ->). exists rest. reflexivity.
Qed.

Lemma contains_here (p s : string) :
  Py.startswith p s = true -> Py.contains p s = true.
Proof. intros H. destruct s; simpl; now rewrite H. Qed.

(** The [in] operator finds exactly the substrings. *)
Lemma contains_iff (needle hay : string) :
  Py.contains needle hay = true <->
  exists a b, hay = (a ++ needle ++ b)%string.
Proof.
  split.
  - induction hay as [|c hay IH]; simpl; intros H.
    + rewrite orb_false_r in H. apply startswith_inv in H as (rest & ->).
      exists EmptyString, rest. reflexivity.
    + apply orb_true_iff in H as [H | H].
      * apply startswith_inv in H as (rest & ->).
        exists EmptyString, rest. reflexivity.
      * destruct (IH H) as (a & b & ->). exists (String c a), b. reflexivity.
  - intros (a & b & ->). induction a as [|c a IH].
    + change ("" ++ needle ++ b)%string with (needle ++ b)%string.
      apply contains_here, startswith_append.
    + simpl. rewrite IH. apply orb_true_r.
Qed.

(** The test of line 34 holds exactly for the pages that carry the phrase
    within their first 500 characters, in any letter case. *)
Lemma challenge_test_iff (text : string) :
  Py.contains "are you human" (Py.lower (Py.slice_to 500 text)) = true <->
  challenge_in_first_500 text.
Proof.
  rewrite contains_iff. split.
  - intros (a & b & H).
    apply lower_split in H as (a' & r & Hs & Ha & Hr).
    apply lower_split in Hr as (m' & b' & -> & Hm & Hb).
    destruct (slice_to_prefix 500 text) as (rest & Ht & Hl).
    rewrite Hs in Ht, Hl. exists a', m', (b' ++ rest)%string.
    split; [|split].
    + rewrite Ht at 1. now rewrite !append_assoc.
    + rewrite !length_append in Hl. lia.
    + exact Hm.
  - intros (before & phrase & after & -> & Hl & Hm).
    rewrite slice_to_append by lia.
    rewrite slice_to_append by lia.
    rewrite !lower_append, Hm. eauto.
Qed.

(** ** Computations *)

Lemma bind_ok {A B : Type} (m : M A) (f : A -> M B) (log : list event) (a : A) :
  m = (log, Ok a) -> bind m f = (log ++ fst (f a), snd (f a)).
Proof. intros ->. reflexivity. Qed.

Lemma bind_raise {A B : Type} (m : M A) (f : A -> M B) (log : list event) (e : exn) :
  m = (log, Raise e) -> bind m f = (log, Raise e).
Proof. intros ->. reflexivity. Qed.

(** ** [fetch_obit_content] *)

(** The lookup of line 54 is guarded by the test of line 53. *)
Lemma getitem_guarded (img_tag : Bs4.node) (key : string) :
  truthy_opt (Bs4.get img_tag key) = true ->
  exists v, getitem img_tag key = ([], Ok v).
Proof.
  unfold getitem. destruct (Bs4.get img_tag key) as [v|]; simpl; intros H.
  - exists v. reflexivity.
  - discriminate.
Qed.

Lemma handle_div_returns (div : Bs4.node) (combined_html : list string) :
  exists blocks, snd (handle_div div combined_html) = Ok blocks.
Proof.
  unfold handle_div.
  destruct (String.eqb _ "subtitle").
  { destruct (Bs4.find div "h3" []); simpl; eauto. }
  destruct (String.eqb _ "image").
  { destruct (Bs4.find div "img" []) as [img_tag|]; simpl; eauto.
    destruct (truthy_opt (Bs4.get img_tag "src")) eqn:E; simpl; eauto.
    destruct (getitem_guarded _ _ E) as (v & ->). simpl. eauto. }
  destruct (String.eqb _ "text").
  { destruct (Bs4.find div "div" _); simpl; eauto. }
  simpl. eauto.
Qed.

Lemma for_divs_returns (content_divs : list Bs4.node) (combined_html : list string) :
  exists blocks, snd (for_divs content_divs combined_html) = Ok blocks.
Proof.
  revert combined_html.
  induction content_divs as [|div rest IH]; intros combined_html; simpl.
  - eauto.
  - destruct (handle_div_returns div combined_html) as (blocks & H).
    unfold bind at 1. rewrite H. simpl. apply IH.
Qed.

(** An element with another marker value adds no block. *)
Lemma handle_div_unrecognized (div : Bs4.node) (combined_html : list string) :
  recognized (Bs4.get_default div "data-blog-component" "unknown") = false ->
  snd (handle_div div combined_html) = Ok combined_html.
Proof.
  unfold recognized, handle_div. intros H.
  apply orb_false_iff in H as [H Ht]. apply orb_false_iff in H as [Hs Hi].
  rewrite Hs, Hi, Ht. reflexivity.
Qed.

Lemma for_divs_unrecognized (content_divs : list Bs4.node) (combined_html : list string) :
  Forall (fun div => recognized (Bs4.get_default div "data-blog-component" "unknown") = false)
         content_divs ->
  snd (for_divs content_divs combined_html) = Ok combined_html.
Proof.
  induction 1 as [|div rest Hd _ IH]; simpl.
  - reflexivity.
  - unfold bind at 1. rewrite (handle_div_unrecognized _ _ Hd). simpl. exact IH.
Qed.

(** The request is the first thing that the function performs. *)
Lemma fetch_requests (url user_agent : string) :
  In (HttpGet url user_agent 10) (fst (fetch_obit_content url user_agent)).
Proof.
  unfold fetch_obit_content. unfold bind at 1. cbn [fst snd emit app]. now left.
Qed.

Lemma fetch_failed (url user_agent : string) :
  fetch_fails url user_agent ->
  fetch_obit_content url user_agent =
  ([HttpGet url user_agent 10; Print (ErrorFetching url)], Ok (Some "")).
Proof.
  unfold fetch_fails, fetch_obit_content.
  destruct (requests_get url user_agent) as [[status_code text]|].
  - intros ->. reflexivity.
  - reflexivity.
Qed.

Lemma fetch_blocked (url user_agent text : string) (status_code : nat) :
  requests_get url user_agent = Some (status_code, text) ->
  raises_for_status status_code = false ->
  Py.contains "are you human" (Py.lower (Py.slice_to 500 text)) = true ->
  fetch_obit_content url user_agent =
  ([HttpGet url user_agent 10; Print (DebugFetched url status_code);
    Print (DebugFirst500 (Py.slice_to 500 text)); Print ErrorCaptcha], Ok None).
Proof.
  intros Hget Hst Hin. unfold fetch_obit_content.
  rewrite Hget, Hst, Hin. reflexivity.
Qed.

Lemma fetch_extracts (url user_agent text : string) (status_code : nat)
    (page : Bs4.soup) :
  requests_get url user_agent = Some (status_code, text) ->
  raises_for_status status_code = false ->
  Py.contains "are you human" (Py.lower (Py.slice_to 500 text)) = false ->
  BeautifulSoup text = Some page ->
  exists blocks,
    snd (for_divs (Bs4.find_all page "div"
                     [Bs4.AnyValue "data-blog-component"]) []) = Ok blocks /\
    snd (fetch_obit_content url user_agent) = Ok (Some (Py.join nl blocks)).
Proof.
  intros Hget Hst Hin Hpage.
  destruct (for_divs_returns
              (Bs4.find_all page "div"
                 [Bs4.AnyValue "data-blog-component"]) []) as (blocks & H).
  exists blocks. split; [exact H|].
  unfold fetch_obit_content. rewrite Hget, Hst, Hin, Hpage.
  unfold bind, print, emit, ret. simpl. rewrite H. reflexivity.
Qed.

(** The parser gives up on the page: the call ends with its exception. *)
Lemma fetch_rejected (url user_agent text : string) (status_code : nat) :
  requests_get url user_agent = Some (status_code, text) ->
  raises_for_status status_code = false ->
  Py.contains "are you human" (Py.lower (Py.slice_to 500 text)) = false ->
  BeautifulSoup text = None ->
  fetch_obit_content url user_agent =
  ([HttpGet url user_agent 10; Print (DebugFetched url status_code);
    Print (DebugFirst500 (Py.slice_to 500 text)); MakeSoup text "html.parser"],
   Raise ParserRejectedMarkup).
Proof.
  intros Hget Hst Hin Hpage. unfold fetch_obit_content.
  rewrite Hget, Hst, Hin, Hpage. reflexivity.
Qed.

(** A call returns, unless the page was fetched, is not a challenge page
    and the parser gives up on it. *)
Lemma fetch_ends (url user_agent : string) :
  (exists outcome, snd (fetch_obit_content url user_agent) = Ok outcome) \/
  (snd (fetch_obit_content url user_agent) = Raise ParserRejectedMarkup /\
   exists text,
     fetched url user_agent text /\
     Py.contains "are you human" (Py.lower (Py.slice_to 500 text)) = false /\
     BeautifulSoup text = None).
Proof.
  destruct (requests_get url user_agent) as [[status_code text]|] eqn:Hget.
  - destruct (raises_for_status status_code) eqn:Hst.
    + left. rewrite fetch_failed; [simpl; eauto|].
      unfold fetch_fails. now rewrite Hget.
    + destruct (Py.contains "are you human" (Py.lower (Py.slice_to 500 text))) eqn:Hin.
      * left. rewrite (fetch_blocked _ _ _ _ Hget Hst Hin). simpl. eauto.
      * destruct (BeautifulSoup text) as [page|] eqn:Hpage.
        -- left. destruct (fetch_extracts _ _ _ _ _ Hget Hst Hin Hpage)
             as (blocks & _ & H). eauto.
        -- right. rewrite (fetch_rejected _ _ _ _ Hget Hst Hin Hpage).
           split; [reflexivity|]. exists text.
           split; [now exists status_code | auto].
  - left. rewrite fetch_failed; [simpl; eauto|].
    unfold fetch_fails. now rewrite Hget.
Qed.

(** ** The loop body *)

Lemma text_strip_log (elem : ET.Element) : fst (text_strip elem) = [].
Proof. unfold text_strip. now destruct (ET.text elem). Qed.

Lemma item_title_log (item : ET.Element) : fst (item_title item) = [].
Proof.
  unfold item_title. destruct (ET.find item "title"); [apply text_strip_log | reflexivity].
Qed.

Lemma item_title_eq (item : ET.Element) (title_text : string) :
  snd (item_title item) = Ok title_text -> item_title item = ([], Ok title_text).
Proof.
  intros H. rewrite <- H, <- (item_title_log item). now destruct (item_title item).
Qed.

Lemma loop_body_linkless (delay : seconds) (user_agent : string) (i n : nat)
    (item : ET.Element) :
  ET.find item "link" = None ->
  loop_body delay user_agent i n item = ([Print (WarnNoLink i n)], Ok (Next item)).
Proof. intros H. unfold loop_body. rewrite H. reflexivity. Qed.

Lemma loop_body_blocked (delay : seconds) (user_agent : string) (i n : nat)
    (item link_elem : ET.Element) (raw title_text : string) :
  ET.find item "link" = Some link_elem ->
  ET.text link_elem = Some raw ->
  snd (item_title item) = Ok title_text ->
  snd (fetch_obit_content (Py.strip raw) user_agent) = Ok None ->
  loop_body delay user_agent i n item =
  (Print (InfoProcessing i n title_text (Py.strip raw))
     :: fst (fetch_obit_content (Py.strip raw) user_agent)
     ++ [Print (InfoBlocked i title_text)],
   Ok Break).
Proof.
  intros Hlink Htext Htitle Hfetch. unfold loop_body, text_strip.
  rewrite Hlink, Htext, (item_title_eq _ _ Htitle).
  unfold bind, print, emit, ret. cbn [fst snd app]. rewrite Hfetch.
  cbn [fst snd app]. now rewrite ?app_nil_r.
Qed.

Lemma loop_body_content (delay : seconds) (user_agent : string) (i n : nat)
    (item link_elem : ET.Element) (raw title_text html : string) :
  ET.find item "link" = Some link_elem ->
  ET.text link_elem = Some raw ->
  snd (item_title item) = Ok title_text ->
  snd (fetch_obit_content (Py.strip raw) user_agent) = Ok (Some html) ->
  loop_body delay user_agent i n item =
  (Print (InfoProcessing i n title_text (Py.strip raw))
     :: fst (fetch_obit_content (Py.strip raw) user_agent)
     ++ [Print (InfoWaiting delay); Sleep delay],
   Ok (Next (store_description item html))).
Proof.
  intros Hlink Htext Htitle Hfetch. unfold loop_body, text_strip.
  rewrite Hlink, Htext, (item_title_eq _ _ Htitle).
  unfold bind, print, emit, ret. cbn [fst snd app]. rewrite Hfetch.
  cbn [fst snd app]. now rewrite ?app_nil_r.
Qed.

Lemma loop_body_empty_link (delay : seconds) (user_agent : string) (i n : nat)
    (item link_elem : ET.Element) :
  ET.find item "link" = Some link_elem ->
  ET.text link_elem = None ->
  loop_body delay user_agent i n item = ([], Raise AttributeError).
Proof.
  intros Hlink Htext. unfold loop_body, text_strip. rewrite Hlink, Htext. reflexivity.
Qed.

Lemma loop_body_title_raises (delay : seconds) (user_agent : string) (i n : nat)
    (item link_elem : ET.Element) (raw : string) (e : exn) :
  ET.find item "link" = Some link_elem ->
  ET.text link_elem = Some raw ->
  snd (item_title item) = Raise e ->
  snd (loop_body delay user_agent i n item) = Raise e.
Proof.
  intros Hlink Htext Htitle. unfold loop_body, text_strip.
  rewrite Hlink, Htext. unfold bind at 1. cbn [fst snd ret].
  unfold bind at 1. now rewrite Htitle.
Qed.

Lemma loop_body_fetch_raises (delay : seconds) (user_agent : string) (i n : nat)
    (item link_elem : ET.Element) (raw title_text : string) (e : exn) :
  ET.find item "link" = Some link_elem ->
  ET.text link_elem = Some raw ->
  snd (item_title item) = Ok title_text ->
  snd (fetch_obit_content (Py.strip raw) user_agent) = Raise e ->
  loop_body delay user_agent i n item =
  (Print (InfoProcessing i n title_text (Py.strip raw))
     :: fst (fetch_obit_content (Py.strip raw) user_agent),
   Raise e).
Proof.
  intros Hlink Htext Htitle Hfetch. unfold loop_body, text_strip.
  rewrite Hlink, Htext, (item_title_eq _ _ Htitle).
  unfold bind, print, emit, ret. cbn [fst snd app]. rewrite Hfetch.
  cbn [fst snd app]. now rewrite ?app_nil_r.
Qed.

(** The ways in which one pass can end. *)
Lemma loop_body_cases (delay : seconds) (user_agent : string) (i n : nat)
    (item : ET.Element) :
  (ET.find item "link" = None /\
   snd (loop_body delay user_agent i n item) = Ok (Next item)) \/
  (ET.find item "link" <> None /\
   ((exists link_elem raw html,
        ET.find item "link" = Some link_elem /\ ET.text link_elem = Some raw /\
        In (HttpGet (Py.strip raw) user_agent 10)
           (fst (loop_body delay user_agent i n item)) /\
        snd (loop_body delay user_agent i n item)
        = Ok (Next (store_description item html))) \/
    snd (loop_body delay user_agent i n item) = Ok Break \/
    (exists e, snd (loop_body delay user_agent i n item) = Raise e))).
Proof.
  destruct (ET.find item "link") as [link_elem|] eqn:Hlink.
  - right. split; [discriminate|].
    destruct (ET.text link_elem) as [raw|] eqn:Htext.
    + destruct (snd (item_title item)) as [title_text|e] eqn:Htitle.
      * destruct (snd (fetch_obit_content (Py.strip raw) user_agent))
          as [[html|]|e] eqn:Hf.
        -- left. exists link_elem, raw, html.
           rewrite (loop_body_content _ _ _ _ _ _ _ _ _ Hlink Htext Htitle Hf).
           cbn [fst snd]. split; [reflexivity|]. split; [exact Htext|].
           split; [|reflexivity].
           right. apply in_or_app. left. apply fetch_requests.
        -- right; left.
           now rewrite (loop_body_blocked _ _ _ _ _ _ _ _ Hlink Htext Htitle Hf).
        -- right; right. exists e.
           now rewrite (loop_body_fetch_raises _ _ _ _ _ _ _ _ _ Hlink Htext Htitle Hf).
      * right; right. exists e.
        apply (loop_body_title_raises _ _ _ _ _ _ _ _ Hlink Htext Htitle).
    + right; right. exists AttributeError.
      now rewrite (loop_body_empty_link _ _ _ _ _ _ Hlink Htext).
  - left. split; [reflexivity|]. now rewrite loop_body_linkless.
Qed.

(** ** The loop *)

Lemma for_items_next (delay : seconds) (user_agent : string) (i n : nat)
    (item item' : ET.Element) (log : list event) (rest : list ET.Element) :
  loop_body delay user_agent i n item = (log, Ok (Next item')) ->
  for_items delay user_agent i n (item :: rest) =
  (log ++ fst (for_items delay user_agent (S i) n rest),
   match snd (for_items delay user_agent (S i) n rest) with
   | Ok rest' => Ok (item' :: rest')
   | Raise e => Raise e
   end).
Proof.
  intros H. simpl. rewrite (bind_ok _ _ _ _ H). unfold bind. simpl.
  destruct (for_items delay user_agent (S i) n rest) as [l [r|e]]; simpl;
    now rewrite ?app_nil_r.
Qed.

Lemma for_items_break (delay : seconds) (user_agent : string) (i n : nat)
    (item : ET.Element) (log : list event) (rest : list ET.Element) :
  loop_body delay user_agent i n item = (log, Ok Break) ->
  for_items delay user_agent i n (item :: rest) = (log, Ok (item :: rest)).
Proof.
  intros H. simpl. rewrite (bind_ok _ _ _ _ H). simpl. now rewrite app_nil_r.
Qed.

Lemma for_items_raise (delay : seconds) (user_agent : string) (i n : nat)
    (item : ET.Element) (log : list event) (e : exn) (rest : list ET.Element) :
  loop_body delay user_agent i n item = (log, Raise e) ->
  for_items delay user_agent i n (item :: rest) = (log, Raise e).
Proof. intros H. simpl. now rewrite (bind_raise _ _ _ _ H). Qed.

(** After the items that the loop goes through, it carries on with the
    rest. *)
Lemma for_items_passes (delay : seconds) (user_agent : string) (n i : nat)
    (pre : list ET.Element) (logs : list event) (pre' rest : list ET.Element) :
  passes delay user_agent n i pre logs pre' ->
  for_items delay user_agent i n (pre ++ rest) =
  (logs ++ fst (for_items delay user_agent (i + List.length pre) n rest),
   match snd (for_items delay user_agent (i + List.length pre) n rest) with
   | Ok rest' => Ok (pre' ++ rest')
   | Raise e => Raise e
   end).
Proof.
  induction 1 as [i | i item item' log pre logs pre' Hbody _ IH].
  - rewrite Nat.add_0_r. simpl.
    now destruct (for_items delay user_agent i n rest) as [l [r|e]].
  - change ((item :: pre) ++ rest) with (item :: (pre ++ rest)).
    rewrite (for_items_next _ _ _ _ _ _ _ _ Hbody), IH.
    cbn [fst snd List.length].
    replace (i + S (List.length pre)) with (S i + List.length pre) by lia.
    rewrite <- app_assoc.
    now destruct (snd (for_items delay user_agent (S i + List.length pre) n rest)).
Qed.

Lemma passes_length (delay : seconds) (user_agent : string) (n i : nat)
    (pre : list ET.Element) (logs : list event) (pre' : list ET.Element) :
  passes delay user_agent n i pre logs pre' -> List.length pre' = List.length pre.
Proof. induction 1; simpl; congruence. Qed.

(** ** Elements *)

Lemma find_update_first (name : string) (f : ET.Element -> ET.Element)
    (cs : list ET.Element) (d : ET.Element) :
  List.find (ET.has_tag name) cs = Some d ->
  ET.has_tag name (f d) = true ->
  List.find (ET.has_tag name) (ET.update_first name f cs) = Some (f d).
Proof.
  intros Hfind Hf. induction cs as [|c cs IH]; simpl in *; [discriminate|].
  destruct (ET.has_tag name c) eqn:E; simpl.
  - injection Hfind as ->. now rewrite Hf.
  - rewrite E. auto.
Qed.

Lemma update_first_new (name : string) (f : ET.Element -> ET.Element)
    (cs : list ET.Element) (x : ET.Element) :
  List.find (ET.has_tag name) cs = None ->
  ET.has_tag name x = true ->
  ET.update_first name f (cs ++ [x]) = cs ++ [f x].
Proof.
  intros Hfind Hx. induction cs as [|c cs IH]; simpl in *.
  - now rewrite Hx.
  - destruct (ET.has_tag name c); [discriminate|]. now rewrite IH.
Qed.

Lemma find_new (name : string) (cs : list ET.Element) (x : ET.Element) :
  List.find (ET.has_tag name) cs = None ->
  ET.has_tag name x = true ->
  List.find (ET.has_tag name) (cs ++ [x]) = Some x.
Proof.
  intros Hfind Hx. induction cs as [|c cs IH]; simpl in *.
  - now rewrite Hx.
  - destruct (ET.has_tag name c); [discriminate | auto].
Qed.

(** The first element with the tag is the one that changes. *)
Lemma update_first_found (name : string) (f : ET.Element -> ET.Element)
    (cs : list ET.Element) (d : ET.Element) :
  List.find (ET.has_tag name) cs = Some d ->
  Forall2 (fun c c' => c' = c \/ (c = d /\ c' = f d)) cs (ET.update_first name f cs).
Proof.
  induction cs as [|c cs IH]; simpl; [discriminate|].
  destruct (ET.has_tag name c); intros H.
  - injection H as ->. constructor; [auto|].
    clear. induction cs; constructor; auto.
  - constructor; auto.
Qed.

Lemma put_back_Forall2 (R : ET.Element -> ET.Element -> Prop) (name : string)
    (cs news : list ET.Element) :
  Forall2 R (filter (ET.has_tag name) cs) news ->
  Forall2 (fun c c' => c' = c \/ (ET.has_tag name c = true /\ R c c'))
          cs (ET.put_back name cs news).
Proof.
  revert news; induction cs as [|c cs IH]; intros news H; simpl in *.
  - constructor.
  - destruct (ET.has_tag name c) eqn:E.
    + inversion H as [|? n ? news' Hn Hrest]; subst. constructor; auto.
    + constructor; auto.
Qed.

Lemma filter_put_back (R : ET.Element -> ET.Element -> Prop) (name : string)
    (cs news : list ET.Element) :
  Forall2 R (filter (ET.has_tag name) cs) news ->
  Forall (fun c' => ET.has_tag name c' = true) news ->
  filter (ET.has_tag name) (ET.put_back name cs news) = news.
Proof.
  revert news; induction cs as [|c cs IH]; intros news H Htag; simpl in *.
  - now inversion H.
  - destruct (ET.has_tag name c) eqn:E.
    + inversion H as [|? n ? news' Hn Hrest]; subst.
      inversion Htag as [|? ? Hn' Htag']; subst. simpl. rewrite Hn'.
      f_equal. auto.
    + simpl. rewrite E. auto.
Qed.

(** ** The update of the description *)

Lemma store_description_tag (item : ET.Element) (html : string) :
  ET.tag (store_description item html) = ET.tag item.
Proof. unfold store_description. now destruct (ET.find item "description"). Qed.

Lemma store_description_is (item : ET.Element) (html : string) :
  description_is (store_description item html) html.
Proof.
  unfold description_is, store_description, ET.find.
  destruct (List.find (ET.has_tag "description") (ET.children item))
    as [d|] eqn:Hfind.
  - exists (ET.set_text d (cdata html)). split; [|reflexivity].
    cbn [ET.children ET.set_children].
    apply (find_update_first "description"
             (fun desc_elem => ET.set_text desc_elem (cdata html)));
      [exact Hfind|].
    apply find_some in Hfind as [_ Htag]. exact Htag.
  - exists (ET.set_text (ET.mkElement "description" [] None None []) (cdata html)).
    split; [|reflexivity].
    cbn [ET.children ET.set_children ET.SubElement].
    rewrite update_first_new by (exact Hfind || reflexivity).
    apply find_new; [exact Hfind | reflexivity].
Qed.

Lemma fields_kept_refl (cs : list ET.Element) : fields_kept cs cs.
Proof. induction cs; constructor; auto. Qed.

Lemma fields_kept_first (cs : list ET.Element) (d : ET.Element) (value : string) :
  List.find (ET.has_tag "description") cs = Some d ->
  fields_kept cs (ET.update_first "description"
                    (fun desc_elem => ET.set_text desc_elem value) cs).
Proof.
  induction cs as [|c cs IH]; simpl; [discriminate|].
  destruct (ET.has_tag "description" c) eqn:E; intros H.
  - apply fields_description; [exact E | now repeat split | apply fields_kept_refl].
  - apply fields_same. auto.
Qed.

Lemma fields_kept_new (cs : list ET.Element) (d' : ET.Element) :
  ET.tag d' = "description" -> ET.attrib d' = [] -> ET.tail d' = None ->
  ET.children d' = [] -> fields_kept cs (cs ++ [d']).
Proof.
  intros. induction cs; simpl; [now apply fields_new | now apply fields_same].
Qed.

Lemma item_kept_store (item : ET.Element) (html : string) :
  item_kept item (store_description item html).
Proof.
  unfold item_kept, store_description, ET.find.
  destruct (List.find (ET.has_tag "description") (ET.children item))
    as [d|] eqn:Hfind.
  - repeat split. cbn [ET.children ET.set_children].
    now apply fields_kept_first with (d := d).
  - repeat split. cbn [ET.children ET.set_children ET.SubElement].
    rewrite update_first_new by (exact Hfind || reflexivity).
    now apply fields_kept_new.
Qed.

(** ** What the loop performs *)

Lemma bind_log {A B : Type} (P : event -> Prop) (m : M A) (f : A -> M B) :
  Forall P (fst m) -> (forall a, Forall P (fst (f a))) ->
  Forall P (fst (bind m f)).
Proof.
  intros Hm Hf. unfold bind. destruct (snd m); simpl; [|exact Hm].
  apply Forall_app. auto.
Qed.

Ltac log_steps :=
  repeat first
    [ apply bind_log; [|intros]
    | apply Forall_nil
    | apply Forall_cons; [exact I|] ].

Lemma handle_div_log (div : Bs4.node) (combined_html : list string) :
  Forall not_a_write (fst (handle_div div combined_html)).
Proof.
  unfold handle_div, getitem, print, emit, ret, raise. log_steps.
  repeat match goal with
         | |- context [if ?b then _ else _] => destruct b
         | |- context [match ?o with Some _ => _ | None => _ end] => destruct o
         end; log_steps.
Qed.

Lemma for_divs_log (content_divs : list Bs4.node) (combined_html : list string) :
  Forall not_a_write (fst (for_divs content_divs combined_html)).
Proof.
  revert combined_html. induction content_divs as [|div rest IH]; intros; simpl.
  - constructor.
  - apply bind_log; [apply handle_div_log | intros; apply IH].
Qed.

Lemma fetch_log (url user_agent : string) :
  Forall not_a_write (fst (fetch_obit_content url user_agent)).
Proof.
  unfold fetch_obit_content, print, emit, ret. log_steps.
  destruct (requests_get url user_agent) as [[status_code text]|]; log_steps.
  destruct (raises_for_status status_code); log_steps.
  destruct (Py.contains _ _); log_steps.
  destruct (BeautifulSoup text); log_steps.
  apply for_divs_log.
Qed.

Lemma loop_body_log (delay : seconds) (user_agent : string) (i n : nat)
    (item : ET.Element) :
  Forall not_a_write (fst (loop_body delay user_agent i n item)).
Proof.
  unfold loop_body. destruct (ET.find item "link"); [|unfold print, emit, ret; log_steps].
  apply bind_log; [rewrite text_strip_log; constructor | intros url].
  apply bind_log; [rewrite item_title_log; constructor | intros title_text].
  apply bind_log; [unfold print, emit; log_steps | intros _].
  apply bind_log; [apply fetch_log | intros [html|]];
    unfold print, emit, ret; log_steps.
Qed.

Lemma for_items_log (delay : seconds) (user_agent : string) (i n : nat)
    (items : list ET.Element) :
  Forall not_a_write (fst (for_items delay user_agent i n items)).
Proof.
  revert i. induction items as [|item rest IH]; intros i; simpl.
  - constructor.
  - apply bind_log; [apply loop_body_log | intros [item'|]].
    + apply bind_log; [apply IH | intros; constructor].
    + constructor.
Qed.

(** ** What the loop leaves of the items *)

Lemma Forall2_same {A : Type} (R : A -> A -> Prop) (l : list A) :
  (forall x, R x x) -> Forall2 R l l.
Proof. intros H. induction l; constructor; auto. Qed.

Lemma item_after_mono (P Q : string -> Prop) (item item' : ET.Element) :
  (forall url, P url -> Q url) -> item_after P item item' -> item_after Q item item'.
Proof.
  intros HPQ [-> | (link_elem & raw & Hl & Ht & HP & Hk)]; [now left | right].
  exists link_elem, raw. auto.
Qed.

Lemma for_items_kept (delay : seconds) (user_agent : string) (i n : nat)
    (items items' : list ET.Element) :
  snd (for_items delay user_agent i n items) = Ok items' ->
  Forall2 (item_after (fun url => In (HttpGet url user_agent 10)
                                     (fst (for_items delay user_agent i n items))))
          items items' /\
  Forall2 (fun item item' => ET.tag item' = ET.tag item) items items'.
Proof.
  revert i items'. induction items as [|item rest IH]; intros i items' H.
  - simpl in H. injection H as <-. split; constructor.
  - destruct (loop_body delay user_agent i n item) as [log [[item1|]|e]] eqn:Hbody.
    + rewrite (for_items_next _ _ _ _ _ _ _ _ Hbody) in H |- *.
      cbn [fst snd] in H |- *.
      destruct (snd (for_items delay user_agent (S i) n rest)) as [rest'|e] eqn:Hrest;
        [|discriminate].
      injection H as <-. destruct (IH _ _ Hrest) as [IH1 IH2].
      assert (Hitem : item_after (fun url => In (HttpGet url user_agent 10) log)
                                 item item1 /\
                      ET.tag item1 = ET.tag item).
      { destruct (loop_body_cases delay user_agent i n item)
          as [[Hl Hs] | [Hl [(link_elem & raw & html & Hlink & Htext & Hin & Hs)
                            | [Hs | [e Hs]]]]];
          rewrite Hbody in *; cbn [fst snd] in *; try discriminate;
          injection Hs as ->.
        - split; [now left | reflexivity].
        - split; [|apply store_description_tag].
          right. exists link_elem, raw. repeat split; auto.
          all: apply item_kept_store. }
      destruct Hitem as [Hitem Htag]. split; constructor; auto.
      * eapply item_after_mono; [|exact Hitem].
        intros url Hu. apply in_or_app. now left.
      * eapply Forall2_impl; [|exact IH1].
        intros a b. apply item_after_mono.
        intros url Hu. apply in_or_app. now right.
    + rewrite (for_items_break _ _ _ _ _ _ _ Hbody) in H. injection H as <-.
      split; apply Forall2_same; intros x; [now left | reflexivity].
    + rewrite (for_items_raise _ _ _ _ _ _ _ _ Hbody) in H. discriminate.
Qed.

(** ** The document after the loop *)

Lemma has_tag_eq (name : string) (c c' : ET.Element) :
  ET.tag c' = ET.tag c -> ET.has_tag name c = true -> ET.has_tag name c' = true.
Proof. unfold ET.has_tag. now intros ->. Qed.

Lemma new_items_tagged (channel : ET.Element) (items' : list ET.Element) :
  Forall2 (fun item item' => ET.tag item' = ET.tag item)
          (ET.findall channel "item") items' ->
  Forall (fun c' => ET.has_tag "item" c' = true) items'.
Proof.
  unfold ET.findall. intros H.
  assert (Hin : Forall (fun c => ET.has_tag "item" c = true)
                  (filter (ET.has_tag "item") (ET.children channel))).
  { apply Forall_forall. intros x Hx. now apply filter_In in Hx. }
  induction H as [|c c' cs cs' Hc _ IH]; constructor.
  - inversion Hin; subst. now apply has_tag_eq with (c := c).
  - inversion Hin; subst. auto.
Qed.

Lemma feed_kept_updated (requested : string -> Prop) (root channel : ET.Element)
    (items' : list ET.Element) :
  ET.find root "channel" = Some channel ->
  Forall2 (item_after requested) (ET.findall channel "item") items' ->
  feed_kept requested root (updated_tree root items').
Proof.
  intros Hch Hitems. unfold feed_kept, updated_tree. repeat split.
  cbn [ET.children ET.set_children].
  eapply Forall2_impl; [|apply (update_first_found "channel" _ _ _ Hch)].
  intros c c' [-> | [-> ->]]; [now left | right].
  unfold channel_kept. repeat split. cbn [ET.children ET.set_children].
  apply (put_back_Forall2 (item_after requested) "item" _ _ Hitems).
Qed.

Lemma items_of_updated (root channel : ET.Element) (items' : list ET.Element) :
  ET.find root "channel" = Some channel ->
  Forall2 (fun item item' => ET.tag item' = ET.tag item)
          (ET.findall channel "item") items' ->
  exists channel',
    ET.find (updated_tree root items') "channel" = Some channel' /\
    ET.findall channel' "item" = items'.
Proof.
  intros Hch Htags.
  exists (ET.set_children channel (ET.put_back "item" (ET.children channel) items')).
  split.
  - unfold updated_tree, ET.find. cbn [ET.children ET.set_children].
    apply (find_update_first "channel"
             (fun c => ET.set_children c (ET.put_back "item" (ET.children c) items')));
      [exact Hch|].
    apply find_some in Hch as [_ Ht]. exact Ht.
  - unfold ET.findall. cbn [ET.children ET.set_children].
    eapply filter_put_back; [exact Htags | now apply new_items_tagged with channel].
Qed.

(** A run that passes the checks before the loop. *)
Lemma scrape_run (input_file output_file : string) (delay : seconds)
    (user_agent content : string) (root channel : ET.Element) :
  fs input_file = Readable content ->
  XMLParser content = Some root ->
  ET.find root "channel" = Some channel ->
  let items := ET.findall channel "item" in
  let loop := for_items delay user_agent 1 (List.length items) items in
  scrape_rss_feed input_file output_file delay user_agent =
  (Print (InfoParsing input_file) :: Print (InfoFound (List.length items) input_file)
     :: fst loop ++
        match snd loop with
        | Ok items' =>
            [TreeWrite output_file (updated_tree root items'); Print (InfoDone output_file)]
        | Raise _ => []
        end,
   match snd loop with
   | Ok _ => Ok tt
   | Raise e => Raise e
   end).
Proof.
  intros Hfs Hxml Hch items loop. unfold scrape_rss_feed.
  rewrite Hfs, Hxml, Hch. fold items. fold loop.
  unfold bind, print, emit. cbn [fst snd app].
  destruct (snd loop); cbn [fst snd app]; now rewrite ?app_nil_r.
Qed.

(** ** Properties of the extractor *)

(** C2: a fetched page whose first 500 characters hold the phrase
    "are you human" in any letter case makes [fetch_obit_content] return
    [None], the blocked outcome, whatever markers the page carries; the HTML
    parser is not called and no marker element is handled. *)
Theorem challenge_page_is_blocked (url user_agent text : string) :
  fetched url user_agent text ->
  challenge_in_first_500 text ->
  snd (fetch_obit_content url user_agent) = Ok None /\
  (forall markup features,
      ~ In (MakeSoup markup features) (fst (fetch_obit_content url user_agent))) /\
  (forall comp_type,
      ~ In (Print (DebugHandling comp_type)) (fst (fetch_obit_content url user_agent))).
Proof.
  intros (status_code & Hget & Hst) Hin. apply challenge_test_iff in Hin.
  rewrite (fetch_blocked _ _ _ _ Hget Hst Hin). cbn [fst snd].
  split; [reflexivity|].
  split; intros ? **; intros Hmem; repeat (destruct Hmem as [Hmem|Hmem]; [discriminate|]);
    exact Hmem.
Qed.

(** C9, amended: a fetched page without the challenge phrase in its first
    500 characters that the HTML parser accepts, and that has no recognized
    marker value, gives the empty content.  A call of [fetch_obit_content]
    returns an outcome for every request but one kind: it ends in the
    exception of the parser, which line 38 does not guard, exactly when the
    page is fetched, is without the challenge phrase in its first 500
    characters and is given up by the parser. *)
Theorem unmarked_page_is_empty_content (url user_agent text : string)
    (page : Bs4.soup) :
  fetched url user_agent text ->
  ~ challenge_in_first_500 text ->
  BeautifulSoup text = Some page ->
  no_recognized_marker page ->
  snd (fetch_obit_content url user_agent) = Ok (Some (Py.join nl [])) /\
  (forall url' user_agent',
      (exists outcome, snd (fetch_obit_content url' user_agent') = Ok outcome) \/
      snd (fetch_obit_content url' user_agent') = Raise ParserRejectedMarkup) /\
  (forall url' user_agent' e,
      snd (fetch_obit_content url' user_agent') = Raise e <->
      e = ParserRejectedMarkup /\
      exists text',
        fetched url' user_agent' text' /\ ~ challenge_in_first_500 text' /\
        BeautifulSoup text' = None).
Proof.
  intros (status_code & Hget & Hst) Hclear Hpage Hmarkers.
  split; [|split].
  - assert (Hin : Py.contains "are you human" (Py.lower (Py.slice_to 500 text)) = false).
    { destruct (Py.contains _ _) eqn:E; [|reflexivity].
      exfalso. apply Hclear. now apply challenge_test_iff. }
    destruct (fetch_extracts _ _ _ _ _ Hget Hst Hin Hpage) as (blocks & Hblocks & ->).
    rewrite (for_divs_unrecognized _ _ Hmarkers) in Hblocks.
    now injection Hblocks as <-.
  - intros url' user_agent'.
    destruct (fetch_ends url' user_agent') as [H | [H _]]; auto.
  - intros url' user_agent' e. split.
    + intros He.
      destruct (fetch_ends url' user_agent') as [[outcome H] | [H (text' & Hf & Hin & Hp)]];
        rewrite H in He; [discriminate|].
      injection He as <-. split; [reflexivity|].
      exists text'. split; [exact Hf|]. split; [|exact Hp].
      intros Hc. apply challenge_test_iff in Hc. congruence.
    + intros (-> & text' & (status' & Hget' & Hst') & Hclear' & Hp).
      assert (Hin : Py.contains "are you human" (Py.lower (Py.slice_to 500 text'))
                    = false).
      { destruct (Py.contains _ _) eqn:E; [|reflexivity].
        exfalso. apply Hclear'. now apply challenge_test_iff. }
      now rewrite (fetch_rejected _ _ _ _ Hget' Hst' Hin Hp).
Qed.

(** ** Properties of the rewriter *)

(** C6: a failed page fetch is not fatal.  The item gets the description of
    the empty content, as for a page without blocks, the pause follows, and
    the loop carries on with the next item. *)
Theorem failed_fetch_is_empty_content (delay : seconds) (user_agent : string)
    (i n : nat) (item link_elem : ET.Element) (raw title_text : string)
    (rest : list ET.Element) :
  ET.find item "link" = Some link_elem ->
  ET.text link_elem = Some raw ->
  snd (item_title item) = Ok title_text ->
  fetch_fails (Py.strip raw) user_agent ->
  let item' := store_description item (Py.join nl []) in
  let log := [Print (InfoProcessing i n title_text (Py.strip raw));
              HttpGet (Py.strip raw) user_agent 10;
              Print (ErrorFetching (Py.strip raw));
              Print (InfoWaiting delay); Sleep delay] in
  fetch_obit_content (Py.strip raw) user_agent =
    ([HttpGet (Py.strip raw) user_agent 10; Print (ErrorFetching (Py.strip raw))],
     Ok (Some (Py.join nl []))) /\
  loop_body delay user_agent i n item = (log, Ok (Next item')) /\
  description_is item' "" /\
  for_items delay user_agent i n (item :: rest) =
    (log ++ fst (for_items delay user_agent (S i) n rest),
     match snd (for_items delay user_agent (S i) n rest) with
     | Ok rest' => Ok (item' :: rest')
     | Raise e => Raise e
     end).
Proof.
  intros Hlink Htext Htitle Hfail item' log.
  pose proof (fetch_failed _ _ Hfail) as Hfetch.
  assert (Hbody : loop_body delay user_agent i n item = (log, Ok (Next item'))).
  { rewrite (loop_body_content _ _ i n _ _ _ _ "" Hlink Htext Htitle)
      by now rewrite Hfetch.
    now rewrite Hfetch. }
  split; [exact Hfetch|]. split; [exact Hbody|].
  split; [apply store_description_is|].
  now apply for_items_next.
Qed.

(** C7: when the input path is missing, or its content is not well-formed
    XML, or the root has no channel, the run ends before the loop: nothing is
    fetched, nothing is written, and the one line after the opening line
    names the cause, a different line for each cause. *)
Theorem failed_precondition_aborts (c : precondition_failure)
    (input_file output_file : string) (delay : seconds) (user_agent : string) :
  fails_with c input_file ->
  scrape_rss_feed input_file output_file delay user_agent =
    ([Print (InfoParsing input_file); Print (report c input_file)], Ok tt) /\
  (forall e, In e (fst (scrape_rss_feed input_file output_file delay user_agent)) ->
             exists line, e = Print line) /\
  (forall c', report c' input_file = report c input_file -> c' = c).
Proof.
  intros H.
  assert (Hrun : scrape_rss_feed input_file output_file delay user_agent =
                 ([Print (InfoParsing input_file); Print (report c input_file)], Ok tt)).
  { unfold scrape_rss_feed. destruct c; simpl in H.
    - rewrite H. reflexivity.
    - destruct H as (content & -> & ->). reflexivity.
    - destruct H as (content & root & -> & -> & ->). reflexivity. }
  split; [exact Hrun|]. split.
  - rewrite Hrun. cbn [fst]. intros e [<- | [<- | []]]; eauto.
  - intros c'. destruct c, c'; simpl; congruence.
Qed.

(** What the loop did to an item that it went through. *)
Lemma passes_items (delay : seconds) (user_agent : string) (n i : nat)
    (pre : list ET.Element) (logs : list event) (pre' : list ET.Element) :
  passes delay user_agent n i pre logs pre' ->
  Forall2 (fun item item' =>
             (ET.find item "link" = None /\ item' = item) \/
             (ET.find item "link" <> None /\
              exists url html,
                snd (fetch_obit_content url user_agent) = Ok (Some html) /\
                description_is item' html))
          pre pre'.
Proof.
  induction 1 as [i | i item item' log pre logs pre' Hbody _ IH]; constructor;
    [|exact IH].
  destruct (ET.find item "link") as [link_elem|] eqn:Hlink.
  - right. split; [discriminate|].
    destruct (ET.text link_elem) as [raw|] eqn:Htext.
    + destruct (snd (item_title item)) as [title_text|e] eqn:Htitle.
      * destruct (snd (fetch_obit_content (Py.strip raw) user_agent))
          as [[html|]|e] eqn:Hf.
        -- rewrite (loop_body_content _ _ _ _ _ _ _ _ _ Hlink Htext Htitle Hf) in Hbody.
           injection Hbody as _ <-. exists (Py.strip raw), html.
           split; [exact Hf | apply store_description_is].
        -- rewrite (loop_body_blocked _ _ _ _ _ _ _ _ Hlink Htext Htitle Hf) in Hbody.
           discriminate.
        -- rewrite (loop_body_fetch_raises _ _ _ _ _ _ _ _ _ Hlink Htext Htitle Hf)
             in Hbody.
           discriminate.
      * pose proof (loop_body_title_raises delay user_agent i n _ _ _ _
                      Hlink Htext Htitle) as Hs.
        rewrite Hbody in Hs. discriminate.
    + rewrite (loop_body_empty_link _ _ _ _ _ _ Hlink Htext) in Hbody. discriminate.
  - left. rewrite (loop_body_linkless _ _ _ _ _ Hlink) in Hbody.
    injection Hbody as _ <-. auto.
Qed.

Lemma passes_tags (delay : seconds) (user_agent : string) (n i : nat)
    (pre : list ET.Element) (logs : list event) (pre' : list ET.Element) :
  passes delay user_agent n i pre logs pre' ->
  Forall2 (fun item item' => ET.tag item' = ET.tag item) pre pre'.
Proof.
  induction 1 as [i | i item item' log pre logs pre' Hbody _ IH]; constructor;
    [|exact IH].
  destruct (loop_body_cases delay user_agent i n item)
    as [[Hl Hs] | [Hl [(link_elem & raw & html & _ & _ & _ & Hs) | [Hs | [e Hs]]]]];
    rewrite Hbody in Hs; cbn [snd] in Hs; try discriminate; injection Hs as ->.
  - reflexivity.
  - apply store_description_tag.
Qed.

(** What the loop did to an item that it went through, by the link of the
    item itself. *)
Lemma passes_processed (delay : seconds) (user_agent : string) (n i : nat)
    (pre : list ET.Element) (logs : list event) (pre' : list ET.Element) :
  passes delay user_agent n i pre logs pre' ->
  Forall2 (processed user_agent) pre pre'.
Proof.
  induction 1 as [i | i item item' log pre logs pre' Hbody _ IH]; constructor;
    [|exact IH].
  destruct (ET.find item "link") as [link_elem|] eqn:Hlink.
  - right. destruct (ET.text link_elem) as [raw|] eqn:Htext.
    + destruct (snd (item_title item)) as [title_text|e] eqn:Htitle.
      * destruct (snd (fetch_obit_content (Py.strip raw) user_agent))
          as [[html|]|e] eqn:Hf.
        -- rewrite (loop_body_content _ _ _ _ _ _ _ _ _ Hlink Htext Htitle Hf) in Hbody.
           injection Hbody as _ <-. exists link_elem, raw, html.
           split; [exact Hlink|]. split; [exact Htext|]. split; [exact Hf|].
           split; [reflexivity|].
           split; [apply store_description_is | apply item_kept_store].
        -- rewrite (loop_body_blocked _ _ _ _ _ _ _ _ Hlink Htext Htitle Hf) in Hbody.
           discriminate.
        -- rewrite (loop_body_fetch_raises _ _ _ _ _ _ _ _ _ Hlink Htext Htitle Hf)
             in Hbody.
           discriminate.
      * pose proof (loop_body_title_raises delay user_agent i n _ _ _ _
                      Hlink Htext Htitle) as Hs.
        rewrite Hbody in Hs. discriminate.
    + rewrite (loop_body_empty_link _ _ _ _ _ _ Hlink Htext) in Hbody. discriminate.
  - left. rewrite (loop_body_linkless _ _ _ _ _ Hlink) in Hbody.
    injection Hbody as _ <-. auto.
Qed.

(** The loop is left only at an item whose fetch gives the blocked
    outcome. *)
Lemma loop_body_break (delay : seconds) (user_agent : string) (i n : nat)
    (item : ET.Element) :
  snd (loop_body delay user_agent i n item) = Ok Break ->
  blocked_at user_agent item.
Proof.
  intros H.
  destruct (ET.find item "link") as [link_elem|] eqn:Hlink.
  - destruct (ET.text link_elem) as [raw|] eqn:Htext.
    + destruct (snd (item_title item)) as [title_text|e] eqn:Htitle.
      * destruct (snd (fetch_obit_content (Py.strip raw) user_agent))
          as [[html|]|e] eqn:Hf.
        -- rewrite (loop_body_content _ _ _ _ _ _ _ _ _ Hlink Htext Htitle Hf) in H.
           discriminate.
        -- exists link_elem, raw. rewrite Hlink. auto.
        -- rewrite (loop_body_fetch_raises _ _ _ _ _ _ _ _ _ Hlink Htext Htitle Hf)
             in H.
           discriminate.
      * rewrite (loop_body_title_raises delay user_agent i n _ _ _ _
                   Hlink Htext Htitle) in H.
        discriminate.
    + rewrite (loop_body_empty_link _ _ _ _ _ _ Hlink Htext) in H. discriminate.
  - rewrite (loop_body_linkless _ _ _ _ _ Hlink) in H. discriminate.
Qed.

(** A loop that returns went through a first part of the items and was
    left, if at all, at the first item of the rest, which it did not
    change. *)
Lemma for_items_split (delay : seconds) (user_agent : string) (n i : nat)
    (items items' : list ET.Element) :
  snd (for_items delay user_agent i n items) = Ok items' ->
  exists visited visited' rest logs,
    items = visited ++ rest /\ items' = visited' ++ rest /\
    passes delay user_agent n i visited logs visited' /\
    fst (for_items delay user_agent i n items)
    = logs ++ match rest with
              | [] => []
              | itemK :: _ =>
                  fst (loop_body delay user_agent (i + List.length visited) n itemK)
              end /\
    match rest with
    | [] => True
    | itemK :: _ =>
        snd (loop_body delay user_agent (i + List.length visited) n itemK) = Ok Break
    end.
Proof.
  revert i items'. induction items as [|item rest IH]; intros i items' H.
  - simpl in H. injection H as <-.
    exists [], [], [], []. repeat split. constructor.
  - destruct (loop_body delay user_agent i n item) as [log [[item1|]|e]] eqn:Hbody.
    + rewrite (for_items_next _ _ _ _ _ _ _ _ Hbody) in H |- *.
      cbn [fst snd] in H |- *.
      destruct (snd (for_items delay user_agent (S i) n rest)) as [rest'|e] eqn:Hrest;
        [|discriminate].
      injection H as <-.
      destruct (IH _ _ Hrest) as (v & v' & r & logs & -> & -> & Hp & Hlog & Hend).
      exists (item :: v), (item1 :: v'), r, (log ++ logs).
      split; [reflexivity|]. split; [reflexivity|].
      split; [now constructor|].
      cbn [List.length]. rewrite Nat.add_succ_r.
      split; [|exact Hend].
      rewrite Hlog, <- app_assoc. reflexivity.
    + rewrite (for_items_break _ _ _ _ _ _ _ Hbody) in H |- *.
      cbn [fst snd] in H |- *. injection H as <-.
      exists [], [], (item :: rest), [].
      split; [reflexivity|]. split; [reflexivity|]. split; [constructor|].
      cbn [List.length app]. rewrite Nat.add_0_r, Hbody. split; reflexivity.
    + rewrite (for_items_raise _ _ _ _ _ _ _ _ Hbody) in H. discriminate.
Qed.

Lemma update_first_split (name : string) (f : ET.Element -> ET.Element)
    (cs : list ET.Element) (d : ET.Element) :
  List.find (ET.has_tag name) cs = Some d ->
  exists before after,
    cs = before ++ d :: after /\
    List.find (ET.has_tag name) before = None /\
    ET.update_first name f cs = before ++ f d :: after.
Proof.
  induction cs as [|c cs IH]; simpl; [discriminate|].
  destruct (ET.has_tag name c) eqn:E; intros H.
  - injection H as ->. exists [], cs. repeat split.
  - destruct (IH H) as (before & after & -> & Hnone & Hup).
    exists (c :: before), after. simpl. rewrite E, Hup. repeat split. exact Hnone.
Qed.

(** The document that is written, against the one that was read. *)
Lemma document_after_updated (root channel : ET.Element) (items' : list ET.Element) :
  ET.find root "channel" = Some channel ->
  Forall2 (fun item item' => ET.tag item' = ET.tag item)
          (ET.findall channel "item") items' ->
  document_after root channel items' (updated_tree root items').
Proof.
  intros Hch Htags. unfold document_after, updated_tree.
  cbn [ET.tag ET.attrib ET.text ET.tail ET.children ET.set_children].
  repeat (split; [reflexivity|]).
  destruct (update_first_split "channel"
              (fun c => ET.set_children c (ET.put_back "item" (ET.children c) items'))
              _ _ Hch) as (before & after & Hcs & Hnone & Hup).
  exists before, after,
    (ET.set_children channel (ET.put_back "item" (ET.children channel) items')).
  split; [exact Hcs|]. split; [exact Hnone|]. split; [exact Hup|].
  cbn [ET.tag ET.attrib ET.text ET.tail ET.children ET.set_children].
  repeat (split; [reflexivity|]).
  split.
  - eapply Forall2_impl;
      [|apply (put_back_Forall2 (fun item item' => ET.tag item' = ET.tag item)
                 "item" _ _ Htags)].
    intros c c' [-> | [Hitem Ht]].
    + split; [reflexivity | auto].
    + split; [unfold ET.has_tag; now rewrite Ht | congruence].
  - unfold ET.findall. cbn [ET.children ET.set_children].
    eapply filter_put_back; [exact Htags | now apply new_items_tagged with channel].
Qed.

(** C1, amended: when the fetch for item K gives the blocked outcome, the
    loop is left at once.  Of the items before K, those with a link have the
    fetched content as their description and those without a link are as in
    the input; the items from K on are as in the input; nothing is performed
    for the items after K; the run returns and the document in this state
    is written to the output path. *)
Theorem blocked_item_halts_the_run (input_file output_file : string)
    (delay : seconds) (user_agent content : string) (root channel : ET.Element)
    (pre : list ET.Element) (itemK : ET.Element) (post : list ET.Element)
    (logs : list event) (pre' : list ET.Element)
    (link_elem : ET.Element) (raw title_text : string) :
  fs input_file = Readable content ->
  XMLParser content = Some root ->
  ET.find root "channel" = Some channel ->
  ET.findall channel "item" = pre ++ itemK :: post ->
  let n := List.length (pre ++ itemK :: post) in
  let K := S (List.length pre) in
  passes delay user_agent n 1 pre logs pre' ->
  ET.find itemK "link" = Some link_elem ->
  ET.text link_elem = Some raw ->
  snd (item_title itemK) = Ok title_text ->
  snd (fetch_obit_content (Py.strip raw) user_agent) = Ok None ->
  let written := updated_tree root (pre' ++ itemK :: post) in
  scrape_rss_feed input_file output_file delay user_agent =
    (Print (InfoParsing input_file) :: Print (InfoFound n input_file)
       :: logs
       ++ Print (InfoProcessing K n title_text (Py.strip raw))
       :: fst (fetch_obit_content (Py.strip raw) user_agent)
       ++ [Print (InfoBlocked K title_text);
           TreeWrite output_file written; Print (InfoDone output_file)],
     Ok tt) /\
  Forall2 (fun item item' =>
             (ET.find item "link" = None /\ item' = item) \/
             (ET.find item "link" <> None /\
              exists url html,
                snd (fetch_obit_content url user_agent) = Ok (Some html) /\
                description_is item' html))
          pre pre' /\
  (exists channel',
      ET.find written "channel" = Some channel' /\
      ET.findall channel' "item" = pre' ++ itemK :: post).
Proof.
  intros Hfs Hxml Hch Hitems n K Hpre Hlink Htext Htitle Hblocked written.
  pose proof (loop_body_blocked delay user_agent K n _ _ _ _
                Hlink Htext Htitle Hblocked) as Hbody.
  assert (Hloop : for_items delay user_agent 1 n (pre ++ itemK :: post) =
                  (logs ++ Print (InfoProcessing K n title_text (Py.strip raw))
                     :: fst (fetch_obit_content (Py.strip raw) user_agent)
                     ++ [Print (InfoBlocked K title_text)],
                   Ok (pre' ++ itemK :: post))).
  { rewrite (for_items_passes _ _ _ _ _ _ _ (itemK :: post) Hpre).
    change (1 + List.length pre) with K.
    now rewrite (for_items_break _ _ _ _ _ _ post Hbody). }
  split; [|split].
  - rewrite (scrape_run _ output_file delay user_agent _ _ _ Hfs Hxml Hch).
    rewrite Hitems. fold n. rewrite Hloop. cbn [fst snd].
    f_equal. f_equal. f_equal. rewrite <- !app_assoc. cbn [app].
    rewrite <- !app_assoc. reflexivity.
  - exact (passes_items _ _ _ _ _ _ _ Hpre).
  - apply items_of_updated with (channel := channel); [exact Hch|].
    rewrite Hitems. apply Forall2_app; [exact (passes_tags _ _ _ _ _ _ _ Hpre)|].
    apply Forall2_same. reflexivity.
Qed.

(** C10: an item whose link element has no text makes the run end with
    [AttributeError] when the loop reaches it: the pass performs nothing, so
    there is neither a warning nor a request for it, and no document is
    written. *)
Theorem empty_link_raises (input_file output_file : string)
    (delay : seconds) (user_agent content : string) (root channel : ET.Element)
    (pre : list ET.Element) (item : ET.Element) (post : list ET.Element)
    (logs : list event) (pre' : list ET.Element) (link_elem : ET.Element) :
  fs input_file = Readable content ->
  XMLParser content = Some root ->
  ET.find root "channel" = Some channel ->
  ET.findall channel "item" = pre ++ item :: post ->
  let n := List.length (pre ++ item :: post) in
  passes delay user_agent n 1 pre logs pre' ->
  ET.find item "link" = Some link_elem ->
  ET.text link_elem = None ->
  loop_body delay user_agent (S (List.length pre)) n item = ([], Raise AttributeError) /\
  scrape_rss_feed input_file output_file delay user_agent =
    (Print (InfoParsing input_file) :: Print (InfoFound n input_file) :: logs,
     Raise AttributeError).
Proof.
  intros Hfs Hxml Hch Hitems n Hpre Hlink Htext.
  pose proof (loop_body_empty_link delay user_agent (S (List.length pre)) n _ _
                Hlink Htext) as Hbody.
  split; [exact Hbody|].
  rewrite (scrape_run _ output_file delay user_agent _ _ _ Hfs Hxml Hch).
  rewrite Hitems. fold n.
  rewrite (for_items_passes _ _ _ _ _ _ _ (item :: post) Hpre).
  change (1 + List.length pre) with (S (List.length pre)).
  rewrite (for_items_raise _ _ _ _ _ _ _ post Hbody). cbn [fst snd].
  now rewrite !app_nil_r.
Qed.

(** ** Requests, pauses and writes of a log *)

Lemma requests_app (a b : list event) : requests (a ++ b) = requests a ++ requests b.
Proof.
  induction a as [|e a IH]; [reflexivity|].
  destruct e; simpl; now rewrite IH.
Qed.

Lemma pauses_app (a b : list event) : pauses (a ++ b) = pauses a + pauses b.
Proof.
  induction a as [|e a IH]; [reflexivity|].
  destruct e; simpl; now rewrite IH.
Qed.

Lemma writes_app (a b : list event) : writes (a ++ b) = writes a ++ writes b.
Proof.
  induction a as [|e a IH]; [reflexivity|].
  destruct e; simpl; now rewrite IH.
Qed.

Lemma parsed_app (a b : list event) : parsed (a ++ b) = parsed a ++ parsed b.
Proof.
  induction a as [|e a IH]; [reflexivity|].
  destruct e; simpl; now rewrite IH.
Qed.

Lemma paced_app (pending : bool) (a b : list event) :
  paced pending (a ++ b) = paced pending a && paced (pending_after pending a) b.
Proof.
  revert pending. induction a as [|e a IH]; intros pending; [reflexivity|].
  destruct e; simpl; rewrite ?IH; try reflexivity.
  now rewrite andb_assoc.
Qed.

Lemma pending_after_app (pending : bool) (a b : list event) :
  pending_after pending (a ++ b) = pending_after (pending_after pending a) b.
Proof.
  revert pending. induction a as [|e a IH]; intros pending; [reflexivity|].
  destruct e; simpl; now rewrite ?IH.
Qed.

(** A quiet log requests nothing, pauses never, writes nothing and leaves
    the pace as it is. *)
Lemma quiet_log (log : list event) :
  Forall quiet log ->
  requests log = [] /\ pauses log = 0 /\ writes log = [] /\
  (forall pending, paced pending log = true /\ pending_after pending log = pending).
Proof.
  induction 1 as [|e log He _ (IH1 & IH2 & IH3 & IH4)]; [repeat split|].
  destruct e; simpl in *; try contradiction; repeat split; auto; apply IH4.
Qed.

Lemma prints_are_quiet (log : list event) : Forall is_print log -> Forall quiet log.
Proof.
  apply Forall_impl. intros [ ] H; simpl in *; auto.
Qed.

Lemma not_a_write_writes (log : list event) : Forall not_a_write log -> writes log = [].
Proof.
  induction 1 as [|e log He _ IH]; [reflexivity|].
  destruct e; simpl in *; auto; contradiction.
Qed.

(** ** The log of [fetch_obit_content] *)

Lemma handle_div_prints (div : Bs4.node) (combined_html : list string) :
  Forall is_print (fst (handle_div div combined_html)).
Proof.
  unfold handle_div, getitem, print, emit, ret, raise. log_steps.
  repeat match goal with
         | |- context [if ?b then _ else _] => destruct b
         | |- context [match ?o with Some _ => _ | None => _ end] => destruct o
         end; log_steps.
Qed.

Lemma for_divs_prints (content_divs : list Bs4.node) (combined_html : list string) :
  Forall is_print (fst (for_divs content_divs combined_html)).
Proof.
  revert combined_html. induction content_divs as [|div rest IH]; intros; simpl.
  - constructor.
  - apply bind_log; [apply handle_div_prints | intros; apply IH].
Qed.

(** The log of a call: the request, then prints, with the call of the
    parser among them when the page is parsed. *)
Lemma fetch_log_shape (url user_agent : string) :
  exists tail_log,
    fst (fetch_obit_content url user_agent) = HttpGet url user_agent 10 :: tail_log /\
    Forall quiet tail_log.
Proof.
  unfold fetch_obit_content. unfold bind at 1. cbn [fst snd emit app].
  eexists. split; [reflexivity|].
  unfold print, emit, ret.
  destruct (requests_get url user_agent) as [[status_code text]|]; log_steps.
  destruct (raises_for_status status_code); log_steps.
  destruct (Py.contains _ _); log_steps.
  destruct (BeautifulSoup text); log_steps.
  apply prints_are_quiet, for_divs_prints.
Qed.

Lemma prints_parse_nothing (log : list event) : Forall is_print log -> parsed log = [].
Proof.
  induction 1 as [|e log He _ IH]; [reflexivity|].
  destruct e; simpl in *; auto; contradiction.
Qed.

Lemma fetch_parse_log (url user_agent text : string) (status_code : nat) :
  requests_get url user_agent = Some (status_code, text) ->
  raises_for_status status_code = false ->
  Py.contains "are you human" (Py.lower (Py.slice_to 500 text)) = false ->
  exists prints,
    fst (fetch_obit_content url user_agent) =
    [HttpGet url user_agent 10; Print (DebugFetched url status_code);
     Print (DebugFirst500 (Py.slice_to 500 text)); MakeSoup text "html.parser"]
    ++ prints /\
    Forall is_print prints.
Proof.
  intros Hget Hst Hin.
  destruct (BeautifulSoup text) as [page|] eqn:Hpage.
  - exists (Print (DebugFound
                     (List.length (Bs4.find_all page "div"
                                     [Bs4.AnyValue "data-blog-component"])))
            :: fst (for_divs (Bs4.find_all page "div"
                                [Bs4.AnyValue "data-blog-component"]) [])).
    split; [|constructor; [exact I | apply for_divs_prints]].
    unfold fetch_obit_content. rewrite Hget, Hst, Hin, Hpage.
    unfold bind, print, emit, ret. cbn [fst snd app].
    destruct (for_divs_returns
                (Bs4.find_all page "div" [Bs4.AnyValue "data-blog-component"]) [])
      as (blocks & ->).
    cbn [fst snd app]. now rewrite app_nil_r.
  - exists []. split; [|constructor].
    now rewrite (fetch_rejected _ _ _ _ Hget Hst Hin Hpage).
Qed.

(** ** More on the extractor *)

(** A call ends with [None] exactly for a fetched page that holds the
    challenge phrase within its first 500 characters: a failed fetch, or a
    page with the phrase further down, is never taken for a block. *)
Theorem blocked_exactly_on_challenge (url user_agent : string) :
  snd (fetch_obit_content url user_agent) = Ok None <->
  exists text, fetched url user_agent text /\ challenge_in_first_500 text.
Proof.
  split.
  - intros H.
    destruct (requests_get url user_agent) as [[status_code text]|] eqn:Hget.
    + destruct (raises_for_status status_code) eqn:Hst.
      * rewrite fetch_failed in H by (unfold fetch_fails; now rewrite Hget).
        discriminate.
      * destruct (Py.contains "are you human" (Py.lower (Py.slice_to 500 text)))
          eqn:Hin.
        -- exists text. split; [now exists status_code | now apply challenge_test_iff].
        -- destruct (BeautifulSoup text) as [page|] eqn:Hpage.
           ++ destruct (fetch_extracts _ _ _ _ _ Hget Hst Hin Hpage)
                as (blocks & _ & Hs).
              rewrite Hs in H. discriminate.
           ++ rewrite (fetch_rejected _ _ _ _ Hget Hst Hin Hpage) in H.
              discriminate.
    + rewrite fetch_failed in H by (unfold fetch_fails; now rewrite Hget).
      discriminate.
  - intros (text & (status_code & Hget & Hst) & Hin).
    apply challenge_test_iff in Hin.
    now rewrite (fetch_blocked _ _ _ _ Hget Hst Hin).
Qed.

(** One call performs one request, for the given URL, no pause and no
    write.  It calls the HTML parser at most once, and exactly for a
    fetched page without the challenge phrase in its first 500 characters:
    then with the whole page, not with its first 500 characters. *)
Theorem one_request_one_parse (url user_agent : string) :
  let log := fst (fetch_obit_content url user_agent) in
  requests log = [url] /\ pauses log = 0 /\ writes log = [] /\
  List.length (parsed log) <= 1 /\
  (forall markup,
      In markup (parsed log) <->
      fetched url user_agent markup /\ ~ challenge_in_first_500 markup).
Proof.
  intros log. subst log.
  destruct (fetch_log_shape url user_agent) as (tail_log & Hlog & Hquiet).
  destruct (quiet_log _ Hquiet) as (Hr & Hp & Hw & _).
  split; [rewrite Hlog; simpl; now rewrite Hr|].
  split; [rewrite Hlog; simpl; exact Hp|].
  split; [rewrite Hlog; simpl; exact Hw|].
  clear tail_log Hlog Hquiet Hr Hp Hw.
  destruct (requests_get url user_agent) as [[status_code text]|] eqn:Hget.
  - destruct (raises_for_status status_code) eqn:Hst.
    + rewrite fetch_failed by (unfold fetch_fails; now rewrite Hget).
      split; [simpl; lia|]. intros markup. split; [intros []|].
      intros [(st & Hg & Hs) _]. congruence.
    + destruct (Py.contains "are you human" (Py.lower (Py.slice_to 500 text)))
        eqn:Hin.
      * rewrite (fetch_blocked _ _ _ _ Hget Hst Hin).
        split; [simpl; lia|]. intros markup. split; [intros []|].
        intros [(st & Hg & Hs) Hclear]. exfalso. apply Hclear.
        apply challenge_test_iff. congruence.
      * destruct (fetch_parse_log _ _ _ _ Hget Hst Hin) as (prints & -> & Hprints).
        rewrite parsed_app, (prints_parse_nothing _ Hprints).
        cbn [parsed app List.length]. split; [lia|].
        intros markup. split.
        -- intros [<- | []]. split; [now exists status_code|].
           intros Hc. apply challenge_test_iff in Hc. congruence.
        -- intros [(st & Hg & Hs) _]. left. congruence.
  - rewrite fetch_failed by (unfold fetch_fails; now rewrite Hget).
    split; [simpl; lia|]. intros markup. split; [intros []|].
    intros [(st & Hg & Hs) _]. congruence.
Qed.

(** A marker element adds what it yields on its own to the blocks so far,
    and it yields one block at most. *)
Lemma handle_div_appends (div : Bs4.node) (combined_html : list string) :
  snd (handle_div div combined_html) = Ok (combined_html ++ blocks_of div) /\
  List.length (blocks_of div) <= 1.
Proof.
  unfold blocks_of, handle_div, getitem, truthy_opt.
  repeat match goal with
         | |- context [match ?o with Some _ => _ | None => _ end] => destruct o
         | |- context [if ?b then _ else _] => destruct b
         end;
    cbn; rewrite ?app_nil_r; split; (reflexivity || lia).
Qed.

Lemma for_divs_appends (content_divs : list Bs4.node) (combined_html : list string) :
  snd (for_divs content_divs combined_html)
  = Ok (combined_html ++ flat_map blocks_of content_divs).
Proof.
  revert combined_html.
  induction content_divs as [|div rest IH]; intros combined_html; simpl.
  - now rewrite app_nil_r.
  - unfold bind at 1. rewrite (proj1 (handle_div_appends div combined_html)).
    cbn [snd]. rewrite IH. now rewrite app_assoc.
Qed.

(** The content of a page that is fetched and not blocked is made of the
    blocks of its marker elements in the order of the page, joined by line
    feeds: each element yields what it yields on its own, one block at
    most, and the blocks of a first part of the page come before those of
    the rest.  A page that the parser gives up on has no content: the call
    ends with the exception of the parser. *)
Theorem content_is_blocks_in_page_order (url user_agent text : string) :
  fetched url user_agent text ->
  ~ challenge_in_first_500 text ->
  match BeautifulSoup text with
  | Some page =>
      let content_divs :=
        Bs4.find_all page "div" [Bs4.AnyValue "data-blog-component"] in
      snd (fetch_obit_content url user_agent)
      = Ok (Some (Py.join nl (flat_map blocks_of content_divs))) /\
      Forall (fun div => List.length (blocks_of div) <= 1) content_divs
  | None => snd (fetch_obit_content url user_agent) = Raise ParserRejectedMarkup
  end /\
  (forall first rest combined_html,
      snd (for_divs (first ++ rest) combined_html)
      = Ok (combined_html ++ flat_map blocks_of first ++ flat_map blocks_of rest)).
Proof.
  intros (status_code & Hget & Hst) Hclear.
  assert (Hin : Py.contains "are you human" (Py.lower (Py.slice_to 500 text)) = false).
  { destruct (Py.contains _ _) eqn:E; [|reflexivity].
    exfalso. apply Hclear. now apply challenge_test_iff. }
  split.
  - destruct (BeautifulSoup text) as [page|] eqn:Hpage.
    + split.
      * destruct (fetch_extracts _ _ _ _ _ Hget Hst Hin Hpage)
          as (blocks & Hblocks & ->).
        rewrite for_divs_appends in Hblocks. now injection Hblocks as <-.
      * apply Forall_forall. intros div _. apply handle_div_appends. exact [].
    + now rewrite (fetch_rejected _ _ _ _ Hget Hst Hin Hpage).
  - intros first rest combined_html.
    now rewrite for_divs_appends, flat_map_app.
Qed.

(** ** More on the update of the description *)

Lemma update_first_twice (name : string) (f g : ET.Element -> ET.Element)
    (cs : list ET.Element) :
  (forall c, ET.has_tag name (f c) = ET.has_tag name c) ->
  ET.update_first name g (ET.update_first name f cs)
  = ET.update_first name (fun c => g (f c)) cs.
Proof.
  intros Hf. induction cs as [|c cs IH]; simpl; [reflexivity|].
  destruct (ET.has_tag name c) eqn:E; simpl.
  - now rewrite Hf, E.
  - now rewrite E, IH.
Qed.

Lemma find_none_filter (name : string) (cs : list ET.Element) :
  List.find (ET.has_tag name) cs = None -> filter (ET.has_tag name) cs = [].
Proof.
  induction cs as [|c cs IH]; simpl; [reflexivity|].
  destruct (ET.has_tag name c); [discriminate | exact IH].
Qed.

Lemma filter_update_first_length (name : string) (f : ET.Element -> ET.Element)
    (cs : list ET.Element) :
  (forall c, ET.has_tag name (f c) = ET.has_tag name c) ->
  List.length (filter (ET.has_tag name) (ET.update_first name f cs))
  = List.length (filter (ET.has_tag name) cs).
Proof.
  intros Hf. induction cs as [|c cs IH]; simpl; [reflexivity|].
  destruct (ET.has_tag name c) eqn:E; simpl.
  - now rewrite Hf, E.
  - now rewrite E.
Qed.

Lemma has_tag_other (name other : string) (c : ET.Element) :
  other <> name -> ET.has_tag name c = true -> ET.has_tag other c = false.
Proof.
  unfold ET.has_tag. intros Hne H. apply String.eqb_eq in H.
  apply String.eqb_neq. congruence.
Qed.

(** A change of the first element with one tag leaves the elements with
    another tag as they are. *)
Lemma filter_update_first_other (name other : string) (f : ET.Element -> ET.Element)
    (cs : list ET.Element) :
  other <> name ->
  (forall c, ET.tag (f c) = ET.tag c) ->
  filter (ET.has_tag other) (ET.update_first name f cs)
  = filter (ET.has_tag other) cs.
Proof.
  intros Hne Hf. induction cs as [|c cs IH]; simpl; [reflexivity|].
  destruct (ET.has_tag name c) eqn:E; simpl.
  - rewrite (has_tag_other _ _ _ Hne E).
    assert (E' : ET.has_tag name (f c) = true)
      by (unfold ET.has_tag in *; now rewrite Hf).
    now rewrite (has_tag_other _ _ _ Hne E').
  - now rewrite IH.
Qed.

Lemma find_filter_hd (name : string) (cs : list ET.Element) :
  List.find (ET.has_tag name) cs = hd_error (filter (ET.has_tag name) cs).
Proof.
  induction cs as [|c cs IH]; simpl; [reflexivity|].
  now destruct (ET.has_tag name c).
Qed.

Lemma findall_store_other (item : ET.Element) (html other : string) :
  other <> "description" ->
  ET.findall (store_description item html) other = ET.findall item other.
Proof.
  intros Hne. unfold ET.findall, store_description, ET.find.
  destruct (List.find (ET.has_tag "description") (ET.children item)) eqn:Hfind;
    cbn [ET.children ET.set_children ET.SubElement].
  - now apply filter_update_first_other.
  - rewrite filter_update_first_other by auto.
    rewrite filter_app. cbn [filter].
    rewrite (has_tag_other "description" other) by auto.
    apply app_nil_r.
Qed.

Lemma find_store_other (item : ET.Element) (html other : string) :
  other <> "description" ->
  ET.find (store_description item html) other = ET.find item other.
Proof.
  intros Hne. unfold ET.find. rewrite !find_filter_hd.
  fold (ET.findall (store_description item html) other).
  fold (ET.findall item other). now rewrite findall_store_other.
Qed.

Lemma store_description_again (item : ET.Element) (a b : string) :
  store_description (store_description item a) b = store_description item b.
Proof.
  destruct (store_description_is item a) as (d & Hd & _).
  unfold store_description at 1. rewrite Hd.
  unfold store_description, ET.find.
  destruct (List.find (ET.has_tag "description") (ET.children item)) eqn:Hfind;
    cbn [ET.children ET.set_children ET.SubElement ET.tag ET.attrib ET.text ET.tail].
  - unfold ET.set_children. cbn [ET.tag ET.attrib ET.text ET.tail ET.children].
    f_equal. now rewrite update_first_twice.
  - unfold ET.set_children. cbn [ET.tag ET.attrib ET.text ET.tail ET.children].
    f_equal. rewrite update_first_twice by reflexivity.
    now rewrite !update_first_new by (exact Hfind || reflexivity).
Qed.

(** The update of the description never adds a second description: an item
    that had descriptions has as many afterwards, an item that had none has
    one; the fields with other tags stay as they are; and a second update
    replaces the first. *)
Theorem description_is_stored_once (item : ET.Element) (a b : string) :
  List.length (ET.findall (store_description item a) "description")
  = Nat.max 1 (List.length (ET.findall item "description")) /\
  (forall other, other <> "description" ->
                 ET.findall (store_description item a) other = ET.findall item other) /\
  store_description (store_description item a) b = store_description item b.
Proof.
  split; [|split].
  - unfold ET.findall, store_description, ET.find.
    destruct (List.find (ET.has_tag "description") (ET.children item)) eqn:Hfind;
      cbn [ET.children ET.set_children ET.SubElement].
    + rewrite filter_update_first_length by reflexivity.
      rewrite find_filter_hd in Hfind.
      destruct (filter (ET.has_tag "description") (ET.children item));
        [discriminate | simpl; lia].
    + rewrite update_first_new by (exact Hfind || reflexivity).
      rewrite filter_app, (find_none_filter _ _ Hfind). reflexivity.
  - intros other Hne. now apply findall_store_other.
  - apply store_description_again.
Qed.

(** ** More on the loop *)

Lemma loop_body_empty_title (delay : seconds) (user_agent : string) (i n : nat)
    (item link_elem title_elem : ET.Element) (raw : string) :
  ET.find item "link" = Some link_elem ->
  ET.text link_elem = Some raw ->
  ET.find item "title" = Some title_elem ->
  ET.text title_elem = None ->
  loop_body delay user_agent i n item = ([], Raise AttributeError).
Proof.
  intros Hlink Htext Htitle Hnone. unfold loop_body, item_title, text_strip.
  rewrite Hlink, Htext, Htitle, Hnone. reflexivity.
Qed.

(** An item with a link and with a title element that has no text makes
    the run end with [AttributeError] when the loop reaches it: the pass
    performs nothing, so the page of the item is not requested, and no
    document is written. *)
Theorem empty_title_raises (input_file output_file : string)
    (delay : seconds) (user_agent content : string) (root channel : ET.Element)
    (pre : list ET.Element) (item : ET.Element) (post : list ET.Element)
    (logs : list event) (pre' : list ET.Element)
    (link_elem title_elem : ET.Element) (raw : string) :
  fs input_file = Readable content ->
  XMLParser content = Some root ->
  ET.find root "channel" = Some channel ->
  ET.findall channel "item" = pre ++ item :: post ->
  let n := List.length (pre ++ item :: post) in
  passes delay user_agent n 1 pre logs pre' ->
  ET.find item "link" = Some link_elem ->
  ET.text link_elem = Some raw ->
  ET.find item "title" = Some title_elem ->
  ET.text title_elem = None ->
  loop_body delay user_agent (S (List.length pre)) n item = ([], Raise AttributeError) /\
  scrape_rss_feed input_file output_file delay user_agent =
    (Print (InfoParsing input_file) :: Print (InfoFound n input_file) :: logs,
     Raise AttributeError).
Proof.
  intros Hfs Hxml Hch Hitems n Hpre Hlink Htext Htitle Hnone.
  pose proof (loop_body_empty_title delay user_agent (S (List.length pre)) n _ _ _ _
                Hlink Htext Htitle Hnone) as Hbody.
  split; [exact Hbody|].
  rewrite (scrape_run _ output_file delay user_agent _ _ _ Hfs Hxml Hch).
  rewrite Hitems. fold n.
  rewrite (for_items_passes _ _ _ _ _ _ _ (item :: post) Hpre).
  change (1 + List.length pre) with (S (List.length pre)).
  rewrite (for_items_raise _ _ _ _ _ _ _ post Hbody). cbn [fst snd].
  now rewrite !app_nil_r.
Qed.

(** A page that the HTML parser gives up on ends the whole run.  When the
    loop reaches an item whose page is fetched, is without the challenge
    phrase in its first 500 characters and is rejected by the parser, the
    run ends with the exception of the parser: the page was requested, no
    pause follows, and no document is written, so the descriptions that
    the earlier passes stored are not saved. *)
Theorem rejected_page_ends_the_run (input_file output_file : string)
    (delay : seconds) (user_agent content : string) (root channel : ET.Element)
    (pre : list ET.Element) (item : ET.Element) (post : list ET.Element)
    (logs : list event) (pre' : list ET.Element)
    (link_elem : ET.Element) (raw title_text text : string) :
  fs input_file = Readable content ->
  XMLParser content = Some root ->
  ET.find root "channel" = Some channel ->
  ET.findall channel "item" = pre ++ item :: post ->
  let n := List.length (pre ++ item :: post) in
  passes delay user_agent n 1 pre logs pre' ->
  ET.find item "link" = Some link_elem ->
  ET.text link_elem = Some raw ->
  snd (item_title item) = Ok title_text ->
  fetched (Py.strip raw) user_agent text ->
  ~ challenge_in_first_500 text ->
  BeautifulSoup text = None ->
  exists status_code,
    scrape_rss_feed input_file output_file delay user_agent =
      (Print (InfoParsing input_file) :: Print (InfoFound n input_file)
         :: logs
         ++ [Print (InfoProcessing (S (List.length pre)) n title_text (Py.strip raw));
             HttpGet (Py.strip raw) user_agent 10;
             Print (DebugFetched (Py.strip raw) status_code);
             Print (DebugFirst500 (Py.slice_to 500 text));
             MakeSoup text "html.parser"],
       Raise ParserRejectedMarkup) /\
    Forall not_a_write logs.
Proof.
  intros Hfs Hxml Hch Hitems n Hpre Hlink Htext Htitle (status_code & Hget & Hst)
    Hclear Hpage.
  assert (Hin : Py.contains "are you human" (Py.lower (Py.slice_to 500 text)) = false).
  { destruct (Py.contains _ _) eqn:E; [|reflexivity].
    exfalso. apply Hclear. now apply challenge_test_iff. }
  pose proof (fetch_rejected _ _ _ _ Hget Hst Hin Hpage) as Hfetch.
  assert (Hbody : loop_body delay user_agent (S (List.length pre)) n item =
                  ([Print (InfoProcessing (S (List.length pre)) n title_text
                             (Py.strip raw));
                    HttpGet (Py.strip raw) user_agent 10;
                    Print (DebugFetched (Py.strip raw) status_code);
                    Print (DebugFirst500 (Py.slice_to 500 text));
                    MakeSoup text "html.parser"],
                   Raise ParserRejectedMarkup)).
  { rewrite (loop_body_fetch_raises _ _ _ _ _ _ _ _ ParserRejectedMarkup
               Hlink Htext Htitle) by now rewrite Hfetch.
    now rewrite Hfetch. }
  exists status_code. split.
  - rewrite (scrape_run _ output_file delay user_agent _ _ _ Hfs Hxml Hch).
    rewrite Hitems. fold n.
    rewrite (for_items_passes _ _ _ _ _ _ _ (item :: post) Hpre).
    change (1 + List.length pre) with (S (List.length pre)).
    rewrite (for_items_raise _ _ _ _ _ _ _ post Hbody). cbn [fst snd].
    now rewrite !app_nil_r.
  - pose proof (for_items_log delay user_agent 1 n (pre ++ [])) as Hlog.
    rewrite (for_items_passes _ _ _ _ _ _ _ [] Hpre) in Hlog.
    cbn [for_items fst ret] in Hlog. rewrite !app_nil_r in Hlog. exact Hlog.
Qed.

Lemma item_title_store (item : ET.Element) (html : string) :
  item_title (store_description item html) = item_title item.
Proof.
  unfold item_title. rewrite find_store_other by discriminate. reflexivity.
Qed.

(** The loop over the items that it left, with the same web, leaves them
    again as they are: items without link stay, updated items get the same
    description, and the loop is left at the same item. *)
Theorem second_pass_changes_nothing (delay : seconds) (user_agent : string)
    (i n i' n' : nat) (items items' : list ET.Element) :
  snd (for_items delay user_agent i n items) = Ok items' ->
  snd (for_items delay user_agent i' n' items') = Ok items'.
Proof.
  revert i i' items'. induction items as [|item rest IH]; intros i i' items' H.
  - simpl in H. injection H as <-. reflexivity.
  - destruct (ET.find item "link") as [link_elem|] eqn:Hlink.
    + destruct (ET.text link_elem) as [raw|] eqn:Htext.
      * destruct (snd (item_title item)) as [title_text|e] eqn:Htitle.
        -- destruct (snd (fetch_obit_content (Py.strip raw) user_agent))
             as [[html|]|e] eqn:Hf.
           ++ rewrite (for_items_next _ _ _ _ _ _ _ _
                         (loop_body_content _ _ i n _ _ _ _ _ Hlink Htext Htitle Hf)) in H.
              cbn [snd] in H.
              destruct (snd (for_items delay user_agent (S i) n rest))
                as [rest'|e] eqn:Hrest; [|discriminate].
              injection H as <-.
              assert (Hbody : loop_body delay user_agent i' n' (store_description item html)
                              = (Print (InfoProcessing i' n' title_text (Py.strip raw))
                                   :: fst (fetch_obit_content (Py.strip raw) user_agent)
                                   ++ [Print (InfoWaiting delay); Sleep delay],
                                 Ok (Next (store_description item html)))).
              { pose proof (loop_body_content delay user_agent i' n'
                              (store_description item html) link_elem raw
                              title_text html) as Hb.
                rewrite store_description_again in Hb. apply Hb; auto.
                - now rewrite find_store_other by discriminate.
                - now rewrite item_title_store. }
              rewrite (for_items_next _ _ _ _ _ _ _ _ Hbody). cbn [snd].
              now rewrite (IH _ (S i') _ Hrest).
           ++ rewrite (for_items_break _ _ _ _ _ _ _
                         (loop_body_blocked _ _ i n _ _ _ _ Hlink Htext Htitle Hf)) in H.
              injection H as <-.
              now rewrite (for_items_break _ _ _ _ _ _ _
                             (loop_body_blocked _ _ i' n' _ _ _ _ Hlink Htext Htitle Hf)).
           ++ rewrite (for_items_raise _ _ _ _ _ _ _ _
                         (loop_body_fetch_raises _ _ i n _ _ _ _ _
                            Hlink Htext Htitle Hf)) in H.
              discriminate.
        -- pose proof (loop_body_title_raises delay user_agent i n _ _ _ _
                         Hlink Htext Htitle) as Hr.
           destruct (loop_body delay user_agent i n item) as [log r] eqn:Hbody.
           cbn [snd] in Hr. subst r.
           rewrite (for_items_raise _ _ _ _ _ _ _ _ Hbody) in H. discriminate.
      * rewrite (for_items_raise _ _ _ _ _ _ _ _
                   (loop_body_empty_link _ _ i n _ _ Hlink Htext)) in H.
        discriminate.
    + rewrite (for_items_next _ _ _ _ _ _ _ _
                 (loop_body_linkless _ _ i n _ Hlink)) in H.
      cbn [snd] in H.
      destruct (snd (for_items delay user_agent (S i) n rest))
        as [rest'|e] eqn:Hrest; [|discriminate].
      injection H as <-.
      rewrite (for_items_next _ _ _ _ _ _ _ _
                 (loop_body_linkless _ _ i' n' _ Hlink)).
      cbn [snd]. now rewrite (IH _ (S i') _ Hrest).
Qed.

(** ** Requests and pauses of the loop *)

Lemma link_url_length (item : ET.Element) : List.length (link_url item) <= 1.
Proof.
  unfold link_url. destruct (ET.find item "link") as [l|]; [|simpl; lia].
  destruct (ET.text l); simpl; lia.
Qed.

Lemma quiet_sent_as (user_agent : string) (log : list event) :
  Forall quiet log -> Forall (sent_as user_agent) log.
Proof. apply Forall_impl. intros [ ] H; simpl in *; auto; contradiction. Qed.

(** One pass of the loop: its requests, its pauses and its pace, by the
    way it ends. *)
Lemma loop_body_summary (delay : seconds) (user_agent : string) (i n : nat)
    (item : ET.Element) :
  let log := fst (loop_body delay user_agent i n item) in
  paced false log = true /\
  Forall (sent_as user_agent) log /\
  match snd (loop_body delay user_agent i n item) with
  | Ok (Next _) =>
      requests log = link_url item /\ pauses log = List.length (link_url item) /\
      pending_after false log = false
  | Ok Break => requests log = link_url item /\ pauses log = 0
  | Raise _ => (requests log = [] \/ requests log = link_url item) /\ pauses log = 0
  end.
Proof.
  cbv zeta. unfold link_url.
  destruct (ET.find item "link") as [link_elem|] eqn:Hlink.
  - destruct (ET.text link_elem) as [raw|] eqn:Htext.
    + destruct (snd (item_title item)) as [title_text|e] eqn:Htitle.
      * destruct (fetch_log_shape (Py.strip raw) user_agent) as (q & Hq & Hquiet).
        destruct (quiet_log _ Hquiet) as (Hr & Hp & _ & Hpace).
        destruct (snd (fetch_obit_content (Py.strip raw) user_agent))
          as [[html|]|e] eqn:Hf.
        -- rewrite (loop_body_content _ _ _ _ _ _ _ _ _ Hlink Htext Htitle Hf), Hq.
           cbn [fst snd]. repeat split.
           ++ cbn [paced app negb andb]. rewrite paced_app.
              rewrite (proj1 (Hpace true)). reflexivity.
           ++ constructor; [exact I|]. constructor; [now split|].
              apply Forall_app. split; [now apply quiet_sent_as|].
              repeat constructor.
           ++ cbn [requests app]. rewrite requests_app, Hr. reflexivity.
           ++ cbn [pauses app]. rewrite pauses_app, Hp. reflexivity.
           ++ cbn [pending_after app]. rewrite pending_after_app. reflexivity.
        -- rewrite (loop_body_blocked _ _ _ _ _ _ _ _ Hlink Htext Htitle Hf), Hq.
           cbn [fst snd]. repeat split.
           ++ cbn [paced app negb andb]. rewrite paced_app.
              rewrite (proj1 (Hpace true)). reflexivity.
           ++ constructor; [exact I|]. constructor; [now split|].
              apply Forall_app. split; [now apply quiet_sent_as|].
              repeat constructor.
           ++ cbn [requests app]. rewrite requests_app, Hr. reflexivity.
           ++ cbn [pauses app]. rewrite pauses_app, Hp. reflexivity.
        -- rewrite (loop_body_fetch_raises _ _ _ _ _ _ _ _ _ Hlink Htext Htitle Hf), Hq.
           cbn [fst snd]. repeat split.
           ++ cbn [paced app negb andb]. apply (proj1 (Hpace true)).
           ++ constructor; [exact I|]. constructor; [now split|].
              now apply quiet_sent_as.
           ++ right. cbn [requests]. now rewrite Hr.
           ++ cbn [pauses]. exact Hp.
      * assert (Hbody : loop_body delay user_agent i n item = ([], Raise e)).
        { assert (Hit : item_title item = ([], Raise e)).
          { rewrite <- Htitle, <- (item_title_log item).
            now destruct (item_title item). }
          unfold loop_body, text_strip. rewrite Hlink, Htext.
          rewrite (bind_ok _ _ [] (Py.strip raw) eq_refl).
          now rewrite (bind_raise _ _ _ _ Hit). }
        rewrite Hbody. cbn. auto.
    + rewrite (loop_body_empty_link _ _ _ _ _ _ Hlink Htext). cbn. auto.
  - rewrite (loop_body_linkless _ _ _ _ _ Hlink). cbn.
    repeat split; auto. repeat constructor.
Qed.

Lemma for_items_summary (delay : seconds) (user_agent : string) (i n : nat)
    (items : list ET.Element) :
  let log := fst (for_items delay user_agent i n items) in
  paced false log = true /\
  Forall (sent_as user_agent) log /\
  (exists rest, flat_map link_url items = requests log ++ rest) /\
  pauses log <= List.length (requests log) <= S (pauses log).
Proof.
  cbv zeta. revert i. induction items as [|item rest IH]; intros i.
  - simpl. repeat split; auto. exists []. reflexivity.
  - pose proof (loop_body_summary delay user_agent i n item) as Hs.
    pose proof (link_url_length item) as Hlen.
    cbv zeta in Hs.
    destruct (loop_body delay user_agent i n item) as [log [[item1|]|e]] eqn:Hbody;
      cbn [fst snd] in Hs; destruct Hs as (Hp & Hua & Hres).
    + destruct Hres as (Hr & Hn & Hpend).
      destruct (IH (S i)) as (IHp & IHua & (more & IHr) & IHn).
      rewrite (for_items_next _ _ _ _ _ _ _ _ Hbody). cbn [fst].
      rewrite paced_app, requests_app, pauses_app, length_app, Hp, Hpend, IHp.
      rewrite Hr, Hn.
      split; [reflexivity|]. split; [apply Forall_app; auto|].
      split; [|lia].
      exists more. cbn [flat_map]. now rewrite IHr, app_assoc.
    + destruct Hres as (Hr & Hn).
      rewrite (for_items_break _ _ _ _ _ _ _ Hbody). cbn [fst].
      rewrite Hr, Hn. split; [exact Hp|]. split; [exact Hua|].
      split; [|lia].
      exists (flat_map link_url rest). reflexivity.
    + destruct Hres as (Hr & Hn).
      rewrite (for_items_raise _ _ _ _ _ _ _ _ Hbody). cbn [fst].
      rewrite Hn. split; [exact Hp|]. split; [exact Hua|].
      destruct Hr as [Hr|Hr]; rewrite Hr.
      * split; [|simpl; lia].
        exists (flat_map link_url (item :: rest)). reflexivity.
      * split; [|lia].
        exists (flat_map link_url rest). reflexivity.
Qed.

(** In every run, no request is made while an earlier one has had no pause
    after it, and the numbers of pauses and of requests differ by one at
    most: each request but the last is followed by a pause, and there is
    no pause without a request. *)
Theorem requests_are_paced (input_file output_file : string) (delay : seconds)
    (user_agent : string) :
  let log := fst (scrape_rss_feed input_file output_file delay user_agent) in
  paced false log = true /\
  pauses log <= List.length (requests log) <= S (pauses log).
Proof.
  cbv zeta.
  destruct (fs input_file) as [| |content] eqn:Hfs;
    try (unfold scrape_rss_feed; rewrite Hfs; cbn; split; [reflexivity | lia]).
  destruct (XMLParser content) as [root|] eqn:Hxml;
    [|unfold scrape_rss_feed; rewrite Hfs, Hxml; cbn; split; [reflexivity | lia]].
  destruct (ET.find root "channel") as [channel|] eqn:Hch;
    [|unfold scrape_rss_feed; rewrite Hfs, Hxml, Hch; cbn; split; [reflexivity | lia]].
  rewrite (scrape_run _ output_file delay user_agent _ _ _ Hfs Hxml Hch).
  cbn [fst paced requests pauses].
  destruct (for_items_summary delay user_agent 1
              (List.length (ET.findall channel "item")) (ET.findall channel "item"))
    as (Hp & _ & _ & Hn).
  cbv zeta in Hp, Hn.
  rewrite paced_app, requests_app, pauses_app, length_app, Hp.
  destruct (snd (for_items delay user_agent 1 _ (ET.findall channel "item")));
    cbn; split; (reflexivity || lia).
Qed.


(** ** Whole runs *)

Lemma passes_summary (delay : seconds) (user_agent : string) (n i : nat)
    (pre : list ET.Element) (logs : list event) (pre' : list ET.Element) :
  passes delay user_agent n i pre logs pre' ->
  requests logs = flat_map link_url pre /\
  pauses logs = List.length (requests logs).
Proof.
  induction 1 as [i | i item item' log pre logs pre' Hbody _ (IHr & IHn)].
  - split; reflexivity.
  - pose proof (loop_body_summary delay user_agent i n item) as Hs.
    cbv zeta in Hs. rewrite Hbody in Hs. cbn [fst snd] in Hs.
    destruct Hs as (_ & _ & Hr & Hn & _).
    rewrite requests_app, pauses_app, length_app, Hr, Hn, IHn, IHr.
    split; reflexivity.
Qed.

(** C8: a written document differs from the input only in descriptions of
    items that the loop went through.  The items of the channel split into
    those that the loop went through and the rest, which is empty or starts
    with the item whose fetch gave the blocked outcome.  In the written
    document the items of the rest are as in the input; an item that the
    loop went through is as in the input when it has no link, and else is
    changed in its description only, which holds the content of the page of
    its own link.  Root and channel keep tag, attributes, text and tail,
    and all their other children are the same at the same places.  The
    pages requested are those of the items gone through and of the item
    where the loop was left, in this order; an item without a link is
    passed with one warning and no request. *)
Theorem only_descriptions_change (input_file output_file : string)
    (delay : seconds) (user_agent path : string) (doc : ET.Element) :
  In (TreeWrite path doc)
     (fst (scrape_rss_feed input_file output_file delay user_agent)) ->
  (exists content root channel visited visited' rest,
      fs input_file = Readable content /\ XMLParser content = Some root /\
      path = output_file /\
      ET.find root "channel" = Some channel /\
      ET.findall channel "item" = visited ++ rest /\
      Forall2 (processed user_agent) visited visited' /\
      match rest with
      | [] => True
      | itemK :: _ => blocked_at user_agent itemK
      end /\
      document_after root channel (visited' ++ rest) doc /\
      requests (fst (scrape_rss_feed input_file output_file delay user_agent))
      = flat_map link_url visited ++ flat_map link_url (firstn 1 rest) /\
      feed_kept (fun url =>
                   In (HttpGet url user_agent 10)
                      (fst (scrape_rss_feed input_file output_file delay user_agent)))
                root doc) /\
  (forall i n item,
      ET.find item "link" = None ->
      loop_body delay user_agent i n item = ([Print (WarnNoLink i n)], Ok (Next item))).
Proof.
  intros Hin. split; [|intros; now apply loop_body_linkless].
  destruct (fs input_file) as [| |content] eqn:Hfs;
    try (exfalso; revert Hin; unfold scrape_rss_feed; rewrite Hfs; cbn;
         intros [H|[H|[]]]; discriminate).
  { exfalso; revert Hin; unfold scrape_rss_feed; rewrite Hfs; cbn.
    intros [H|[]]; discriminate. }
  destruct (XMLParser content) as [root|] eqn:Hxml;
    [|exfalso; revert Hin; unfold scrape_rss_feed; rewrite Hfs, Hxml; cbn;
      intros [H|[H|[]]]; discriminate].
  destruct (ET.find root "channel") as [channel|] eqn:Hch;
    [|exfalso; revert Hin; unfold scrape_rss_feed; rewrite Hfs, Hxml, Hch; cbn;
      intros [H|[H|[]]]; discriminate].
  rewrite (scrape_run _ output_file delay user_agent _ _ _ Hfs Hxml Hch) in Hin |- *.
  cbn [fst] in Hin |- *.
  destruct Hin as [H|[H|Hin]]; try discriminate.
  apply in_app_or in Hin as [Hin|Hin].
  { exfalso. pose proof (for_items_log delay user_agent 1
                           (List.length (ET.findall channel "item"))
                           (ET.findall channel "item")) as Hlog.
    rewrite Forall_forall in Hlog. exact (Hlog _ Hin). }
  destruct (snd (for_items delay user_agent 1 _ (ET.findall channel "item")))
    as [items'|e] eqn:Hloop; [|destruct Hin].
  destruct Hin as [H|[H|[]]]; [|discriminate]. injection H as <- <-.
  destruct (for_items_split _ _ _ _ _ _ Hloop)
    as (visited & visited' & rest & logs & Hitems & -> & Hpass & Hlog & Hend).
  exists content, root, channel, visited, visited', rest.
  split; [reflexivity|]. split; [exact Hxml|]. split; [reflexivity|].
  split; [exact Hch|]. split; [exact Hitems|].
  split; [exact (passes_processed _ _ _ _ _ _ _ Hpass)|].
  split; [destruct rest as [|itemK post]; [exact I | exact (loop_body_break _ _ _ _ _ Hend)]|].
  split; [|split].
  - apply document_after_updated; [exact Hch|].
    exact (proj2 (for_items_kept _ _ _ _ _ _ Hloop)).
  - cbn [requests]. rewrite requests_app. cbn [requests]. rewrite app_nil_r.
    rewrite Hlog, requests_app.
    rewrite (proj1 (passes_summary _ _ _ _ _ _ _ Hpass)). f_equal.
    destruct rest as [|itemK post]; [reflexivity|].
    pose proof (loop_body_summary delay user_agent (1 + List.length visited)
                  (List.length (ET.findall channel "item")) itemK) as Hs.
    cbv zeta in Hs. rewrite Hend in Hs. destruct Hs as (_ & _ & Hr & _).
    cbn [firstn flat_map]. now rewrite app_nil_r.
  - apply feed_kept_updated with (channel := channel); [exact Hch|].
    eapply Forall2_impl; [|exact (proj1 (for_items_kept _ _ _ _ _ _ Hloop))].
    intros a b. apply item_after_mono.
    intros url Hu. right. right. apply in_or_app. now left.
Qed.

(** When the loop goes through all items of the feed, every item with a
    link has the content of the page of its own link as its description,
    all else of it being kept, and every item without a link is as in the
    input; the requests are those of the items
    in the order of the document, each followed by a pause; the document is
    written once, after the loop, and holds the items in their new states
    in the same order. *)
Theorem complete_run (input_file output_file : string) (delay : seconds)
    (user_agent content : string) (root channel : ET.Element)
    (logs : list event) (items' : list ET.Element) :
  fs input_file = Readable content ->
  XMLParser content = Some root ->
  ET.find root "channel" = Some channel ->
  let items := ET.findall channel "item" in
  let n := List.length items in
  passes delay user_agent n 1 items logs items' ->
  let written := updated_tree root items' in
  scrape_rss_feed input_file output_file delay user_agent =
    (Print (InfoParsing input_file) :: Print (InfoFound n input_file)
       :: logs ++ [TreeWrite output_file written; Print (InfoDone output_file)],
     Ok tt) /\
  Forall2 (processed user_agent) items items' /\
  requests logs = flat_map link_url items /\
  pauses logs = List.length (requests logs) /\
  (exists channel',
      ET.find written "channel" = Some channel' /\
      ET.findall channel' "item" = items').
Proof.
  intros Hfs Hxml Hch items n Hpass written.
  split; [|split; [|split; [|split]]].
  - rewrite (scrape_run _ output_file delay user_agent _ _ _ Hfs Hxml Hch).
    fold items. fold n.
    pose proof (for_items_passes _ _ _ _ _ _ _ [] Hpass) as Hloop.
    rewrite app_nil_r in Hloop. rewrite Hloop. cbn [for_items fst snd ret].
    now rewrite !app_nil_r.
  - exact (passes_processed _ _ _ _ _ _ _ Hpass).
  - exact (proj1 (passes_summary _ _ _ _ _ _ _ Hpass)).
  - exact (proj2 (passes_summary _ _ _ _ _ _ _ Hpass)).
  - apply items_of_updated with (channel := channel); [exact Hch|].
    exact (passes_tags _ _ _ _ _ _ _ Hpass).
Qed.

(** A run writes at most one document, and only to the output path; it
    writes one exactly when the three checks before the loop pass and the
    run ends without an exception. *)
Theorem document_is_written_once (input_file output_file : string)
    (delay : seconds) (user_agent : string) :
  let run := scrape_rss_feed input_file output_file delay user_agent in
  (writes (fst run) = [] \/ exists doc, writes (fst run) = [(output_file, doc)]) /\
  (writes (fst run) <> [] <->
   snd run = Ok tt /\
   exists content root channel,
     fs input_file = Readable content /\ XMLParser content = Some root /\
     ET.find root "channel" = Some channel).
Proof.
  cbv zeta.
  destruct (fs input_file) as [| |content] eqn:Hfs;
    try (unfold scrape_rss_feed; rewrite Hfs; cbn; split; [now left|];
         split; [congruence | intros (_ & c & r & ch & H & _); discriminate]).
  destruct (XMLParser content) as [root|] eqn:Hxml;
    [|unfold scrape_rss_feed; rewrite Hfs, Hxml; cbn; split; [now left|];
      split; [congruence | intros (_ & c & r & ch & H & H' & _); congruence]].
  destruct (ET.find root "channel") as [channel|] eqn:Hch;
    [|unfold scrape_rss_feed; rewrite Hfs, Hxml, Hch; cbn; split; [now left|];
      split; [congruence | intros (_ & c & r & ch & H & H' & H''); congruence]].
  rewrite (scrape_run _ output_file delay user_agent _ _ _ Hfs Hxml Hch).
  cbn [fst snd writes]. rewrite writes_app.
  rewrite (not_a_write_writes _ (for_items_log delay user_agent 1 _ _)).
  destruct (snd (for_items delay user_agent 1 _ (ET.findall channel "item")))
    as [items'|e]; cbn [writes app].
  - split; [right; eauto|]. split; [|discriminate].
    intros _. split; [reflexivity|]. now exists content, root, channel.
  - split; [now left|]. split; [congruence | intros [H _]; discriminate].
Qed.

Lemma set_children_same (e : ET.Element) : ET.set_children e (ET.children e) = e.
Proof. now destruct e. Qed.

Lemma put_back_same (name : string) (cs : list ET.Element) :
  ET.put_back name cs (filter (ET.has_tag name) cs) = cs.
Proof.
  induction cs as [|c cs IH]; simpl; [reflexivity|].
  destruct (ET.has_tag name c) eqn:E; simpl; now rewrite IH.
Qed.

Lemma update_first_fix (name : string) (f : ET.Element -> ET.Element)
    (cs : list ET.Element) (d : ET.Element) :
  List.find (ET.has_tag name) cs = Some d -> f d = d ->
  ET.update_first name f cs = cs.
Proof.
  intros Hfind Hf. induction cs as [|c cs IH]; simpl in *; [reflexivity|].
  destruct (ET.has_tag name c).
  - injection Hfind as ->. now rewrite Hf.
  - now rewrite IH.
Qed.

(** Items that the loop left as they were give the document as it was. *)
Lemma updated_tree_same (root channel : ET.Element) :
  ET.find root "channel" = Some channel ->
  updated_tree root (ET.findall channel "item") = root.
Proof.
  intros Hch. unfold updated_tree.
  rewrite (update_first_fix _ _ _ _ Hch).
  - apply set_children_same.
  - unfold ET.findall. rewrite put_back_same. apply set_children_same.
Qed.

Lemma for_items_linkless (delay : seconds) (user_agent : string) (i n : nat)
    (items : list ET.Element) :
  Forall (fun item => ET.find item "link" = None) items ->
  for_items delay user_agent i n items =
  (map (fun k => Print (WarnNoLink k n)) (seq i (List.length items)), Ok items).
Proof.
  intros H. revert i. induction H as [|item rest Hl _ IH]; intros i.
  - reflexivity.
  - rewrite (for_items_next _ _ _ _ _ _ _ _ (loop_body_linkless _ _ i n _ Hl)).
    rewrite IH. reflexivity.
Qed.

Lemma passes_linkless (delay : seconds) (user_agent : string) (n i : nat)
    (items : list ET.Element) :
  Forall (fun item => ET.find item "link" = None) items ->
  passes delay user_agent n i items
         (map (fun k => Print (WarnNoLink k n)) (seq i (List.length items))) items.
Proof.
  intros H. revert i. induction H as [|item rest Hl _ IH]; intros i; [constructor|].
  change (map (fun k => Print (WarnNoLink k n)) (seq i (List.length (item :: rest))))
    with ([Print (WarnNoLink i n)]
            ++ map (fun k => Print (WarnNoLink k n)) (seq (S i) (List.length rest))).
  constructor; [now apply loop_body_linkless | apply IH].
Qed.

(** A feed in which no item has a link, the feed without items among them,
    is written as it was read: one warning for each item, no request, no
    pause, and the document of the input as the document of the output. *)
Theorem feed_without_links_is_written_as_read (input_file output_file : string)
    (delay : seconds) (user_agent content : string) (root channel : ET.Element) :
  fs input_file = Readable content ->
  XMLParser content = Some root ->
  ET.find root "channel" = Some channel ->
  Forall (fun item => ET.find item "link" = None) (ET.findall channel "item") ->
  let n := List.length (ET.findall channel "item") in
  scrape_rss_feed input_file output_file delay user_agent =
    (Print (InfoParsing input_file) :: Print (InfoFound n input_file)
       :: map (fun k => Print (WarnNoLink k n)) (seq 1 n)
       ++ [TreeWrite output_file root; Print (InfoDone output_file)],
     Ok tt).
Proof.
  intros Hfs Hxml Hch Hlinks n.
  rewrite (scrape_run _ output_file delay user_agent _ _ _ Hfs Hxml Hch).
  fold n. rewrite (for_items_linkless _ _ _ _ _ Hlinks). cbn [fst snd].
  now rewrite (updated_tree_same _ _ Hch).
Qed.

(** When the first request of a run is the blocked one, the document
    written is the document read: the items before the blocked one have no
    link, and nothing was changed when the loop was left. *)
Theorem first_request_blocked_writes_the_input (input_file output_file : string)
    (delay : seconds) (user_agent content : string) (root channel : ET.Element)
    (pre : list ET.Element) (itemK : ET.Element) (post : list ET.Element)
    (link_elem : ET.Element) (raw title_text : string) :
  fs input_file = Readable content ->
  XMLParser content = Some root ->
  ET.find root "channel" = Some channel ->
  ET.findall channel "item" = pre ++ itemK :: post ->
  Forall (fun item => ET.find item "link" = None) pre ->
  ET.find itemK "link" = Some link_elem ->
  ET.text link_elem = Some raw ->
  snd (item_title itemK) = Ok title_text ->
  snd (fetch_obit_content (Py.strip raw) user_agent) = Ok None ->
  let log := fst (scrape_rss_feed input_file output_file delay user_agent) in
  snd (scrape_rss_feed input_file output_file delay user_agent) = Ok tt /\
  writes log = [(output_file, root)] /\
  requests log = [Py.strip raw] /\
  pauses log = 0.
Proof.
  intros Hfs Hxml Hch Hitems Hpre Hlink Htext Htitle Hblocked. cbv zeta.
  set (n := List.length (pre ++ itemK :: post)).
  assert (Hp : passes delay user_agent n 1 pre
                 (map (fun k => Print (WarnNoLink k n)) (seq 1 (List.length pre))) pre).
  { now apply passes_linkless. }
  pose proof (loop_body_blocked delay user_agent (S (List.length pre)) n _ _ _ _
                Hlink Htext Htitle Hblocked) as Hbody.
  destruct (fetch_log_shape (Py.strip raw) user_agent) as (q & Hq & Hquiet).
  destruct (quiet_log _ Hquiet) as (Hr & Hn & Hw & _).
  rewrite (scrape_run _ output_file delay user_agent _ _ _ Hfs Hxml Hch).
  rewrite Hitems. fold n.
  rewrite (for_items_passes _ _ _ _ _ _ _ (itemK :: post) Hp).
  change (1 + List.length pre) with (S (List.length pre)).
  rewrite (for_items_break _ _ _ _ _ _ post Hbody), Hq. cbn [fst snd].
  rewrite <- Hitems, (updated_tree_same _ _ Hch).
  assert (Hwarn : Forall quiet
                    (map (fun k => Print (WarnNoLink k n)) (seq 1 (List.length pre)))).
  { apply Forall_forall. intros e He. apply in_map_iff in He as (k & <- & _). exact I. }
  destruct (quiet_log _ Hwarn) as (Hr' & Hn' & Hw' & _).
  split; [reflexivity|].
  cbn [writes requests pauses].
  rewrite !writes_app, !requests_app, !pauses_app, Hr', Hn', Hw'.
  cbn [writes requests pauses app].
  rewrite !writes_app, !requests_app, !pauses_app, Hr, Hn, Hw.
  repeat split.
Qed.

(** ** What is written for a description *)

Lemma contains_char (c : ascii) (s : string) :
  Py.contains (String c EmptyString) s = occurs c s.
Proof.
  induction s as [|x s IH]; [reflexivity|].
  cbn [Py.contains Py.startswith occurs]. rewrite IH, andb_true_r.
  now rewrite Ascii.eqb_sym.
Qed.

Lemma occurs_append (c : ascii) (a b : string) :
  occurs c (a ++ b) = occurs c a || occurs c b.
Proof.
  induction a as [|x a IH]; [reflexivity|].
  cbn [append occurs]. now rewrite IH, orb_assoc.
Qed.

(** A replacement that does not bring a character in does not leave it in
    either, when the character is the replaced one or was not there. *)
Lemma occurs_replace (c old : ascii) (new s : string) :
  occurs c new = false ->
  Ascii.eqb old c = true \/ occurs c s = false ->
  occurs c (Py.replace_char old new s) = false.
Proof.
  intros Hnew Hs. induction s as [|x s IH]; [reflexivity|].
  cbn [Py.replace_char].
  assert (Hs' : Ascii.eqb old c = true \/ occurs c s = false).
  { destruct Hs as [H|H]; [now left | right].
    cbn [occurs] in H. now apply orb_false_iff in H. }
  destruct (Ascii.eqb x old) eqn:E.
  - rewrite occurs_append, Hnew. now apply IH.
  - cbn [occurs]. rewrite (IH Hs'), orb_false_r.
    destruct Hs as [H|H].
    + apply Ascii.eqb_eq in H. subst c. exact E.
    + cbn [occurs] in H. now apply orb_false_iff in H.
Qed.

(** The text that [tree.write] puts between the tags of an element holds
    neither of the angle brackets, whatever the text of the element; so the
    description that line 120 assigns never reaches the file with the
    opening of a CDATA section. *)
Theorem written_text_has_no_markup (s : string) :
  Py.contains "<" (ET.escape_cdata s) = false /\
  Py.contains ">" (ET.escape_cdata s) = false /\
  Py.contains "<![CDATA[" (ET.escape_cdata (cdata s)) = false /\
  ET.serialize_xml (ET.mkElement "description" [] (Some (cdata s)) None [])
  = ("<description>" ++ ET.escape_cdata (cdata s) ++ "</description>")%string.
Proof.
  assert (Hlt : forall t, Py.contains "<" (ET.escape_cdata t) = false).
  { intros t. rewrite contains_char. unfold ET.escape_cdata.
    apply occurs_replace; [reflexivity | right].
    apply occurs_replace; [reflexivity | now left]. }
  split; [apply Hlt|]. split; [|split].
  - rewrite contains_char. unfold ET.escape_cdata.
    apply occurs_replace; [reflexivity | now left].
  - destruct (Py.contains "<![CDATA[" (ET.escape_cdata (cdata s))) eqn:E;
      [|reflexivity].
    apply contains_iff in E as (a & b & E).
    assert (H : Py.contains "<" (ET.escape_cdata (cdata s)) = true).
    { apply contains_iff. exists a, ("![CDATA[" ++ b)%string. exact E. }
    now rewrite Hlt in H.
  - unfold ET.serialize_xml, ET.serialize_attrib, ET.opt_text.
    cbn [map String.concat List.length Nat.eqb negb orb].
    unfold cdata at 1. cbn [append Py.truthy orb].
    now rewrite append_nil_r.
Qed.

(** ** The start button *)

Lemma scrape_starts (input_file output_file : string) (delay : seconds)
    (user_agent : string) :
  exists rest,
    fst (scrape_rss_feed input_file output_file delay user_agent)
    = Print (InfoParsing input_file) :: rest.
Proof.
  unfold scrape_rss_feed. unfold bind at 1. cbn [fst snd print emit app].
  eexists. reflexivity.
Qed.

Lemma scrape_fails_with (c : precondition_failure) (input_file output_file : string)
    (delay : seconds) (user_agent : string) :
  fails_with c input_file ->
  scrape_rss_feed input_file output_file delay user_agent =
  ([Print (InfoParsing input_file); Print (report c input_file)], Ok tt).
Proof.
  intros H. unfold scrape_rss_feed. destruct c; simpl in H.
  - rewrite H. reflexivity.
  - destruct H as (content & -> & ->). reflexivity.
  - destruct H as (content & root & -> & -> & ->). reflexivity.
Qed.

(** The requests and the writes of any run. *)
Lemma scrape_log_facts (input_file output_file : string) (delay : seconds)
    (user_agent : string) :
  let log := fst (scrape_rss_feed input_file output_file delay user_agent) in
  Forall (sent_as user_agent) log /\
  (forall path doc, In (TreeWrite path doc) log -> path = output_file).
Proof.
  cbv zeta.
  destruct (fs input_file) as [| |content] eqn:Hfs;
    try (unfold scrape_rss_feed; rewrite Hfs; cbn; split;
         [repeat constructor | intros ? ? H; repeat (destruct H as [H|H]; try discriminate);
                               destruct H]).
  destruct (XMLParser content) as [root|] eqn:Hxml;
    [|unfold scrape_rss_feed; rewrite Hfs, Hxml; cbn; split;
      [repeat constructor | intros ? ? H; repeat (destruct H as [H|H]; try discriminate);
                            destruct H]].
  destruct (ET.find root "channel") as [channel|] eqn:Hch;
    [|unfold scrape_rss_feed; rewrite Hfs, Hxml, Hch; cbn; split;
      [repeat constructor | intros ? ? H; repeat (destruct H as [H|H]; try discriminate);
                            destruct H]].
  rewrite (scrape_run _ output_file delay user_agent _ _ _ Hfs Hxml Hch).
  cbn [fst].
  destruct (for_items_summary delay user_agent 1
              (List.length (ET.findall channel "item")) (ET.findall channel "item"))
    as (_ & Hua & _).
  cbv zeta in Hua.
  pose proof (for_items_log delay user_agent 1
                (List.length (ET.findall channel "item")) (ET.findall channel "item"))
    as Hnw.
  split.
  - constructor; [exact I|]. constructor; [exact I|].
    apply Forall_app. split; [exact Hua|].
    destruct (snd (for_items delay user_agent 1 _ _)); repeat constructor.
  - intros path doc [H|[H|H]]; try discriminate.
    apply in_app_or in H as [H|H].
    + rewrite Forall_forall in Hnw. destruct (Hnw _ H).
    + destruct (snd (for_items delay user_agent 1 _ _)); [|destruct H].
      destruct H as [H|[H|[]]]; [|discriminate]. now injection H.
Qed.

(** A click starts a run exactly when the delay field reads as a number
    that is not negative; otherwise the click shows the error box and does
    nothing else: nothing is read, requested or written. *)
Theorem run_needs_a_valid_delay (f : form) :
  ((exists e, In (Script e) (fst (start_scraping f))) <->
   (exists delay, float (delay_var f) = Some delay /\ negative delay = false)) /\
  ((forall delay, float (delay_var f) = Some delay -> negative delay = true) ->
   start_scraping f =
   ([Dialog (ShowError "Invalid Delay"
               "Please enter a valid non-negative number for delay.")],
    Ok tt)).
Proof.
  unfold start_scraping.
  destruct (float (delay_var f)) as [delay|] eqn:Hfloat.
  - destruct (negative delay) eqn:Hneg.
    + split; [|reflexivity]. split.
      * intros (e & [H|[]]). discriminate.
      * intros (d & Hd & Hn). congruence.
    + split.
      * split; [intros _; now exists delay|]. intros _.
        destruct (scrape_starts (Py.strip (input_file_var f))
                    (Py.strip (output_file_var f)) delay
                    (Py.strip (user_agent_var f))) as (rest & Hlog).
        exists (Print (InfoParsing (Py.strip (input_file_var f)))).
        destruct (snd (scrape_rss_feed _ _ _ _)); cbn [fst];
          apply in_or_app; right; rewrite Hlog; cbn [map];
          try (apply in_or_app; left); now left.
      * intros H. specialize (H delay eq_refl). congruence.
  - split; [|reflexivity]. split.
    + intros (e & [H|[]]). discriminate.
    + intros (d & Hd & _). discriminate.
Qed.

(** After a run that ends without an exception the click shows the box
    that reports the feed as saved to the output path, also when the run
    stopped at a failed check and wrote nothing; after a run that ends
    with an exception the click ends with that exception and shows no such
    box. *)
Theorem done_is_shown_whenever_the_run_returns (f : form) (delay : seconds) :
  float (delay_var f) = Some delay ->
  negative delay = false ->
  let input_file := Py.strip (input_file_var f) in
  let output_file := Py.strip (output_file_var f) in
  let run := scrape_rss_feed input_file output_file delay
                             (Py.strip (user_agent_var f)) in
  let done := Dialog (ShowInfo "Done"
                        ("Scraping completed. Updated feed saved to:" ++ nl ++ output_file)) in
  snd (start_scraping f) = snd run /\
  (In done (fst (start_scraping f)) <-> snd run = Ok tt) /\
  (forall c, fails_with c input_file ->
             In done (fst (start_scraping f)) /\
             forall path doc, ~ In (Script (TreeWrite path doc)) (fst (start_scraping f))).
Proof.
  intros Hfloat Hneg input_file output_file run done.
  assert (Hshape :
    start_scraping f =
    match snd run with
    | Ok _ => ((if Py.truthy (Py.strip (user_agent_var f)) then []
                else [Dialog (ShowWarning "Empty User-Agent"
                                "User-Agent is empty. You might get blocked by the website.")])
               ++ map Script (fst run) ++ [done], Ok tt)
    | Raise e => ((if Py.truthy (Py.strip (user_agent_var f)) then []
                   else [Dialog (ShowWarning "Empty User-Agent"
                                   "User-Agent is empty. You might get blocked by the website.")])
                  ++ map Script (fst run), Raise e)
    end).
  { unfold start_scraping. rewrite Hfloat, Hneg. reflexivity. }
  assert (Hnot : forall l, ~ In done (map Script l)).
  { intros l H. apply in_map_iff in H as (e & He & _). discriminate. }
  assert (Hwarn : ~ In done (if Py.truthy (Py.strip (user_agent_var f)) then []
                             else [Dialog (ShowWarning "Empty User-Agent"
                                             "User-Agent is empty. You might get blocked by the website.")])).
  { destruct (Py.truthy _); [intros [] | intros [H|[]]; discriminate]. }
  assert (Hiff : In done (fst (start_scraping f)) <-> snd run = Ok tt).
  { rewrite Hshape. destruct (snd run) as [[]|e]; cbn [fst].
    - split; [reflexivity|]. intros _.
      apply in_or_app. right. apply in_or_app. right. now left.
    - split; [|discriminate]. intros H.
      apply in_app_or in H as [H|H]; [now apply Hwarn in H | now apply Hnot in H]. }
  split; [|split; [exact Hiff|]].
  - rewrite Hshape. now destruct (snd run) as [[]|e].
  - intros c Hc.
    pose proof (scrape_fails_with c input_file output_file delay
                  (Py.strip (user_agent_var f)) Hc) as Hrun.
    fold run in Hrun. split; [apply Hiff; now rewrite Hrun|].
    intros path doc H. rewrite Hshape, Hrun in H. cbn [fst snd map] in H.
    apply in_app_or in H as [H|H].
    + destruct (Py.truthy _); [destruct H | destruct H as [H|[]]; discriminate].
    + repeat (destruct H as [H|H]; try discriminate). destruct H.
Qed.

(** The click runs with the fields stripped of surrounding white space:
    every request carries the stripped User-Agent and a write goes to the
    stripped output path, also to the path just chosen in the output
    dialog.  An empty User-Agent gives the warning box and the run is made
    all the same. *)
Theorem click_uses_the_stripped_fields (f : form) (delay : seconds) :
  float (delay_var f) = Some delay ->
  negative delay = false ->
  let log := fst (start_scraping f) in
  let warning := Dialog (ShowWarning "Empty User-Agent"
                           "User-Agent is empty. You might get blocked by the website.") in
  (forall url agent timeout,
      In (Script (HttpGet url agent timeout)) log ->
      agent = Py.strip (user_agent_var f)) /\
  (forall path doc,
      In (Script (TreeWrite path doc)) log -> path = Py.strip (output_file_var f)) /\
  (forall filename path doc,
      Py.truthy filename = true ->
      In (Script (TreeWrite path doc)) (fst (start_scraping (browse_output_file filename f))) ->
      path = Py.strip filename) /\
  (In warning log <-> Py.strip (user_agent_var f) = "") /\
  In (Script (Print (InfoParsing (Py.strip (input_file_var f))))) log /\
  (forall filename,
      Py.truthy filename = true ->
      In (Script (Print (InfoParsing (Py.strip filename))))
         (fst (start_scraping (browse_input_file filename f)))).
Proof.
  intros Hfloat Hneg log warning.
  assert (Hscript : forall g d e,
             float (delay_var g) = Some d -> negative d = false ->
             In (Script e) (fst (start_scraping g)) ->
             In e (fst (scrape_rss_feed (Py.strip (input_file_var g))
                          (Py.strip (output_file_var g)) d
                          (Py.strip (user_agent_var g))))).
  { intros g d e Hf Hn. unfold start_scraping. rewrite Hf, Hn.
    set (run := scrape_rss_feed _ _ _ _).
    assert (Hw : forall w, In (Script e)
                   ((if Py.truthy (Py.strip (user_agent_var g)) then [] else [Dialog w])
                    ++ map Script (fst run)) -> In e (fst run)).
    { intros w H. apply in_app_or in H as [H|H].
      - destruct (Py.truthy _); [destruct H | destruct H as [H|[]]; discriminate].
      - apply in_map_iff in H as (e' & He & Hin). now injection He as <-. }
    destruct (snd run); cbn [fst]; intros H.
    - rewrite app_assoc in H. apply in_app_or in H as [H|[H|[]]];
        [now apply Hw in H | discriminate].
    - now apply Hw in H. }
  assert (Hopen : forall g d,
             float (delay_var g) = Some d -> negative d = false ->
             In (Script (Print (InfoParsing (Py.strip (input_file_var g)))))
                (fst (start_scraping g))).
  { intros g d Hf Hn. unfold start_scraping. rewrite Hf, Hn.
    destruct (scrape_starts (Py.strip (input_file_var g))
                (Py.strip (output_file_var g)) d
                (Py.strip (user_agent_var g))) as (rest & Hlog).
    destruct (snd (scrape_rss_feed _ _ _ _)); cbn [fst];
      apply in_or_app; right; rewrite Hlog; cbn [map];
      try (apply in_or_app; left); now left. }
  split; [|split; [|split; [|split; [|split]]]].
  - intros url agent timeout H. apply (Hscript f delay _ Hfloat Hneg) in H.
    destruct (scrape_log_facts (Py.strip (input_file_var f))
                (Py.strip (output_file_var f)) delay (Py.strip (user_agent_var f)))
      as (Hua & _).
    cbv zeta in Hua. rewrite Forall_forall in Hua. now destruct (Hua _ H).
  - intros path doc H. apply (Hscript f delay _ Hfloat Hneg) in H.
    now apply (scrape_log_facts _ _ _ _) in H.
  - intros filename path doc Hname H.
    assert (Hg : browse_output_file filename f
                 = mkForm (input_file_var f) filename (delay_var f) (user_agent_var f)).
    { unfold browse_output_file. now rewrite Hname. }
    rewrite Hg in H. apply (Hscript _ delay) in H; auto.
    now apply (scrape_log_facts _ _ _ _) in H.
  - subst log. unfold start_scraping. rewrite Hfloat, Hneg.
    set (run := scrape_rss_feed _ _ _ _).
    assert (Hnot : forall l, ~ In warning (map Script l)).
    { intros l H. apply in_map_iff in H as (e & He & _). discriminate. }
    destruct (Py.strip (user_agent_var f)) as [|c ua] eqn:Hua; cbn [Py.truthy].
    + split; [reflexivity|]. intros _.
      destruct (snd run); cbn [fst app]; now left.
    + split; [|discriminate]. intros H. exfalso.
      destruct (snd run); cbn [fst app] in H.
      * apply in_app_or in H as [H|[H|[]]]; [now apply Hnot in H | discriminate].
      * now apply Hnot in H.
  - now apply (Hopen f delay).
  - intros filename Hname.
    assert (Hg : browse_input_file filename f
                 = mkForm filename (output_file_var f) (delay_var f) (user_agent_var f)).
    { unfold browse_input_file. now rewrite Hname. }
    rewrite Hg.
    exact (Hopen (mkForm filename (output_file_var f) (delay_var f) (user_agent_var f))
                 delay Hfloat Hneg).
Qed.

End Run.

(** ** The sample runs *)

Local Abbreviation sample_fetch url :=
  (@fetch_obit_content nat Sample.web HtmlParser.BeautifulSoup url "UA").
Local Abbreviation sample_run input_file :=
  (@scrape_rss_feed nat Sample.web HtmlParser.BeautifulSoup Sample.fs Sample.reader
     input_file "out.xml" 3 "UA").

Ltac find_event := vm_compute; repeat (first [left; reflexivity | right]).

(** C3: the page with a subtitle element around the heading "Jane Doe" and
    an image element around an image with source http://x/a.jpg parses to
    two marker elements, which give the heading block and then the image
    block; the content of the page is the two blocks joined by a line
    feed. *)
Theorem jane_doe_fragment :
  let markup :=
    ("<div data-blog-component=" ++ dq ++ "subtitle" ++ dq ++ "><h3>Jane Doe</h3></div>" ++
   "<div data-blog-component=" ++ dq ++ "image" ++ dq ++ ">" ++
   "<img src=" ++ dq ++ "http://x/a.jpg" ++ dq ++ "></div>")%string in
  let h3_block := "<h3>Jane Doe</h3>" in
  let img_block :=
    ("<img src=" ++ dq ++ "http://x/a.jpg" ++ dq ++ " alt=" ++ dq ++ "obit image" ++ dq ++ " />")%string in
  Py.contains "are you human" (Py.lower (Py.slice_to 500 markup)) = false /\
  (exists page,
      HtmlParser.BeautifulSoup markup = Some page /\
      snd (for_divs (seconds := nat)
             (Bs4.find_all page "div" [Bs4.AnyValue "data-blog-component"]) [])
      = Ok [h3_block; img_block]) /\
  Sample.web "http://x/jane" "UA" = Some (200, markup) /\
  snd (sample_fetch "http://x/jane") = Ok (Some (h3_block ++ nl ++ img_block)%string).
Proof.
  cbv zeta. split; [vm_compute; reflexivity|]. split.
  - eexists. split; vm_compute; reflexivity.
  - split; vm_compute; reflexivity.
Qed.

(** C4, at a feed of one item: the description holds the wrapped content
    in memory, but the written file carries it with every angle bracket
    escaped, the CDATA markers too; the file has no CDATA section. *)
Theorem cdata_is_escaped_in_the_written_file :
  exists doc channel' item',
    In (TreeWrite "out.xml" doc) (fst (sample_run "one.xml")) /\
    ET.find doc "channel" = Some channel' /\
    ET.findall channel' "item" = [item'] /\
    description_is item'
      ("<h3>Jane Doe</h3>" ++ nl ++
       "<img src=" ++ dq ++ "http://x/a.jpg" ++ dq ++ " alt=" ++ dq ++ "obit image" ++ dq ++ " />") /\
    ET.write doc =
      ("<?xml version='1.0' encoding='utf-8'?>" ++ nl ++
       "<rss version=" ++ dq ++ "2.0" ++ dq ++ "><channel><title>Obituaries</title><item><title>Jane Doe</title><link> http://x/jane </link><description>&lt;![CDATA[" ++ nl ++
       "&lt;h3&gt;Jane Doe&lt;/h3&gt;" ++ nl ++
       "&lt;img src=" ++ dq ++ "http://x/a.jpg" ++ dq ++ " alt=" ++ dq ++ "obit image" ++ dq ++ " /&gt;" ++ nl ++
       "]]&gt;</description></item></channel></rss>")%string /\
    Py.contains "<![CDATA[" (ET.write doc) = false.
Proof.
  eexists. eexists. eexists. split.
  - find_event.
  - split; [vm_compute; reflexivity|].
    split; [vm_compute; reflexivity|].
    split; [|split; vm_compute; reflexivity].
    eexists. split; vm_compute; reflexivity.
Qed.

(** C5, at a feed of one item: the pause is performed after the last item,
    just before the document is written. *)
Theorem pause_follows_the_last_item :
  exists before doc channel',
    ET.find Sample.one_feed "channel" = Some channel' /\
    ET.findall channel' "item" = [Sample.jane_item] /\
    snd (sample_run "one.xml") = Ok tt /\
    fst (sample_run "one.xml") =
      before ++ [Print (InfoWaiting 3); Sleep 3;
                 TreeWrite "out.xml" doc; Print (InfoDone "out.xml")] /\
    In (HttpGet "http://x/jane" "UA" 10) before.
Proof.
  eexists (firstn 10 (fst (sample_run "one.xml"))). eexists. eexists.
  split; [vm_compute; reflexivity|].
  split; [vm_compute; reflexivity|].
  split; [vm_compute; reflexivity|].
  split; [vm_compute; reflexivity|].
  find_event.
Qed.

(** Against C1 as stated: in the sample feed the third item is the blocked
    one, the first item has no link, and the written document holds the
    first item as it was read, its description not updated. *)
Lemma linkless_item_before_the_block_is_not_updated :
  snd (sample_fetch "http://x/blocked") = Ok None /\
  exists doc channel' item1',
    In (TreeWrite "out.xml" doc) (fst (sample_run "blocked.xml")) /\
    ET.find doc "channel" = Some channel' /\
    nth_error (ET.findall channel' "item") 2 = Some Sample.blocked_item /\
    nth_error (ET.findall channel' "item") 0 = Some item1' /\
    item1' = Sample.linkless_item /\
    ~ (exists html, description_is item1' html).
Proof.
  split; [vm_compute; reflexivity|].
  eexists. eexists. eexists. split.
  - find_event.
  - split; [vm_compute; reflexivity|].
    split; [vm_compute; reflexivity|].
    split; [vm_compute; reflexivity|].
    split; [reflexivity|].
    intros (html & d & Hfind & Htext).
    vm_compute in Hfind. injection Hfind as <-.
    cbv in Htext. discriminate.
Qed.

(** Against C9 as stated, twice.  A page that is the challenge phrase alone
    has no marker element at all, and its outcome is the blocked one, not
    the empty content.  A page with a marked section that the parser does
    not know, and without the challenge phrase, makes the call end in the
    exception of the parser: no outcome is returned. *)
Lemma bare_challenge_blocks_and_unknown_section_raises :
  (fetched Sample.web "http://x/bare" "UA" "are you human" /\
   (exists page,
       HtmlParser.BeautifulSoup "are you human" = Some page /\
       no_recognized_marker page) /\
   snd (sample_fetch "http://x/bare") = Ok None /\
   snd (sample_fetch "http://x/bare") <> Ok (Some (Py.join nl []))) /\
  (fetched Sample.web "http://x/rejected" "UA" "<p>In memory</p><![foo]]>" /\
   Py.contains "are you human"
     (Py.lower (Py.slice_to 500 "<p>In memory</p><![foo]]>")) = false /\
   HtmlParser.BeautifulSoup "<p>In memory</p><![foo]]>" = None /\
   sample_fetch "http://x/rejected" =
     ([HttpGet "http://x/rejected" "UA" 10;
       Print (DebugFetched "http://x/rejected" 200);
       Print (DebugFirst500 "<p>In memory</p><![foo]]>");
       MakeSoup "<p>In memory</p><![foo]]>" "html.parser"],
      Raise ParserRejectedMarkup) /\
   forall outcome, snd (sample_fetch "http://x/rejected") <> Ok outcome).
Proof.
  split.
  - split; [exists 200; split; reflexivity|].
    split; [eexists; split; [vm_compute; reflexivity | vm_compute; constructor]|].
    split; [vm_compute; reflexivity | vm_compute; discriminate].
  - split; [exists 200; split; reflexivity|].
    split; [vm_compute; reflexivity|].
    split; [vm_compute; reflexivity|].
    split; [vm_compute; reflexivity|].
    intros outcome. vm_compute. discriminate.
Qed.

(** ** The properties at the sample runs *)

Ltac eval_body i n item :=
  let r := eval vm_compute in
    (@loop_body nat Sample.web HtmlParser.BeautifulSoup 3 "UA" i n item) in
  constr:(eq_refl r
          <: @loop_body nat Sample.web HtmlParser.BeautifulSoup 3 "UA" i n item = r).

(** C2 at the sample challenge page, which also carries a subtitle marker. *)
Lemma challenge_page_is_blocked_witness :
  fetched Sample.web "http://x/blocked" "UA" Sample.challenge_markup /\
  challenge_in_first_500 Sample.challenge_markup /\
  snd (sample_fetch "http://x/blocked") = Ok None /\
  (forall markup features,
      ~ In (MakeSoup markup features) (fst (sample_fetch "http://x/blocked"))).
Proof.
  assert (H1 : fetched Sample.web "http://x/blocked" "UA" Sample.challenge_markup)
    by (exists 200; split; reflexivity).
  assert (H2 : challenge_in_first_500 Sample.challenge_markup).
  { exists "<html><body><h1>", "Are You Human",
      ("?</h1><div data-blog-component=" ++ dq ++ "subtitle" ++ dq ++
       "><h3>Jane Doe</h3></div></body></html>")%string.
    split; [reflexivity|]. split; [apply Nat.leb_le|]; reflexivity. }
  split; [exact H1|]. split; [exact H2|].
  destruct (@challenge_page_is_blocked nat Sample.web HtmlParser.BeautifulSoup
              _ _ _ H1 H2) as (Hres & Hsoup & _).
  split; [exact Hres | exact Hsoup].
Defined.

(** C9, amended, at the sample page whose only marker has the value video. *)
Lemma unmarked_page_is_empty_content_witness :
  fetched Sample.web "http://x/plain" "UA" Sample.plain_markup /\
  ~ challenge_in_first_500 Sample.plain_markup /\
  (exists page,
      HtmlParser.BeautifulSoup Sample.plain_markup = Some page /\
      no_recognized_marker page) /\
  snd (sample_fetch "http://x/plain") = Ok (Some "").
Proof.
  assert (H1 : fetched Sample.web "http://x/plain" "UA" Sample.plain_markup)
    by (exists 200; split; reflexivity).
  assert (H2 : ~ challenge_in_first_500 Sample.plain_markup).
  { intros H. apply challenge_test_iff in H. vm_compute in H. discriminate. }
  destruct (HtmlParser.BeautifulSoup Sample.plain_markup) as [page|] eqn:H3;
    [|vm_compute in H3; discriminate].
  assert (H4 : no_recognized_marker page).
  { vm_compute in H3. injection H3 as <-. vm_compute. repeat constructor. }
  split; [exact H1|]. split; [exact H2|].
  split; [exists page; split; [reflexivity | exact H4]|].
  exact (proj1 (@unmarked_page_is_empty_content nat Sample.web
                  HtmlParser.BeautifulSoup _ _ _ page H1 H2 H3 H4)).
Defined.

(** C6 at the sample item whose page answers with status 404. *)
Lemma failed_fetch_is_empty_content_witness :
  fetch_fails Sample.web "http://x/gone" "UA" /\
  snd (@loop_body nat Sample.web HtmlParser.BeautifulSoup 3 "UA" 1 2 Sample.gone_item)
    = Ok (Next (store_description Sample.gone_item "")) /\
  description_is (store_description Sample.gone_item "") "".
Proof.
  assert (H : fetch_fails Sample.web (Py.strip "http://x/gone") "UA") by reflexivity.
  split; [exact H|].
  destruct (@failed_fetch_is_empty_content nat Sample.web HtmlParser.BeautifulSoup
              3 "UA" 1 2 Sample.gone_item (Sample.leaf "link" "http://x/gone")
              "http://x/gone" "No Title" [Sample.jane_item]
              eq_refl eq_refl eq_refl H) as (_ & Hbody & Hdesc & _).
  split; [rewrite Hbody; reflexivity | exact Hdesc].
Defined.

(** C7 at a missing path, a broken file and a file without channel. *)
Lemma failed_precondition_aborts_witness :
  fails_with Sample.fs Sample.reader PathMissing "missing.xml" /\
  fails_with Sample.fs Sample.reader NotWellFormed "broken.xml" /\
  fails_with Sample.fs Sample.reader NoChannel "no_channel.xml" /\
  sample_run "missing.xml"
    = ([Print (InfoParsing "missing.xml"); Print (ErrorNoFile "missing.xml")], Ok tt) /\
  sample_run "broken.xml"
    = ([Print (InfoParsing "broken.xml"); Print ErrorParse], Ok tt) /\
  sample_run "no_channel.xml"
    = ([Print (InfoParsing "no_channel.xml"); Print (ErrorNoChannel "no_channel.xml")],
       Ok tt).
Proof.
  assert (H1 : fails_with Sample.fs Sample.reader PathMissing "missing.xml")
    by reflexivity.
  assert (H2 : fails_with Sample.fs Sample.reader NotWellFormed "broken.xml")
    by (exists "<rss><channel>"; split; reflexivity).
  assert (H3 : fails_with Sample.fs Sample.reader NoChannel "no_channel.xml")
    by (exists "<rss version='2.0' />",
               (ET.mkElement "rss" [("version", "2.0")] None None []);
        repeat split; reflexivity).
  repeat (split; [assumption|]).
  split; [|split].
  - exact (proj1 (@failed_precondition_aborts nat Sample.web HtmlParser.BeautifulSoup
                    Sample.fs Sample.reader PathMissing _ "out.xml" 3 "UA" H1)).
  - exact (proj1 (@failed_precondition_aborts nat Sample.web HtmlParser.BeautifulSoup
                    Sample.fs Sample.reader NotWellFormed _ "out.xml" 3 "UA" H2)).
  - exact (proj1 (@failed_precondition_aborts nat Sample.web HtmlParser.BeautifulSoup
                    Sample.fs Sample.reader NoChannel _ "out.xml" 3 "UA" H3)).
Defined.

(** C1, amended, at the sample feed whose third item is blocked. *)
Lemma blocked_item_halts_the_run_witness :
  exists logs pre',
    passes Sample.web HtmlParser.BeautifulSoup 3 "UA" 4 1
           [Sample.linkless_item; Sample.jane_item] logs pre' /\
    snd (sample_fetch "http://x/blocked") = Ok None /\
    snd (sample_run "blocked.xml") = Ok tt /\
    In (TreeWrite "out.xml"
          (updated_tree Sample.blocked_feed
             (pre' ++ [Sample.blocked_item; Sample.jane_item])))
       (fst (sample_run "blocked.xml")).
Proof.
  pose proof ltac:(let p := eval_body 1 4 Sample.linkless_item in exact p) as B1.
  pose proof ltac:(let p := eval_body 2 4 Sample.jane_item in exact p) as B2.
  pose proof (passes_cons _ _ _ _ _ _ _ _ _ _ _ _ B1
                (passes_cons _ _ _ _ _ _ _ _ _ _ _ _ B2
                   (passes_nil Sample.web HtmlParser.BeautifulSoup 3 "UA" 4 3))) as Hp.
  assert (Hb : snd (sample_fetch (Py.strip "http://x/blocked")) = Ok None)
    by (vm_compute; reflexivity).
  destruct (@blocked_item_halts_the_run nat Sample.web HtmlParser.BeautifulSoup
              Sample.fs Sample.reader "blocked.xml" "out.xml" 3 "UA" "blocked"
              Sample.blocked_feed
              (Sample.channel [Sample.linkless_item; Sample.jane_item;
                               Sample.blocked_item; Sample.jane_item])
              [Sample.linkless_item; Sample.jane_item] Sample.blocked_item
              [Sample.jane_item] _ _ (Sample.leaf "link" "http://x/blocked")
              "http://x/blocked" "Blocked"
              eq_refl eq_refl eq_refl eq_refl Hp eq_refl eq_refl eq_refl Hb)
    as (Hrun & _).
  eexists. eexists. split; [exact Hp|]. split; [exact Hb|].
  rewrite Hrun. split; [reflexivity|]. cbn [fst].
  right. right. apply in_or_app. right. right. apply in_or_app. right.
  right. left. reflexivity.
Defined.

(** C8 at the sample feed whose third item is blocked and whose fourth
    item repeats the link of the second. *)
Lemma only_descriptions_change_witness :
  exists doc visited visited' rest,
    In (TreeWrite "out.xml" doc) (fst (sample_run "blocked.xml")) /\
    ET.findall (Sample.channel [Sample.linkless_item; Sample.jane_item;
                                Sample.blocked_item; Sample.jane_item]) "item"
    = visited ++ rest /\
    Forall2 (@processed nat Sample.web HtmlParser.BeautifulSoup "UA") visited visited' /\
    document_after Sample.blocked_feed
      (Sample.channel [Sample.linkless_item; Sample.jane_item;
                       Sample.blocked_item; Sample.jane_item])
      (visited' ++ rest) doc /\
    requests (fst (sample_run "blocked.xml"))
    = flat_map link_url visited ++ flat_map link_url (firstn 1 rest).
Proof.
  eexists.
  assert (H : In (TreeWrite "out.xml" ?[doc]) (fst (sample_run "blocked.xml")))
    by find_event.
  destruct (@only_descriptions_change nat Sample.web HtmlParser.BeautifulSoup
              Sample.fs Sample.reader "blocked.xml" "out.xml" 3 "UA" _ _ H)
    as ((content & root & channel & visited & visited' & rest
         & Hfs & Hxml & _ & Hch & Hitems & Hproc & _ & Hdoc & Hreq & _) & _).
  vm_compute in Hfs. injection Hfs as <-.
  vm_compute in Hxml. injection Hxml as <-.
  vm_compute in Hch. injection Hch as <-.
  exists visited, visited', rest.
  split; [exact H|]. split; [exact Hitems|]. split; [exact Hproc|].
  split; [exact Hdoc | exact Hreq].
Defined.

(** C10 at the sample feed whose second item has an empty link. *)
Lemma empty_link_raises_witness :
  exists logs pre',
    passes Sample.web HtmlParser.BeautifulSoup 3 "UA" 3 1 [Sample.jane_item] logs pre' /\
    ET.find Sample.empty_link_item "link" = Some (ET.mkElement "link" [] None None []) /\
    snd (sample_run "empty_link.xml") = Raise AttributeError /\
    fst (sample_run "empty_link.xml") =
      Print (InfoParsing "empty_link.xml") :: Print (InfoFound 3 "empty_link.xml") :: logs.
Proof.
  pose proof ltac:(let p := eval_body 1 3 Sample.jane_item in exact p) as B1.
  pose proof (passes_cons _ _ _ _ _ _ _ _ _ _ _ _ B1
                (passes_nil Sample.web HtmlParser.BeautifulSoup 3 "UA" 3 2)) as Hp.
  destruct (@empty_link_raises nat Sample.web HtmlParser.BeautifulSoup
              Sample.fs Sample.reader "empty_link.xml" "out.xml" 3 "UA" "empty_link"
              Sample.empty_link_feed
              (Sample.channel [Sample.jane_item; Sample.empty_link_item; Sample.jane_item])
              [Sample.jane_item] Sample.empty_link_item [Sample.jane_item] _ _
              (ET.mkElement "link" [] None None [])
              eq_refl eq_refl eq_refl eq_refl Hp eq_refl eq_refl)
    as (_ & Hrun).
  eexists. eexists. split; [exact Hp|]. split; [reflexivity|].
  rewrite Hrun. split; reflexivity.
Defined.

(** ** The further properties at sample runs *)

Local Abbreviation more_run input_file :=
  (@scrape_rss_feed nat Sample.web HtmlParser.BeautifulSoup More.fs More.reader
     input_file "out.xml" 3 "UA").
Local Abbreviation click f :=
  (@start_scraping Z Sample.web HtmlParser.BeautifulSoup More.fs More.reader
     More.float More.negative f).

(** The content of the sample page of Jane Doe, block by block. *)
Lemma content_is_blocks_in_page_order_witness :
  fetched Sample.web "http://x/jane" "UA" Sample.jane_markup /\
  ~ challenge_in_first_500 Sample.jane_markup /\
  exists page,
    HtmlParser.BeautifulSoup Sample.jane_markup = Some page /\
    snd (sample_fetch "http://x/jane")
    = Ok (Some (Py.join nl
                  (flat_map (blocks_of (seconds := nat))
                     (Bs4.find_all page "div" [Bs4.AnyValue "data-blog-component"])))).
Proof.
  assert (H1 : fetched Sample.web "http://x/jane" "UA" Sample.jane_markup)
    by (exists 200; split; reflexivity).
  assert (H2 : ~ challenge_in_first_500 Sample.jane_markup).
  { intros H. apply challenge_test_iff in H. vm_compute in H. discriminate. }
  split; [exact H1|]. split; [exact H2|].
  pose proof (proj1 (@content_is_blocks_in_page_order nat Sample.web
                       HtmlParser.BeautifulSoup _ _ _ H1 H2)) as H.
  destruct (HtmlParser.BeautifulSoup Sample.jane_markup) as [page|] eqn:E.
  - exists page. split; [reflexivity|].
    vm_compute in E. injection E as <-. exact (proj1 H).
  - vm_compute in E. discriminate.
Defined.

(** The text block of a page is written as [str] writes the element: the
    attributes by name, whatever their order in the page, and the words of
    the class joined by one space; the content of the page is this one
    block. *)
Theorem text_block_is_written_by_attribute_name :
  let block :=
    ("<div class=" ++ dq ++ "b a" ++ dq ++ " data-blog-inner=" ++ dq ++ "text" ++ dq ++
     " id=" ++ dq ++ "x" ++ dq ++ "><p>Hi</p></div>")%string in
  Py.contains "are you human" (Py.lower (Py.slice_to 500 More.text_markup)) = false /\
  exists page,
    HtmlParser.BeautifulSoup More.text_markup = Some page /\
    snd (for_divs (seconds := nat)
           (Bs4.find_all page "div" [Bs4.AnyValue "data-blog-component"]) [])
    = Ok [block].
Proof.
  cbv zeta. split; [vm_compute; reflexivity|].
  eexists. split; vm_compute; reflexivity.
Qed.

(** The sample feed whose second item has a page that the parser rejects. *)
Lemma rejected_page_ends_the_run_witness :
  exists logs pre',
    passes Sample.web HtmlParser.BeautifulSoup 3 "UA" 3 1 [Sample.jane_item] logs pre' /\
    fetched Sample.web "http://x/rejected" "UA" Sample.rejected_markup /\
    HtmlParser.BeautifulSoup Sample.rejected_markup = None /\
    snd (more_run "rejected.xml") = Raise ParserRejectedMarkup /\
    requests (fst (more_run "rejected.xml")) = ["http://x/jane"; "http://x/rejected"] /\
    pauses (fst (more_run "rejected.xml")) = 1 /\
    writes (fst (more_run "rejected.xml")) = [].
Proof.
  pose proof ltac:(let p := eval_body 1 3 Sample.jane_item in exact p) as B1.
  pose proof (passes_cons _ _ _ _ _ _ _ _ _ _ _ _ B1
                (passes_nil Sample.web HtmlParser.BeautifulSoup 3 "UA" 3 2)) as Hp.
  assert (H1 : fetched Sample.web (Py.strip "http://x/rejected") "UA"
                 Sample.rejected_markup)
    by (exists 200; split; reflexivity).
  assert (H2 : ~ challenge_in_first_500 Sample.rejected_markup).
  { intros H. apply challenge_test_iff in H. vm_compute in H. discriminate. }
  destruct (@rejected_page_ends_the_run nat Sample.web HtmlParser.BeautifulSoup
              More.fs More.reader "rejected.xml" "out.xml" 3 "UA" "rejected"
              More.rejected_feed
              (Sample.channel [Sample.jane_item; More.rejected_item; Sample.jane_item])
              [Sample.jane_item] More.rejected_item [Sample.jane_item] _ _
              (Sample.leaf "link" "http://x/rejected") "http://x/rejected"
              "Rejected" Sample.rejected_markup
              eq_refl eq_refl eq_refl eq_refl Hp eq_refl eq_refl eq_refl H1 H2 eq_refl)
    as (status_code & Hrun & _).
  eexists. eexists. split; [exact Hp|]. split; [exact H1|].
  split; [reflexivity|].
  rewrite Hrun. split; [reflexivity|]. repeat split; reflexivity.
Defined.

(** The sample feed whose second item has an empty title. *)
Lemma empty_title_raises_witness :
  exists logs pre',
    passes Sample.web HtmlParser.BeautifulSoup 3 "UA" 3 1 [Sample.jane_item] logs pre' /\
    ET.find More.empty_title_item "title" = Some (ET.mkElement "title" [] None None []) /\
    snd (more_run "empty_title.xml") = Raise AttributeError /\
    requests (fst (more_run "empty_title.xml")) = ["http://x/jane"].
Proof.
  pose proof ltac:(let p := eval_body 1 3 Sample.jane_item in exact p) as B1.
  pose proof (passes_cons _ _ _ _ _ _ _ _ _ _ _ _ B1
                (passes_nil Sample.web HtmlParser.BeautifulSoup 3 "UA" 3 2)) as Hp.
  destruct (@empty_title_raises nat Sample.web HtmlParser.BeautifulSoup
              More.fs More.reader "empty_title.xml" "out.xml" 3 "UA" "empty_title"
              More.empty_title_feed
              (Sample.channel [Sample.jane_item; More.empty_title_item; Sample.jane_item])
              [Sample.jane_item] More.empty_title_item [Sample.jane_item] _ _
              (Sample.leaf "link" "http://x/jane")
              (ET.mkElement "title" [] None None []) "http://x/jane"
              eq_refl eq_refl eq_refl eq_refl Hp eq_refl eq_refl eq_refl eq_refl)
    as (_ & Hrun).
  eexists. eexists. split; [exact Hp|]. split; [reflexivity|].
  rewrite Hrun. split; reflexivity.
Defined.

(** The loop over the sample feed with a blocked third item, twice. *)
Lemma second_pass_changes_nothing_witness :
  exists items',
    snd (@for_items nat Sample.web HtmlParser.BeautifulSoup 3 "UA" 1 4
           [Sample.linkless_item; Sample.jane_item; Sample.blocked_item; Sample.jane_item])
    = Ok items' /\
    nth_error items' 1 <> Some Sample.jane_item /\
    snd (@for_items nat Sample.web HtmlParser.BeautifulSoup 3 "UA" 1 4 items') = Ok items'.
Proof.
  eexists.
  assert (H : snd (@for_items nat Sample.web HtmlParser.BeautifulSoup 3 "UA" 1 4
                     [Sample.linkless_item; Sample.jane_item; Sample.blocked_item;
                      Sample.jane_item]) = Ok ?[items'])
    by (vm_compute; reflexivity).
  split; [exact H|]. split; [vm_compute; discriminate|].
  exact (@second_pass_changes_nothing nat Sample.web HtmlParser.BeautifulSoup
           3 "UA" 1 4 1 4 _ _ H).
Defined.


(** The run over the sample feed whose two items are both gone through. *)
Lemma complete_run_witness :
  exists logs items',
    passes Sample.web HtmlParser.BeautifulSoup 3 "UA" 2 1
           [Sample.gone_item; Sample.jane_item] logs items' /\
    snd (sample_run "gone.xml") = Ok tt /\
    Forall2 (@processed nat Sample.web HtmlParser.BeautifulSoup "UA")
            [Sample.gone_item; Sample.jane_item] items' /\
    requests logs = ["http://x/gone"; "http://x/jane"] /\
    pauses logs = 2.
Proof.
  pose proof ltac:(let p := eval_body 1 2 Sample.gone_item in exact p) as B1.
  pose proof ltac:(let p := eval_body 2 2 Sample.jane_item in exact p) as B2.
  pose proof (passes_cons _ _ _ _ _ _ _ _ _ _ _ _ B1
                (passes_cons _ _ _ _ _ _ _ _ _ _ _ _ B2
                   (passes_nil Sample.web HtmlParser.BeautifulSoup 3 "UA" 2 3))) as Hp.
  destruct (@complete_run nat Sample.web HtmlParser.BeautifulSoup
              Sample.fs Sample.reader "gone.xml" "out.xml" 3 "UA" "gone"
              Sample.gone_feed (Sample.channel [Sample.gone_item; Sample.jane_item])
              _ _ eq_refl eq_refl eq_refl Hp)
    as (Hrun & Hproc & Hr & Hn & _).
  eexists. eexists. split; [exact Hp|].
  split; [rewrite Hrun; reflexivity|].
  split; [exact Hproc|].
  split; [exact Hr | rewrite Hn, Hr; reflexivity].
Defined.

(** The run over the sample feed whose items have no link. *)
Lemma feed_without_links_is_written_as_read_witness :
  Forall (fun item => ET.find item "link" = None) [Sample.linkless_item; Sample.item []] /\
  more_run "linkless.xml" =
    ([Print (InfoParsing "linkless.xml"); Print (InfoFound 2 "linkless.xml");
      Print (WarnNoLink 1 2); Print (WarnNoLink 2 2);
      TreeWrite "out.xml" More.linkless_feed; Print (InfoDone "out.xml")],
     Ok tt).
Proof.
  assert (H : Forall (fun item => ET.find item "link" = None)
                [Sample.linkless_item; Sample.item []])
    by (repeat constructor).
  split; [exact H|].
  exact (@feed_without_links_is_written_as_read nat Sample.web HtmlParser.BeautifulSoup
           More.fs More.reader "linkless.xml" "out.xml" 3 "UA" "linkless"
           More.linkless_feed (Sample.channel [Sample.linkless_item; Sample.item []])
           eq_refl eq_refl eq_refl H).
Defined.

(** The run over the sample feed whose first item with a link is the
    blocked one. *)
Lemma first_request_blocked_writes_the_input_witness :
  snd (sample_fetch "http://x/blocked") = Ok None /\
  writes (fst (more_run "first_blocked.xml")) = [("out.xml", More.first_blocked_feed)] /\
  requests (fst (more_run "first_blocked.xml")) = ["http://x/blocked"].
Proof.
  assert (Hb : snd (sample_fetch (Py.strip "http://x/blocked")) = Ok None)
    by (vm_compute; reflexivity).
  assert (Hl : Forall (fun item => ET.find item "link" = None) [Sample.linkless_item])
    by (repeat constructor).
  split; [exact Hb|].
  destruct (@first_request_blocked_writes_the_input nat Sample.web
              HtmlParser.BeautifulSoup More.fs More.reader
              "first_blocked.xml" "out.xml" 3 "UA" "first_blocked"
              More.first_blocked_feed
              (Sample.channel [Sample.linkless_item; Sample.blocked_item; Sample.jane_item])
              [Sample.linkless_item] Sample.blocked_item [Sample.jane_item]
              (Sample.leaf "link" "http://x/blocked") "http://x/blocked" "Blocked"
              eq_refl eq_refl eq_refl eq_refl
              Hl eq_refl eq_refl eq_refl Hb)
    as (_ & Hw & Hr & _).
  split; [exact Hw | exact Hr].
Defined.

(** A click with a missing input file and a delay of three seconds. *)
Lemma done_is_shown_whenever_the_run_returns_witness :
  More.float "3" = Some 3%Z /\ More.negative 3%Z = false /\
  fails_with More.fs More.reader PathMissing (Py.strip " missing.xml ") /\
  In (Dialog (ShowInfo "Done"
                ("Scraping completed. Updated feed saved to:" ++ nl ++ "out.xml")))
     (fst (click (mkForm " missing.xml " "out.xml " "3" "UA"))).
Proof.
  assert (Hc : fails_with More.fs More.reader PathMissing (Py.strip " missing.xml "))
    by reflexivity.
  split; [reflexivity|]. split; [reflexivity|]. split; [exact Hc|].
  destruct (@done_is_shown_whenever_the_run_returns Z Sample.web
              HtmlParser.BeautifulSoup More.fs More.reader More.float More.negative
              (mkForm " missing.xml " "out.xml " "3" "UA") 3%Z eq_refl eq_refl)
    as (_ & _ & H).
  exact (proj1 (H PathMissing Hc)).
Defined.

(** A click with an empty User-Agent field. *)
Lemma click_uses_the_stripped_fields_witness :
  More.float " 0 " = Some 0%Z /\ More.negative 0%Z = false /\
  In (Dialog (ShowWarning "Empty User-Agent"
                "User-Agent is empty. You might get blocked by the website."))
     (fst (click (mkForm " one.xml" " out.xml " " 0 " "  "))) /\
  In (Script (Print (InfoParsing "one.xml")))
     (fst (click (mkForm " one.xml" " out.xml " " 0 " "  "))).
Proof.
  split; [reflexivity|]. split; [reflexivity|].
  destruct (@click_uses_the_stripped_fields Z Sample.web
              HtmlParser.BeautifulSoup More.fs More.reader More.float More.negative
              (mkForm " one.xml" " out.xml " " 0 " "  ") 0%Z eq_refl eq_refl)
    as (_ & _ & _ & Hw & Hp & _).
  split; [apply Hw; reflexivity | exact Hp].
Defined.
